(** * Entitlement-state resolution and trust caching of the JavaScript SDK

    A shallow embedding of [signature-verifier.js], [entitlement-state.js],
    [license-state.js], [state-resolver.js], [state-store.js],
    [cache/cache-manager.js], the state part and the offline validation of
    [validation/license-validator.js], the retry loop of
    [http/http-client.js] and the identifiers of
    [downloads/download-manager.js], followed by the properties of the
    specification that concern them and by further properties of the code.

    Conventions of the embedding.
    - JavaScript values that travel as JSON are the inductive type [json];
      an object is the list of its own enumerable properties in enumeration
      order.  Strings are sequences of code units below 256, numbers are
      integers that [JSON.stringify] writes with all their digits (of
      magnitude below 10^21).
    - [Date.now() / 1000] is the parameter [now] of every synchronous
      method; one call reads one instant, in whole seconds.
    - A method that may throw returns a [result]; a method of a cache returns
      the cache as it leaves it next to its result.  The asynchronous methods
      of the validator are computations over the clock and the two caches
      (the type [LicenseValidator.M]).
    - The exception classes are the ones of [exceptions.js], which exports
      [LicenseError], [ValidationError], [NetworkError], [SignatureError],
      [StateError] and their kin.  The validator and the HTTP client
      destructure [LicenseException], [ValidationException],
      [SignatureException], [NetworkException] and [StateException] from
      that module, which exports no such names: the five are bound to
      [undefined], so that [new] of one of them, [instanceof] against one of
      them and the reading of a property of one of them throw a TypeError.
      [entitlement-state.js] names [SignatureError] without requiring it:
      evaluating the name throws a ReferenceError.  [state-resolver.js]
      requires [SignatureError] and throws it.
    - A signature is a string, as the API sends it.  Where the code hands a
      truthy signature that is not a string to [Buffer.from], the resolver
      and [verifyJsonResponse] follow the case in which [Buffer.from] throws;
      the statements about them that depend on the signature take a string
      signature as a hypothesis.  The offline validation and the HTTP client
      leave that case to a parameter. *)

From Stdlib Require Import ZArith List String Ascii Bool Lia Permutation Sorted.
From Stdlib Require Import DecimalString.
From stdpp Require Import gmap strings.
Import ListNotations.

Local Open Scope string_scope.
Local Open Scope Z_scope.

(** ** JavaScript values *)

Module JS.

#[warnings="-register-all"]
Inductive json : Type :=
| JNull
| JBool (b : bool)
| JNum (n : Z)
| JStr (s : string)
| JArr (items : list json)
| JObj (props : list (string * json)).

(** An object: own enumerable string-keyed properties, in the order in which
    [Object.keys], spread and [JSON.stringify] enumerate them. *)
Definition obj : Type := list (string * json).

(** ToBoolean. *)
Definition truthy (v : json) : bool :=
  match v with
  | JNull => false
  | JBool b => b
  | JNum n => negb (n =? 0)
  | JStr s => negb (String.eqb s "")
  | JArr _ => true
  | JObj _ => true
  end.

(** ToBoolean of a property that may be missing ([undefined] is falsy). *)
Definition truthy_opt (o : option json) : bool :=
  match o with Some v => truthy v | None => false end.

(** *** Strings *)

(** [String.prototype.toLowerCase] on code units below 256: A-Z and the
    Latin-1 capitals (all of 0xC0-0xDE but the multiplication sign). *)
Definition lower_char (c : ascii) : ascii :=
  let n := N_of_ascii c in
  if ((65 <=? n) && (n <=? 90) || (192 <=? n) && (n <=? 222) && negb (n =? 215))%N
  then ascii_of_N (n + 32) else c.

Fixpoint toLowerCase (s : string) : string :=
  match s with
  | EmptyString => EmptyString
  | String c r => String (lower_char c) (toLowerCase r)
  end.

(** [Array.prototype.includes] on an array of strings. *)
Definition includes (l : list string) (s : string) : bool :=
  existsb (String.eqb s) l.

(** [String.prototype.trim() === ''] : only white space and line ends. *)
Definition is_space (c : ascii) : bool :=
  let n := N_of_ascii c in
  ((n =? 9) || (n =? 10) || (n =? 11) || (n =? 12) || (n =? 13) || (n =? 32) || (n =? 160))%N.

Fixpoint blank (s : string) : bool :=
  match s with
  | EmptyString => true
  | String c r => is_space c && blank r
  end.

(** The default comparison of [Array.prototype.sort]: strings by code units. *)
Fixpoint insert_sorted (k : string) (l : list string) : list string :=
  match l with
  | [] => [k]
  | x :: r => if String.leb k x then k :: l else x :: insert_sorted k r
  end.

Definition sort (l : list string) : list string :=
  fold_right insert_sorted [] l.

(** *** Objects *)

Fixpoint obj_get (k : string) (o : obj) : option json :=
  match o with
  | [] => None
  | (k', v) :: r => if String.eqb k k' then Some v else obj_get k r
  end.

Definition obj_has (k : string) (o : obj) : bool :=
  match obj_get k o with Some _ => true | None => false end.

Definition keys (o : obj) : list string := map fst o.

(** [delete o[k]]. *)
Fixpoint obj_delete (k : string) (o : obj) : obj :=
  match o with
  | [] => []
  | (k', v) :: r => if String.eqb k k' then obj_delete k r else (k', v) :: obj_delete k r
  end.

(** An array index: the canonical decimal numeral of an integer below
    [2^32 - 1].  Such keys are enumerated first, in ascending numeric order. *)
Definition digit (c : ascii) : option N :=
  let n := N_of_ascii c in
  if ((48 <=? n) && (n <=? 57))%N then Some (n - 48)%N else None.

Fixpoint digits (acc : N) (s : string) : option N :=
  match s with
  | EmptyString => Some acc
  | String c r =>
      match digit c with
      | Some d => digits (acc * 10 + d)%N r
      | None => None
      end
  end.

Definition array_index (k : string) : option N :=
  match k with
  | EmptyString => None
  | String c r =>
      if (N_of_ascii c =? 48)%N && negb (String.eqb r "") then None
      else match digits 0 k with
           | Some n => if (n <? 4294967295)%N then Some n else None
           | None => None
           end
  end.

Fixpoint obj_update (k : string) (v : json) (o : obj) : obj :=
  match o with
  | [] => []
  | (k', v') :: r => if String.eqb k k' then (k', v) :: r else (k', v') :: obj_update k v r
  end.

(** Place a new array-index property among the leading index properties. *)
Fixpoint obj_insert_index (i : N) (k : string) (v : json) (o : obj) : obj :=
  match o with
  | [] => [(k, v)]
  | (k', v') :: r =>
      match array_index k' with
      | Some j => if (j <? i)%N then (k', v') :: obj_insert_index i k v r
                  else (k, v) :: o
      | None => (k, v) :: o
      end
  end.

(** [o[k] = v] on an ordinary object.  The key [__proto__] reaches the
    accessor of [Object.prototype] and creates no own property. *)
Definition obj_set (o : obj) (k : string) (v : json) : obj :=
  if String.eqb k "__proto__" then o
  else if obj_has k o then obj_update k v o
  else match array_index k with
       | Some i => obj_insert_index i k v o
       | None => (o ++ [(k, v)])%list
       end.

(** [Object.assign(target, source)] for a source object. *)
Definition obj_assign (target source : obj) : obj :=
  fold_left (fun t kv => obj_set t (fst kv) (snd kv)) source target.

(** *** JSON.stringify *)

Definition hex_digit (n : N) : ascii :=
  if (n <? 10)%N then ascii_of_N (48 + n) else ascii_of_N (87 + n).

Definition dquote : string := String (ascii_of_N 34) "".

Definition quote_char (c : ascii) : string :=
  let n := N_of_ascii c in
  if (n =? 34)%N then "\" ++ dquote
  else if (n =? 92)%N then "\\"
  else if (n =? 8)%N then "\b"
  else if (n =? 12)%N then "\f"
  else if (n =? 10)%N then "\n"
  else if (n =? 13)%N then "\r"
  else if (n =? 9)%N then "\t"
  else if (n <? 32)%N then
    "\u00" ++ String (hex_digit (n / 16)) (String (hex_digit (n mod 16)) "")
  else String c "".

Fixpoint quote_body (s : string) : string :=
  match s with
  | EmptyString => EmptyString
  | String c r => quote_char c ++ quote_body r
  end.

Definition quote (s : string) : string := dquote ++ quote_body s ++ dquote.

Definition number_to_string (n : Z) : string :=
  NilZero.string_of_int (Z.to_int n).

Fixpoint join (sep : string) (l : list string) : string :=
  match l with
  | [] => ""
  | [x] => x
  | x :: r => x ++ sep ++ join sep r
  end.

Fixpoint stringify (v : json) : string :=
  match v with
  | JNull => "null"
  | JBool b => if b then "true" else "false"
  | JNum n => number_to_string n
  | JStr s => quote s
  | JArr items => "[" ++ join "," (map stringify items) ++ "]"
  | JObj props =>
      "{" ++ join "," (map (fun kv => quote (fst kv) ++ ":" ++ stringify (snd kv)) props) ++ "}"
  end.

(** Property read [v.k] on a value that is not [null]: primitives and arrays
    have none of the properties the SDK asks for. *)
Definition prop (v : json) (k : string) : option json :=
  match v with
  | JObj props => obj_get k props
  | _ => None
  end.

(** The own enumerable properties that [Object.assign] copies from a
    source: those of an object, the elements of an array under their
    indices, the characters of a string; nothing for other primitives. *)
Fixpoint indexed {A : Type} (f : A -> json) (i : Z) (l : list A) : obj :=
  match l with
  | [] => []
  | x :: r => (number_to_string i, f x) :: indexed f (i + 1) r
  end.

Definition own_props (v : json) : obj :=
  match v with
  | JObj props => props
  | JArr items => indexed (fun x => x) 0 items
  | JStr s => indexed (fun c => JStr (String c "")) 0 (list_ascii_of_string s)
  | _ => []
  end.

(** [typeof v === 'object'] ([null] included). *)
Definition typeof_object (v : json) : bool :=
  match v with
  | JNull | JArr _ | JObj _ => true
  | _ => false
  end.

(** [v || d]. *)
Definition or_else (o : option json) (d : json) : json :=
  match o with
  | Some v => if truthy v then v else d
  | None => d
  end.

End JS.
Import JS.

(** ** exceptions.js *)

Module Exceptions.

Inductive exn_class : Type :=
| LicenseError | ValidationError | NetworkError | SignatureError
| RateLimitError | LicenseStatusError | ExpiredError | SuspendedError
| RevokedError | ActivationError | FeatureError | StateError
| TypeError | ReferenceError | Error.

(** The [extends] clause of each class ([TypeError] and [ReferenceError]
    extend [Error]). *)
Definition extends (c : exn_class) : option exn_class :=
  match c with
  | Error => None
  | TypeError => Some Error
  | ReferenceError => Some Error
  | LicenseError => Some Error
  | ExpiredError | SuspendedError | RevokedError => Some LicenseStatusError
  | _ => Some LicenseError
  end.

Definition exn_class_eqb (a b : exn_class) : bool :=
  match a, b with
  | LicenseError, LicenseError | ValidationError, ValidationError
  | NetworkError, NetworkError | SignatureError, SignatureError
  | RateLimitError, RateLimitError | LicenseStatusError, LicenseStatusError
  | ExpiredError, ExpiredError | SuspendedError, SuspendedError
  | RevokedError, RevokedError | ActivationError, ActivationError
  | FeatureError, FeatureError | StateError, StateError
  | TypeError, TypeError | ReferenceError, ReferenceError | Error, Error => true
  | _, _ => false
  end.

Record exn : Type := mkExn { cls : exn_class; message : string }.

(** [e instanceof K]: the class of [e] or one of its ancestors is [K]
    (the hierarchy is three levels deep). *)
Fixpoint subclass (depth : nat) (c k : exn_class) : bool :=
  exn_class_eqb c k ||
  match depth with
  | O => false
  | S d => match extends c with Some p => subclass d p k | None => false end
  end.

Definition instanceof (e : exn) (k : exn_class) : bool := subclass 3 (cls e) k.

Inductive result (A : Type) : Type :=
| Ret (a : A)
| Throw (e : exn).
Arguments Ret {A} a.
Arguments Throw {A} e.

(** What the engine throws on a name that is bound to [undefined] (a name
    destructured from a module that does not export it) or not bound at
    all. *)

(** [e instanceof K], [K] being [undefined]. *)
Definition instanceof_undefined (e : exn) : result bool :=
  Throw (mkExn TypeError "Right-hand side of 'instanceof' is not callable").

(** [new K(...)], [K] being [undefined], once the arguments are evaluated. *)
Definition new_undefined (name : string) : exn :=
  mkExn TypeError (name ++ " is not a constructor").

(** [K.property], [K] being [undefined]. *)
Definition read_of_undefined (property : string) : exn :=
  mkExn TypeError ("Cannot read properties of undefined (reading '" ++ property ++ "')").

(** The evaluation of a name that is not bound. *)
Definition not_defined (name : string) : exn :=
  mkExn ReferenceError (name ++ " is not defined").

End Exceptions.
Import Exceptions.

(** ** signature-verifier.js *)

Module SignatureVerifier.

(** A verifier holds an RSA public key.  [rsa_sha256 data signature] is
    what [crypto.createVerify('RSA-SHA256')] answers for that key on [data]
    and the base64 text [signature]. *)
Record t : Type := { rsa_sha256 : string -> string -> bool }.

Definition verify (v : t) (data signature : string) : result bool :=
  if String.eqb data "" then Throw (mkExn Error "Data cannot be empty")
  else if String.eqb signature "" then Throw (mkExn Error "Signature cannot be empty")
  else Ret (rsa_sha256 v data signature).

(** The loop [for (const key of keys) sorted[key] = sortKeysRecursive(data[key])]
    over the sorted keys; [values] holds the properties of [data] with their
    values already sorted. *)
Definition rebuild (values : obj) (sorted_keys : list string) : obj :=
  fold_left
    (fun sorted key =>
       match obj_get key values with
       | Some v => obj_set sorted key v
       | None => sorted
       end)
    sorted_keys [].

Fixpoint sortKeysRecursive (data : json) : json :=
  match data with
  | JArr items => JArr (map sortKeysRecursive items)
  | JObj props =>
      JObj (rebuild (map (fun kv => (fst kv, sortKeysRecursive (snd kv))) props)
                    (sort (keys props)))
  | _ => data
  end.

Definition canonicalizeJson (data : json) : string :=
  stringify (sortKeysRecursive data).

(** [delete data.signature] on whatever was parsed. *)
Definition delete_signature (data : json) : json :=
  match data with
  | JObj props => JObj (obj_delete "signature" props)
  | _ => data
  end.

Section Parse.

(** [JSON.parse], which answers with a value or throws a SyntaxError. *)
Variable JSON_parse : string -> result json.

Definition verifyJsonResponse (v : t) (jsonResponse : string) : result bool :=
  match JSON_parse jsonResponse with
  | Throw e => Throw (mkExn Error ("Invalid JSON: " ++ message e))
  | Ret JNull => Throw (mkExn TypeError "Cannot read properties of null")
  | Ret data =>
      match prop data "signature" with
      | Some (JStr signature) =>
          if String.eqb signature ""
          then Throw (mkExn Error "Response does not contain signature field")
          else
            let canonicalJson := canonicalizeJson (delete_signature data) in
            verify v canonicalJson signature
      | Some s =>
          if truthy s
          then Throw (mkExn Error "Invalid base64 signature")
          else Throw (mkExn Error "Response does not contain signature field")
      | None => Throw (mkExn Error "Response does not contain signature field")
      end
  end.

End Parse.

End SignatureVerifier.

(** ** entitlement-state.js *)

Module EntitlementState.

Inductive State : Type := ACTIVE | GRACE | RESTRICTED | INVALID.

Definition State_eqb (a b : State) : bool :=
  match a, b with
  | ACTIVE, ACTIVE | GRACE, GRACE | RESTRICTED, RESTRICTED | INVALID, INVALID => true
  | _, _ => false
  end.

(** The value of the constant, as serialized. *)
Definition State_name (s : State) : string :=
  match s with
  | ACTIVE => "ACTIVE"
  | GRACE => "GRACE"
  | RESTRICTED => "RESTRICTED"
  | INVALID => "INVALID"
  end.

(** The nested [payload.license] object, as far as the class reads it. *)
Record License : Type := {
  license_status : option string;
  license_features : option json;
  activations_limit : option json;
  activations_count : option json
}.

(** The payload handed to the constructor.  [None] is a missing property
    (or [null]).  Times are numbers and statuses are strings, as every
    producer of payloads builds them; [valid], [features], [metadata] and
    [issued_at] keep whatever JSON value they were given. *)
Record Payload : Type := {
  status : option string;
  valid : option json;
  valid_from : option Z;
  valid_until : option Z;
  revalidation_failed : bool;
  last_verified_at : option Z;
  features : option json;
  license : option License;
  context_binding : option string;
  product_id : option string;
  environment : option string;
  metadata : option json;
  issued_at : option json
}.

Record t : Type := {
  state : State;
  capabilities : obj;
  validFrom : option Z;
  validUntil : option Z;
  contextBinding : option string;
  productId : option string;
  environmentName : option string;   (* this.environment *)
  metadataOf : json;                 (* this.metadata *)
  signature : option string;
  issuedAt : json;
  lastVerifiedAt : Z
}.

(** The plain object built by [toObject], which is also what the store
    keeps and what [fromCache] receives. *)
Record StateObject : Type := {
  o_state : State;
  o_capabilities : obj;
  o_valid_from : option Z;
  o_valid_until : option Z;
  o_context_binding : option string;
  o_product_id : option string;
  o_environment : option string;
  o_metadata : json;
  o_signature : option string;
  o_issued_at : json;
  o_last_verified_at : Z
}.

(** Truthiness of typed properties. *)
Definition truthy_num (o : option Z) : bool :=
  match o with Some n => negb (n =? 0) | None => false end.

Definition truthy_str (o : option string) : bool :=
  match o with Some s => negb (String.eqb s "") | None => false end.

(** [x || null]. *)
Definition num_or_null (o : option Z) : option Z :=
  if truthy_num o then o else None.

Definition str_or_null (o : option string) : option string :=
  if truthy_str o then o else None.

(** [x || d] on numbers. *)
Definition num_or (o : option Z) (d : Z) : Z :=
  match o with Some n => if n =? 0 then d else n | None => d end.

Definition is_true (o : option json) : bool :=
  match o with Some (JBool true) => true | _ => false end.

Definition is_false (o : option json) : bool :=
  match o with Some (JBool false) => true | _ => false end.

(** The value of a property read behind its truthiness guard. *)
Definition num (o : option Z) : Z :=
  match o with Some n => n | None => 0 end.

Definition str (o : option string) : string :=
  match o with Some s => s | None => "" end.

Definition determineState (now : Z) (payload : Payload) : State :=
  if truthy_str (status payload) &&
     includes ["revoked"; "suspended"; "cancelled"] (toLowerCase (str (status payload)))
  then INVALID
  else if truthy_num (valid_from payload) && (now <? num (valid_from payload))
  then RESTRICTED
  else if truthy_num (valid_until payload) && (num (valid_until payload) <? now)
  then
    let gracePeriod := 7 * 86400 in
    if now - num (valid_until payload) <? gracePeriod then GRACE else RESTRICTED
  else if is_true (valid payload)
  then ACTIVE
  else if revalidation_failed payload &&
          (let lastVerified := num_or (last_verified_at payload) 0 in
           let graceWindow := 72 * 3600 in
           now - lastVerified <? graceWindow)
  then GRACE
  else ACTIVE.

Definition determineUpdateCapability (payload : Payload) : bool :=
  if is_false (valid payload) then false
  else match license payload with
       | Some l =>
           if truthy_str (license_status l) &&
              includes ["revoked"; "suspended"] (toLowerCase (str (license_status l)))
           then false else true
       | None => true
       end.

Definition determineTelemetryCapability (payload : Payload) : bool :=
  match features payload with
  | Some f =>
      if truthy f then
        match prop f "telemetry" with
        | Some v => truthy v
        | None => true
        end
      else true
  | None => true
  end.

Definition determineDownloadCapability (payload : Payload) : bool :=
  match license payload with
  | Some l =>
      if truthy_str (license_status l)
      then includes ["active"; "assigned"; "available"] (toLowerCase (str (license_status l)))
      else is_true (valid payload)
  | None => is_true (valid payload)
  end.

Definition extractCapabilities (payload : Payload) : obj :=
  let capabilities : obj := [] in
  let capabilities :=
    match features payload with
    | Some f => if truthy f && typeof_object f
                then obj_assign capabilities (own_props f) else capabilities
    | None => capabilities
    end in
  let capabilities :=
    match license payload with
    | Some l =>
        match license_features l with
        | Some f => if truthy f then obj_assign capabilities (own_props f) else capabilities
        | None => capabilities
        end
    | None => capabilities
    end in
  let capabilities := obj_set capabilities "updates" (JBool (determineUpdateCapability payload)) in
  let capabilities := obj_set capabilities "telemetry" (JBool (determineTelemetryCapability payload)) in
  let capabilities := obj_set capabilities "downloads" (JBool (determineDownloadCapability payload)) in
  match license payload with
  | Some l =>
      let capabilities :=
        match activations_limit l with
        | Some v => obj_set capabilities "max_activations" v
        | None => capabilities
        end in
      match activations_count l with
      | Some v => obj_set capabilities "current_activations" v
      | None => capabilities
      end
  | None => capabilities
  end.

(** [new EntitlementState(payload, signature)] at the instant [now]. *)
Definition constructor (now : Z) (payload : Payload) (sig : option string) : t :=
  {| state := determineState now payload;
     capabilities := extractCapabilities payload;
     validFrom := num_or_null (valid_from payload);
     validUntil := num_or_null (valid_until payload);
     contextBinding := str_or_null (context_binding payload);
     productId := str_or_null (product_id payload);
     environmentName := str_or_null (environment payload);
     metadataOf := or_else (metadata payload) (JObj []);
     signature := sig;
     issuedAt := or_else (issued_at payload) (JNum now);
     lastVerifiedAt := now |}.

(** The properties of a cached object that the constructor reads when the
    object is passed to it as a payload: a cached object has no [status],
    [valid], [features], [license] or [revalidation_failed]. *)
Definition payload_of_object (o : StateObject) : Payload :=
  {| status := None;
     valid := None;
     valid_from := o_valid_from o;
     valid_until := o_valid_until o;
     revalidation_failed := false;
     last_verified_at := Some (o_last_verified_at o);
     features := None;
     license := None;
     context_binding := o_context_binding o;
     product_id := o_product_id o;
     environment := o_environment o;
     metadata := Some (o_metadata o);
     issued_at := Some (o_issued_at o) |}.

Definition json_of_num (o : option Z) : json :=
  match o with Some n => JNum n | None => JNull end.

Definition json_of_str (o : option string) : json :=
  match o with Some s => JStr s | None => JNull end.

(** The cached object as a JavaScript object, properties in the order of
    the literal in [toObject]. *)
Definition object_props (o : StateObject) : obj :=
  [ ("state", JStr (State_name (o_state o)));
    ("capabilities", JObj (o_capabilities o));
    ("valid_from", json_of_num (o_valid_from o));
    ("valid_until", json_of_num (o_valid_until o));
    ("context_binding", json_of_str (o_context_binding o));
    ("product_id", json_of_str (o_product_id o));
    ("environment", json_of_str (o_environment o));
    ("metadata", o_metadata o);
    ("signature", json_of_str (o_signature o));
    ("issued_at", o_issued_at o);
    ("last_verified_at", JNum (o_last_verified_at o)) ].

(** [fromCache(cachedData, verifier)] at the instant [now]. *)
Definition fromCache (now : Z) (cachedData : StateObject)
    (verifier : option SignatureVerifier.t) : result t :=
  if negb (truthy_str (o_signature cachedData))
  then (* throw new SignatureError('Cached state missing signature') *)
       Throw (not_defined "SignatureError")
  else
    let construct := Ret (constructor now (payload_of_object cachedData) (o_signature cachedData)) in
    match verifier with
    | Some v =>
        let signature := str (o_signature cachedData) in
        let dataWithoutSig := obj_delete "signature" (object_props cachedData) in
        let payload := stringify (JObj dataWithoutSig) in
        match SignatureVerifier.verify v payload signature with
        | Throw e => Throw e
        | Ret false =>
            (* throw new SignatureError('Cached state signature verification failed') *)
            Throw (not_defined "SignatureError")
        | Ret true => construct
        end
    | None => construct
    end.

Definition isActive (s : t) : bool := State_eqb (state s) ACTIVE.

Definition isInGrace (s : t) : bool := State_eqb (state s) GRACE.

Definition allowsOperation (s : t) : bool :=
  State_eqb (state s) ACTIVE || State_eqb (state s) GRACE.

Definition isExpired (now : Z) (s : t) : bool :=
  match validUntil s with
  | None => false
  | Some vu => vu <? now
  end.

Definition needsRevalidation (now : Z) (s : t) (revalidationInterval : Z) : bool :=
  revalidationInterval <? now - lastVerifiedAt s.

Definition getState (s : t) : State := state s.

(** [{ ...this.metadata }]. *)
Definition getMetadata (s : t) : obj := own_props (metadataOf s).

Definition toObject (s : t) : StateObject :=
  {| o_state := state s;
     o_capabilities := capabilities s;
     o_valid_from := validFrom s;
     o_valid_until := validUntil s;
     o_context_binding := contextBinding s;
     o_product_id := productId s;
     o_environment := environmentName s;
     o_metadata := metadataOf s;
     o_signature := signature s;
     o_issued_at := issuedAt s;
     o_last_verified_at := lastVerifiedAt s |}.

Section Prototype.

(** Whether a read of a name that is not an own property of a capabilities
    object finds the value [true] further up its prototype chain. *)
Variable inherits_true : string -> bool.

(** [this.capabilities[capability] === true]: an own property is read
    first. *)
Definition hasCapability (s : t) (capability : string) : bool :=
  match obj_get capability (capabilities s) with
  | Some v => is_true (Some v)
  | None => inherits_true capability
  end.

End Prototype.

(** The pair [{from, until}]. *)
Definition getValidityWindow (s : t) : option Z * option Z :=
  (validFrom s, validUntil s).

Definition getContextBinding (s : t) : option string := contextBinding s.

Section Hash.

(** [crypto.createHash('sha256').update(context).digest('hex')]. *)
Variable sha256_hex : string -> string.

Definition verifyContextBinding (s : t) (context : string) : bool :=
  match contextBinding s with
  | None => true (* Not bound *)
  | Some binding =>
      let contextHash := sha256_hex context in
      String.eqb contextHash binding
  end.

End Hash.

End EntitlementState.

(** ** license-state.js *)

Module LicenseState.

Record t : Type := {
  entitlementState : EntitlementState.t;
  licenseKey : option string
}.

Definition isValid (s : t) : bool := EntitlementState.allowsOperation (entitlementState s).

Definition isActive (s : t) : bool := EntitlementState.isActive (entitlementState s).

Definition isInGracePeriod (s : t) : bool := EntitlementState.isInGrace (entitlementState s).

Definition getState (s : t) : EntitlementState.State :=
  EntitlementState.getState (entitlementState s).

Definition getMetadata (s : t) : obj := EntitlementState.getMetadata (entitlementState s).

Definition needsRevalidation (now : Z) (s : t) (intervalSeconds : Z) : bool :=
  EntitlementState.needsRevalidation now (entitlementState s) intervalSeconds.

Definition getEntitlementState (s : t) : EntitlementState.t := entitlementState s.

Definition isExpired (now : Z) (s : t) : bool :=
  EntitlementState.isExpired now (entitlementState s).

Definition allows (inherits_true : string -> bool) (s : t) (feature : string) : bool :=
  EntitlementState.hasCapability inherits_true (entitlementState s) feature.

Definition canUpdate (inherits_true : string -> bool) (s : t) : bool :=
  allows inherits_true s "updates".

Definition canDownload (inherits_true : string -> bool) (s : t) : bool :=
  allows inherits_true s "downloads".

Definition canSendTelemetry (inherits_true : string -> bool) (s : t) : bool :=
  allows inherits_true s "telemetry".

Definition getStatusMessage (s : t) : string :=
  match getState s with
  | EntitlementState.ACTIVE => "License is active and valid"
  | EntitlementState.GRACE => "License is in grace period - please revalidate soon"
  | EntitlementState.RESTRICTED => "License is restricted - activation or validation required"
  | EntitlementState.INVALID => "License is invalid or has been revoked"
  end.

Definition getExpiresAt (s : t) : option Z :=
  let validity := EntitlementState.getValidityWindow (entitlementState s) in
  snd validity.

(** [Math.floor((expiresAt - now) / 86400)], or [null] for a lifetime
    license. *)
Definition getDaysUntilExpiration (now : Z) (s : t) : option Z :=
  match getExpiresAt s with
  | None => None (* Lifetime *)
  | Some expiresAt =>
      let diff := expiresAt - now in
      Some (diff / 86400)
  end.

Definition getLicenseKey (s : t) : option string := licenseKey s.

Definition verifyContext (sha256_hex : string -> string) (s : t) (context : string) : bool :=
  EntitlementState.verifyContextBinding sha256_hex (entitlementState s) context.

End LicenseState.

(** ** state-resolver.js *)

Module StateResolver.

Import EntitlementState.

Record t : Type := {
  verifier : option SignatureVerifier.t;
  ownEnvironment : option string;   (* this.environment *)
  ownProductId : option string      (* this.productId *)
}.

(** The text that [verifySignature] hands to the verifier: the response
    copied by spread, its [signature] deleted, through [JSON.stringify]. *)
Definition signedText (response : obj) : string :=
  let responseForVerification := obj_delete "signature" response in
  stringify (JObj responseForVerification).

Definition verifySignature (self : t) (response : obj) (signature : string) : result unit :=
  match verifier self with
  | None => Ret tt
  | Some v =>
      let payload := signedText response in
      match SignatureVerifier.verify v payload signature with
      | Throw e => Throw e
      | Ret false => Throw (mkExn SignatureError "Response signature verification failed")
      | Ret true => Ret tt
      end
  end.

Section Platform.

(** [crypto.createHash('sha256').update(s).digest('hex')]. *)
Variable sha256_hex : string -> string.

(** [new Date(v).getTime() / 1000]; [None] when the date is invalid (NaN,
    which the state machine treats as a missing bound). *)
Variable date_seconds : json -> option Z.

(** [createHash('sha256').update(v)] accepts a string; any other JSON value
    is rejected with a TypeError. *)
Definition hash_binding (v : json) : result (option string) :=
  match v with
  | JStr s => Ret (Some (sha256_hex s))
  | _ => Throw (mkExn TypeError "The data argument must be of type string")
  end.

(** [license.status || null] as the string the state machine lower-cases.
    A truthy status that is not a string makes [determineState] throw at its
    first statement; the TypeError is raised here, where the typed payload is
    built, after the fields whose reading can itself throw. *)
Definition status_field (license : json) : result (option string) :=
  match prop license "status" with
  | Some (JStr s) => Ret (if String.eqb s "" then None else Some s)
  | Some v => if truthy v
              then Throw (mkExn TypeError "payload.status.toLowerCase is not a function")
              else Ret None
  | None => Ret None
  end.

Definition date_field (license : json) (k : string) : option Z :=
  match prop license k with
  | Some v => if truthy v then date_seconds v else None
  | None => None
  end.

(** A payload on which only [valid] has been set. *)
Definition payload_with_valid (v : json) : Payload :=
  {| status := None; valid := Some v; valid_from := None; valid_until := None;
     revalidation_failed := false; last_verified_at := None;
     features := None; license := None; context_binding := None;
     product_id := None; environment := None; metadata := None;
     issued_at := None |}.

Definition normalizeValidationPayload (response : obj) : result Payload :=
  if truthy_opt (obj_get "data" response) then
    (* Handle response.data structure *)
    let data := or_else (obj_get "data" response) JNull in
    let valid := or_else (prop data "valid") (JBool false) in
    if truthy_opt (prop data "license") then
      let license := or_else (prop data "license") JNull in
      match
        (if truthy_opt (prop license "hardware_id")
         then hash_binding (or_else (prop license "hardware_id") JNull)
         else if truthy_opt (prop license "domain")
         then hash_binding (or_else (prop license "domain") JNull)
         else Ret None)
      with
      | Throw e => Throw e
      | Ret binding =>
          match status_field license with
          | Throw e => Throw e
          | Ret st =>
              Ret {| status := st; valid := Some valid;
                     valid_from := date_field license "activated_at";
                     valid_until := date_field license "expires_at";
                     revalidation_failed := false; last_verified_at := None;
                     features := Some (or_else (prop license "features") (JObj []));
                     license := None; context_binding := binding;
                     product_id := None; environment := None;
                     metadata := Some (or_else (prop license "metadata") (JObj []));
                     issued_at := None |}
          end
      end
    else Ret (payload_with_valid valid)
  else
    (* Direct response format *)
    let valid := or_else (obj_get "valid" response) (JBool false) in
    if truthy_opt (obj_get "license" response) then
      let license := or_else (obj_get "license" response) JNull in
      match status_field license with
      | Throw e => Throw e
      | Ret st =>
          Ret {| status := st; valid := Some valid;
                 valid_from := None;
                 valid_until := date_field license "expires_at";
                 revalidation_failed := false; last_verified_at := None;
                 features := Some (or_else (prop license "features") (JObj []));
                 license := None; context_binding := None;
                 product_id := None; environment := None;
                 metadata := Some (or_else (prop license "metadata") (JObj []));
                 issued_at := None |}
      end
    else Ret (payload_with_valid valid).

(** [response.signature] when a verifier is configured.  The API sends
    base64 text, and a state holds its signature as a string.  For a number,
    a boolean or a plain object [Buffer.from] throws and [verify] reports
    'Invalid base64 signature'; an array or an array-like object, which
    [Buffer.from] would read as bytes, is not told apart from them, so that
    this function is exact on responses whose signature is a string or
    falsy, and the statements that depend on it assume such a response. *)
Definition signature_field (response : obj) : result (option string) :=
  match obj_get "signature" response with
  | Some (JStr s) => Ret (if String.eqb s "" then None else Some s)
  | Some v => if truthy v then Throw (mkExn Error "Invalid base64 signature") else Ret None
  | None => Ret None
  end.

Definition resolveFromValidation (self : t) (now : Z) (response : obj)
    (licenseKey : option string) : result LicenseState.t :=
  (* Verify signature if available *)
  match
    (match verifier self with
     | Some _ =>
         match signature_field response with
         | Throw e => Throw e
         | Ret (Some signature) =>
             match verifySignature self response signature with
             | Throw e => Throw e
             | Ret _ => Ret (Some signature)
             end
         | Ret None => Ret None
         end
     | None => Ret None
     end)
  with
  | Throw e => Throw e
  | Ret signature =>
      (* Extract and normalize payload *)
      match normalizeValidationPayload response with
      | Throw e => Throw e
      | Ret payload =>
          (* Add context *)
          let payload :=
            {| status := status payload; valid := valid payload;
               valid_from := valid_from payload; valid_until := valid_until payload;
               revalidation_failed := revalidation_failed payload;
               last_verified_at := last_verified_at payload;
               features := features payload; license := license payload;
               context_binding := context_binding payload;
               product_id := ownProductId self;
               environment := ownEnvironment self;
               metadata := metadata payload;
               issued_at := Some (or_else (obj_get "timestamp" response) (JNum now)) |} in
          let entitlementState := constructor now payload signature in
          Ret {| LicenseState.entitlementState := entitlementState;
                 LicenseState.licenseKey := licenseKey |}
      end
  end.

End Platform.

Definition createRestrictedState (self : t) (now : Z) (reason : string)
    (licenseKey : option string) : LicenseState.t :=
  let payload :=
    {| status := Some "restricted";
       valid := Some (JBool false);
       valid_from := None; valid_until := None;
       revalidation_failed := false; last_verified_at := None;
       features := None; license := None; context_binding := None;
       product_id := ownProductId self;
       environment := ownEnvironment self;
       metadata := Some (JObj [("reason", JStr reason)]);
       issued_at := Some (JNum now) |} in
  let entitlementState := constructor now payload None in
  {| LicenseState.entitlementState := entitlementState;
     LicenseState.licenseKey := licenseKey |}.

Definition createGraceState (self : t) (now : Z) (lastValidState : StateObject)
    (licenseKey : option string) : LicenseState.t :=
  let spread := payload_of_object lastValidState in
  let payload :=
    {| status := status spread; valid := valid spread;
       valid_from := valid_from spread; valid_until := valid_until spread;
       revalidation_failed := true;
       last_verified_at := Some (num_or (Some (o_last_verified_at lastValidState)) now);
       features := features spread; license := license spread;
       context_binding := context_binding spread;
       product_id := product_id spread;
       environment := environment spread;
       metadata := metadata spread;
       issued_at := issued_at spread |} in
  let signature := str_or_null (o_signature lastValidState) in
  let entitlementState := constructor now payload signature in
  {| LicenseState.entitlementState := entitlementState;
     LicenseState.licenseKey := licenseKey |}.

End StateResolver.

(** ** state-store.js *)

Module StateStore.

Import EntitlementState.

Record CachedEntry : Type := {
  cachedState : StateObject;   (* the property [state] of the entry *)
  expiresAt : Z
}.

Record t : Type := {
  store : gmap string CachedEntry;
  verifier : option SignatureVerifier.t;
  defaultTtl : Z
}.

(** [new StateStore(verifier, defaultTtl)]. *)
Definition create (verifier : option SignatureVerifier.t) (defaultTtl : Z) : t :=
  {| store := ∅; verifier := verifier; defaultTtl := defaultTtl |}.

(** The same store object with its map changed. *)
Definition with_store (self : t) (m : gmap string CachedEntry) : t :=
  {| store := m; verifier := verifier self; defaultTtl := defaultTtl self |}.

Definition set (self : t) (now : Z) (key : string) (state : EntitlementState.t)
    (ttl : option Z) : t :=
  let ttl := num_or ttl (defaultTtl self) in
  with_store self
    (<[key := {| cachedState := toObject state; expiresAt := now + ttl |}]> (store self)).

Definition get (self : t) (now : Z) (key : string)
    : result (option EntitlementState.t) * t :=
  match store self !! key with
  | None => (Ret None, self)
  | Some cached =>
      (* Check TTL expiration *)
      if expiresAt cached <? now
      then (Ret None, with_store self (delete key (store self)))
      else
        (* Verify signature on every read *)
        match fromCache now (cachedState cached) (verifier self) with
        | Ret st => (Ret (Some st), self)
        | Throw error =>
            (* Invalid signature - remove from cache *)
            (Throw error, with_store self (delete key (store self)))
        end
  end.

Definition has (self : t) (now : Z) (key : string) : bool * t :=
  match store self !! key with
  | None => (false, self)
  | Some cached =>
      if expiresAt cached <? now
      then (false, with_store self (delete key (store self)))
      else (true, self)
  end.

Definition remove (self : t) (key : string) : t :=
  with_store self (delete key (store self)).

Definition clear (self : t) : t := with_store self ∅.

Definition getValidationKey (licenseKey : string) : string :=
  "entitlement:" ++ licenseKey ++ ":validation".

Definition getFeatureKey (licenseKey feature : string) : string :=
  "entitlement:" ++ licenseKey ++ ":feature:" ++ feature.

Definition getLicenseKeyPrefix (licenseKey : string) : string :=
  "entitlement:" ++ licenseKey ++ ":".

(** The loop [for (const [key, cached] of this.store.entries())
    if (test) { this.store.delete(key); count++; }] over a Map, which
    visits every entry once whatever is deleted on the way. *)
Definition sweep (test : string -> CachedEntry -> bool)
    (m : gmap string CachedEntry) : nat * gmap string CachedEntry :=
  map_fold
    (fun key cached acc =>
       if test key cached then (S (fst acc), delete key (snd acc)) else acc)
    (0%nat, m) m.

Definition clearLicense (self : t) (licenseKey : string) : t :=
  let prefix := getLicenseKeyPrefix licenseKey in
  with_store self (snd (sweep (fun key _ => String.prefix prefix key) (store self))).

Definition gc (self : t) (now : Z) : nat * t :=
  let swept := sweep (fun _ cached => expiresAt cached <? now) (store self) in
  (fst swept, with_store self (snd swept)).

Record Stats : Type := { total : nat; active : nat; expired : nat }.

Definition getStats (self : t) (now : Z) : Stats :=
  let counts :=
    map_fold
      (fun _ cached acc =>
         if expiresAt cached <? now
         then (S (fst acc), snd acc)
         else (fst acc, S (snd acc)))
      (0%nat, 0%nat) (store self) in
  {| total := size (store self); active := snd counts; expired := fst counts |}.

End StateStore.

(** ** cache/cache-manager.js *)

Module CacheManager.

Record Cached : Type := {
  data : obj;
  expiresAt : Z     (* milliseconds *)
}.

Record t : Type := {
  cache : gmap string Cached;
  enabled : bool;
  ttl : Z
}.

Definition with_cache (self : t) (m : gmap string Cached) : t :=
  {| cache := m; enabled := enabled self; ttl := ttl self |}.

(** [Date.now()], in milliseconds, at the instant [now]. *)
Definition Date_now_ms (now : Z) : Z := now * 1000.

Definition get (self : t) (now : Z) (key : string) : option obj * t :=
  if negb (enabled self) then (None, self)
  else match cache self !! key with
       | None => (None, self)
       | Some cached =>
           if expiresAt cached <? Date_now_ms now
           then (None, with_cache self (delete key (cache self)))
           else (Some (data cached), self)
       end.

Definition set (self : t) (now : Z) (key : string) (data : obj) (ttl : option Z) : t :=
  if negb (enabled self) then self
  else
    let ttlMs := (match ttl with Some n => n | None => CacheManager.ttl self end) * 1000 in
    with_cache self
      (<[key := {| data := data; expiresAt := Date_now_ms now + ttlMs |}]> (cache self)).

(** [generateKey('license', licenseKey, 'validation')]. *)
Definition generateKey (parts : list string) : string := join ":" parts.

(** [delete(key)]. *)
Definition delete_key (self : t) (key : string) : t :=
  with_cache self (delete key (cache self)).

Definition clear (self : t) : t := with_cache self ∅.

Record Stats : Type := {
  total : nat; valid : nat; expired : nat; stats_enabled : bool
}.

Definition getStats (self : t) (now : Z) : Stats :=
  let counts :=
    map_fold
      (fun _ cached acc =>
         if expiresAt cached <? Date_now_ms now
         then (fst acc, S (snd acc))
         else (S (fst acc), snd acc))
      (0%nat, 0%nat) (cache self) in
  {| total := size (cache self); valid := fst counts; expired := snd counts;
     stats_enabled := enabled self |}.

End CacheManager.

(** ** validation/license-validator.js *)

Module LicenseValidator.

Import EntitlementState.

(** What the validator asks of the configuration. *)
Record Configuration : Type := { isCacheEnabled : bool }.

(** The collaborators that stay fixed during a call. *)
Record t : Type := {
  config : Configuration;
  stateResolver : StateResolver.t
}.

(** What changes during a call: the clock and the two caches. *)
Record World : Type := {
  clock : Z;
  stateStore : StateStore.t;
  cacheManager : CacheManager.t
}.

(** The transport is an outside collaborator: [httpClient.request] either
    resolves to a response object or rejects.  While the call awaits it the
    clock advances and other tasks may run; [resumes] is the world as the
    call finds it when it continues. *)
Record Network : Type := {
  outcome : result obj;
  resumes : World -> World
}.

(** Statements that read the clock, change the caches and may throw. *)
Definition M (A : Type) : Type := World -> result A * World.

Definition ret {A : Type} (a : A) : M A := fun w => (Ret a, w).

Definition throw {A : Type} (e : exn) : M A := fun w => (Throw e, w).

Definition bind {A B : Type} (m : M A) (k : A -> M B) : M B :=
  fun w =>
    match m w with
    | (Ret a, w') => k a w'
    | (Throw e, w') => (Throw e, w')
    end.

(** [try { m } catch (e) { handler e }]. *)
Definition try_catch {A : Type} (m : M A) (handler : exn -> M A) : M A :=
  fun w =>
    match m w with
    | (Ret a, w') => (Ret a, w')
    | (Throw e, w') => handler e w'
    end.

Declare Scope js_scope.
Delimit Scope js_scope with js.
Notation "x <- m ;; k" := (bind m (fun x => k))
  (at level 100, m at next level, right associativity) : js_scope.
Local Open Scope js_scope.

Definition lift {A : Type} (r : result A) : M A := fun w => (r, w).

(** [Date.now() / 1000]. *)
Definition Date_now : M Z := fun w => (Ret (clock w), w).

(** [await this._httpClient.request(...)]. *)
Definition request (net : Network) : M obj :=
  fun w => (outcome net, resumes net w).

Definition stateStore_get (key : string) : M (option EntitlementState.t) :=
  fun w =>
    let '(r, s) := StateStore.get (stateStore w) (clock w) key in
    (r, {| clock := clock w; stateStore := s; cacheManager := cacheManager w |}).

Definition stateStore_set (key : string) (state : EntitlementState.t) : M unit :=
  fun w =>
    (Ret tt,
     {| clock := clock w;
        stateStore := StateStore.set (stateStore w) (clock w) key state None;
        cacheManager := cacheManager w |}).

Definition cacheManager_get (key : string) : M (option obj) :=
  fun w =>
    let '(r, c) := CacheManager.get (cacheManager w) (clock w) key in
    (Ret r, {| clock := clock w; stateStore := stateStore w; cacheManager := c |}).

Definition cacheManager_set (key : string) (data : obj) : M unit :=
  fun w =>
    (Ret tt,
     {| clock := clock w; stateStore := stateStore w;
        cacheManager := CacheManager.set (cacheManager w) (clock w) key data None |}).

Definition validateLicenseKey (licenseKey : string) : result unit :=
  if blank licenseKey
  then (* throw new ValidationException('License key cannot be empty') *)
       Throw (new_undefined "ValidationException")
  else Ret tt.

Definition validateLicense (self : t) (licenseKey : string) (net : Network) : M obj :=
  _ <- lift (validateLicenseKey licenseKey) ;;
  let cacheKey := CacheManager.generateKey ["license"; licenseKey; "validation"] in
  cached <- cacheManager_get cacheKey ;;
  match cached with
  | Some response => ret response
  | None =>
      response <- request net ;;
      _ <- cacheManager_set cacheKey response ;;
      ret response
  end.

(** [cachedState.toArray()]: the class EntitlementState has no method of
    that name (it serializes with [toObject]), so the call is a call of
    [undefined] and throws a TypeError. *)
Definition toArray (cachedState : EntitlementState.t) : result StateObject :=
  Throw (mkExn TypeError "cachedState.toArray is not a function").

Section Platform.

Variable sha256_hex : string -> string.
Variable date_seconds : json -> option Z.

Definition resolveLicenseState (self : t) (licenseKey : string) (net : Network)
    : M LicenseState.t :=
  _ <- lift (validateLicenseKey licenseKey) ;;
  (* Try to get from StateStore first *)
  let stateKey := StateStore.getValidationKey licenseKey in
  fresh <-
    (if isCacheEnabled (config self) then
       try_catch
         (cachedState <- stateStore_get stateKey ;;
          match cachedState with
          | Some cachedState =>
              now <- Date_now ;;
              (* Check if revalidation is needed *)
              if negb (needsRevalidation now cachedState 86400)
              then ret (Some {| LicenseState.entitlementState := cachedState;
                                LicenseState.licenseKey := Some licenseKey |})
              else ret None
          | None => ret None
          end)
         (fun e =>
            (* if (e instanceof SignatureException) { } *)
            _ <- lift (instanceof_undefined e) ;;
            ret None)
     else ret None) ;;
  match fresh with
  | Some licenseState => ret licenseState
  | None =>
      (* Perform validation *)
      try_catch
        (response <- validateLicense self licenseKey net ;;
         now <- Date_now ;;
         licenseState <-
           lift (StateResolver.resolveFromValidation sha256_hex date_seconds
                   (stateResolver self) now response (Some licenseKey)) ;;
         (* Store in StateStore *)
         _ <- (if isCacheEnabled (config self)
               then stateStore_set stateKey (LicenseState.getEntitlementState licenseState)
               else ret tt) ;;
         ret licenseState)
        (fun e =>
           (* if (e instanceof NetworkException) *)
           isNetworkException <- lift (instanceof_undefined e) ;;
           grace <-
             (if isNetworkException : bool then
                (* Network error - try to use cached state in grace period *)
                try_catch
                  (cachedState <- stateStore_get stateKey ;;
                   match cachedState with
                   | Some cachedState =>
                       if allowsOperation cachedState then
                         (* Return grace state *)
                         lastValidState <- lift (toArray cachedState) ;;
                         now <- Date_now ;;
                         ret (Some (StateResolver.createGraceState (stateResolver self)
                                      now lastValidState (Some licenseKey)))
                       else ret None
                   | None => ret None
                   end)
                  (fun se =>
                     (* if (se instanceof SignatureException) { } *)
                     _ <- lift (instanceof_undefined se) ;;
                     ret None)
              else ret None) ;;
           match grace with
           | Some licenseState => ret licenseState
           | None => throw e
           end)
  end.

Definition getLicenseState (self : t) (licenseKey : string) (net : Network)
    : M LicenseState.t :=
  try_catch
    (resolveLicenseState self licenseKey net)
    (fun e =>
       (* if (e instanceof LicenseException) *)
       isLicenseException <- lift (instanceof_undefined e) ;;
       if isLicenseException : bool then
         (* Return restricted state on error *)
         now <- Date_now ;;
         ret (StateResolver.createRestrictedState (stateResolver self) now
                (message e) (Some licenseKey))
       else throw e).

(** Whether the prototype chain of a capabilities object answers [true]
    for a name that is not one of its own properties. *)
Variable inherits_true : string -> bool.

Definition isFeatureAllowed (self : t) (licenseKey feature : string) (net : Network)
    : M bool :=
  licenseState <- resolveLicenseState self licenseKey net ;;
  ret (LicenseState.allows inherits_true licenseState feature).

Definition requireCapability (self : t) (licenseKey capability : string) (net : Network)
    : M LicenseState.t :=
  state <- resolveLicenseState self licenseKey net ;;
  if negb (LicenseState.allows inherits_true state capability)
  then
    (* throw new StateException(`License does not have required capability:
       ${capability}`, 403, StateException.ERROR_INVALID_STATE, ...): the
       third argument is evaluated before the construction is attempted *)
    throw (read_of_undefined "ERROR_INVALID_STATE")
  else ret state.

End Platform.

(** *** Offline validation *)

Record Options : Type := {
  hardwareId : option string;
  publicKey : option string
}.

Record OfflineResult : Type := {
  offline_valid : bool;     (* valid *)
  offline_license : json;   (* license *)
  errors : list string
}.

Section Offline.

(** [JSON.parse], which answers with a value or throws a SyntaxError. *)
Variable JSON_parse : string -> result json.

(** [new SignatureVerifier(publicKey)], which throws an Error for a key
    that is not a PEM-encoded RSA key of 2048 bits or more. *)
Variable newSignatureVerifier : string -> result SignatureVerifier.t.

(** [new Date(v).getTime()], in milliseconds; [None] is NaN. *)
Variable date_millis : json -> option Z.

(** [this._config.getPublicKey()]. *)
Variable configPublicKey : option string.

(** [verifier.verify(payload, signature)] for a truthy signature that is not
    a string: [Buffer.from] reads an array or an array-like object as bytes,
    which the key then judges, and throws for any other value, which
    [verify] reports as the Error 'Invalid base64 signature'. *)
Variable verify_bytes : SignatureVerifier.t -> string -> json -> result bool.

(** The text handed to the verifier: the data copied by spread, its
    [signature] deleted, through [JSON.stringify]. *)
Definition offlineText (data : json) : string :=
  let dataWithoutSignature := obj_delete "signature" (own_props data) in
  stringify (JObj dataWithoutSignature).

(** The [try] block around the verification, for a truthy signature. *)
Definition signatureErrors (verifier : SignatureVerifier.t) (data signature : json)
    : list string :=
  let payload := offlineText data in
  match
    (match signature with
     | JStr s => SignatureVerifier.verify verifier payload s
     | _ => verify_bytes verifier payload signature
     end)
  with
  | Ret true => []
  | Ret false => ["Signature verification failed"]
  | Throw e => ["Signature verification error: " ++ message e]
  end.

Definition expiryErrors (now_ms : Z) (license : json) : list string :=
  if truthy_opt (prop license "expires_at") then
    let expiresAt := date_millis (or_else (prop license "expires_at") JNull) in
    let tolerance := 24 * 3600 * 1000 in (* 24 hours in milliseconds *)
    match expiresAt with
    | Some expiresAt =>
        if expiresAt <? now_ms - tolerance then ["License has expired"] else []
    | None => []
    end
  else [].

Definition hardwareErrors (options : Options) (license : json) : list string :=
  if truthy_str (hardwareId options) && truthy_opt (prop license "hardware_id") then
    match prop license "hardware_id" with
    | Some (JStr h) =>
        if String.eqb (str (hardwareId options)) h then [] else ["Hardware ID mismatch"]
    | _ => ["Hardware ID mismatch"]
    end
  else [].

(** [validateOfflineLicense(offlineLicenseData, options)] at the instant
    [now_ms] of [Date.now()]; a string is parsed, any other value is taken
    as the data.  The three refusals are written [throw new
    ValidationException(...)], and what is thrown is the TypeError of the
    construction. *)
Definition validateOfflineLicense (now_ms : Z) (offlineLicenseData : json)
    (options : Options) : result OfflineResult :=
  match
    (match offlineLicenseData with
     | JStr text =>
         match JSON_parse text with
         | Ret data => Ret data
         | Throw e =>
             (* throw new ValidationException('Invalid JSON: ' + e.message) *)
             Throw (new_undefined "ValidationException")
         end
     | _ => Ret offlineLicenseData
     end)
  with
  | Throw e => Throw e
  | Ret JNull => Throw (mkExn TypeError "Cannot read properties of null")
  | Ret data =>
      if negb (truthy_opt (prop data "license")) || negb (truthy_opt (prop data "signature"))
      then (* throw new ValidationException('Invalid offline license format') *)
           Throw (new_undefined "ValidationException")
      else
        let publicKey :=
          if truthy_str (publicKey options) then publicKey options else configPublicKey in
        if negb (truthy_str publicKey)
        then (* throw new ValidationException('Public key is required for offline
                validation') *)
             Throw (new_undefined "ValidationException")
        else
          match newSignatureVerifier (str publicKey) with
          | Throw e => Throw e
          | Ret verifier =>
              let signature := or_else (prop data "signature") JNull in
              let license := or_else (prop data "license") JNull in
              let errors :=
                (signatureErrors verifier data signature
                 ++ expiryErrors now_ms license
                 ++ hardwareErrors options license)%list in
              Ret {| offline_valid := (length errors =? 0)%nat;
                     offline_license := license;
                     errors := errors |}
          end
  end.

End Offline.

End LicenseValidator.

(** ** http/http-client.js *)

Module HttpClient.

(** What the client asks of the configuration. *)
Record Configuration : Type := {
  getRetryAttempts : Z;
  shouldVerifySignatures : bool
}.

Record t : Type := {
  config : Configuration;
  signatureVerifier : option SignatureVerifier.t;
  stateResolver : bool   (* whether a state resolver was given *)
}.

(** What [_makeHttpRequest] resolves to. *)
Record Response : Type := {
  statusCode : Z;
  data : json
}.

(** The conversion of a value to the message of an error, [String(v)]. *)
Fixpoint to_string (v : json) : string :=
  match v with
  | JNull => "null"
  | JBool b => if b then "true" else "false"
  | JNum n => number_to_string n
  | JStr s => s
  | JArr items =>
      join "," (map (fun x => match x with JNull => "" | _ => to_string x end) items)
  | JObj _ => "[object Object]"
  end.

Section Codes.

(** [ApiResponseCode.getMessage]. *)
Variable getMessage : json -> string.

(** [verifier.verify(payload, signature)] for a truthy signature that is not
    a string: [Buffer.from] reads an array or an array-like object as bytes,
    which the key then judges, and throws for any other value, which
    [verify] reports as the Error 'Invalid base64 signature'. *)
Variable verify_bytes : SignatureVerifier.t -> string -> json -> result bool.

(** [_handleErrorResponse(httpCode, responseData)] always throws; this is
    what it throws, for data other than [null].  The three exceptions it
    means to build are written [new LicenseException(...)], and what is
    thrown is the TypeError of the construction, after the arguments have
    been evaluated. *)
Definition handleErrorResponse (self : t) (responseData : json) : exn :=
  (* Check if response has the standard structure with response.code *)
  let response := or_else (prop responseData "response") JNull in
  if truthy_opt (prop responseData "response") &&
     match prop response "code" with Some _ => true | None => false end
  then
    let apiCode := match prop response "code" with Some c => c | None => JNull end in
    (* Use StateResolver for proper exception mapping if available *)
    if stateResolver self
    then mkExn TypeError "this._stateResolver.throwExceptionForResponse is not a function"
    else
      (* Fallback: throw generic exception with API code info *)
      let message :=
        if truthy_opt (prop response "message")
        then to_string (or_else (prop response "message") JNull)
        else getMessage apiCode in
      new_undefined "LicenseException"
  else if truthy_opt (prop responseData "error") then
    (* Legacy error format support *)
    let error := or_else (prop responseData "error") JNull in
    let message :=
      if truthy_opt (prop error "message")
      then to_string (or_else (prop error "message") JNull)
      else "An error occurred" in
    new_undefined "LicenseException"
  else
    (* Generic error *)
    new_undefined "LicenseException".

(** [_verifyResponse(response)], called on data with a truthy signature. *)
Definition verifyResponse (self : t) (response : json) : result unit :=
  match signatureVerifier self with
  | None => Ret tt
  | Some verifier =>
      if negb (truthy_opt (prop response "signature")) then Ret tt
      else
        let signature := or_else (prop response "signature") JNull in
        let responseWithoutSignature := obj_delete "signature" (own_props response) in
        let payload := stringify (JObj responseWithoutSignature) in
        match
          (match signature with
           | JStr s => SignatureVerifier.verify verifier payload s
           | _ => verify_bytes verifier payload signature
           end)
        with
        | Throw e => Throw e
        | Ret false =>
            (* throw new SignatureException('Response signature verification
               failed', 0, SignatureException.ERROR_SIGNATURE_VERIFICATION_FAILED) *)
            Throw (read_of_undefined "ERROR_SIGNATURE_VERIFICATION_FAILED")
        | Ret true => Ret tt
        end
  end.

(** How one pass through the [try] block ends when it does not throw. *)
Inductive Step : Type :=
| Return (value : json)
| Continue.

(** The [try] block of the loop, given what [_makeHttpRequest] settled to.
    Reading a property of the data throws when the body was [null]. *)
Definition attempt_body (self : t) (settled : result Response) : result Step :=
  match settled with
  | Throw e => Throw e
  | Ret response =>
      match data response with
      | JNull => Throw (mkExn TypeError "Cannot read properties of null")
      | body =>
          (* Handle rate limiting with retry *)
          if statusCode response =? 429 then Ret Continue
          (* Handle successful response *)
          else if (200 <=? statusCode response) && (statusCode response <? 300) then
            match
              (if shouldVerifySignatures (config self) &&
                  truthy_opt (prop body "signature")
               then verifyResponse self body else Ret tt)
            with
            | Throw e => Throw e
            | Ret _ => Ret (Return (or_else (prop body "data") body))
            end
          (* Handle error response *)
          else Throw (handleErrorResponse self body)
      end
  end.

(** The [while] loop: [attempt] counts the passes, each of which awaits one
    [_makeHttpRequest]; [transport i] is what the request of pass [i]
    settles to.  The loop runs while [attempt < getRetryAttempts()], so
    [remaining] starts at that number.  The request itself (the URL, the
    headers, the [api_key] added to the data) is built once before the loop
    and belongs to [transport]; the pauses between passes are not modelled.
    The answer comes with the number of requests made.  A request that never
    settles is outside this function: the handlers of a network error, of a
    time-out and of a body that is not JSON throw while they build their
    [NetworkException], inside an event callback, and reject nothing.

    The [catch] block tests [e instanceof NetworkException], and the
    statement after the loop builds a [NetworkException] when no exception
    was kept: both names are [undefined]. *)
Fixpoint attempts (self : t) (transport : nat -> result Response)
    (remaining attempt : nat) (lastException : option exn) : result json * nat :=
  match remaining with
  | O =>
      (Throw (match lastException with
              | Some e => e
              | None =>
                  (* new NetworkException(`Request failed after ... retries`, 0,
                     NetworkException.ERROR_NETWORK_ERROR) *)
                  read_of_undefined "ERROR_NETWORK_ERROR"
              end),
       attempt)
  | S remaining =>
      match attempt_body self (transport attempt) with
      | Ret (Return value) => (Ret value, S attempt)
      | Ret Continue => attempts self transport remaining (S attempt) lastException
      | Throw e =>
          match instanceof_undefined e with
          | Throw raised => (Throw raised, S attempt)
          | Ret true => attempts self transport remaining (S attempt) (Some e)
          | Ret false => (Throw e, S attempt) (* Re-throw non-network exceptions *)
          end
      end
  end.

Definition request (self : t) (transport : nat -> result Response) : result json * nat :=
  attempts self transport (Z.to_nat (getRetryAttempts (config self))) 0%nat None.

(** The number of passes that the loop condition allows. *)
Definition budget (self : t) : nat := Z.to_nat (getRetryAttempts (config self)).

End Codes.

End HttpClient.

(** ** downloads/download-manager.js *)

Module DownloadManager.

(** [bytes[i] = f(bytes[i])] on a Buffer; an index outside it changes
    nothing. *)
Fixpoint set_byte (i : nat) (f : Z -> Z) (bytes : list Z) : list Z :=
  match bytes, i with
  | [], _ => []
  | b :: r, O => f b :: r
  | b :: r, S i => b :: set_byte i f r
  end.

(** [bytes.toString('hex')]: two lower-case digits for every byte. *)
Definition hex_byte (b : Z) : string :=
  String (hex_digit (Z.to_N (b / 16))) (String (hex_digit (Z.to_N (b mod 16))) "").

Fixpoint to_hex (bytes : list Z) : string :=
  match bytes with
  | [] => ""
  | b :: r => hex_byte b ++ to_hex r
  end.

(** [s.substring(first, last)] for [first <= last]. *)
Definition substring (first last : nat) (s : string) : string :=
  String.substring first (last - first) s.

(** [generateUuid()], given the 16 bytes that [crypto.randomBytes(16)]
    drew. *)
Definition generateUuid (bytes : list Z) : string :=
  (* Set version to 0100 (UUID v4) *)
  let bytes := set_byte 6 (fun b => Z.lor (Z.land b 15) 64) bytes in
  (* Set variant to 10xx (RFC 4122) *)
  let bytes := set_byte 8 (fun b => Z.lor (Z.land b 63) 128) bytes in
  let hex := to_hex bytes in
  join "-" [substring 0 8 hex; substring 8 12 hex; substring 12 16 hex;
            substring 16 20 hex; substring 20 32 hex].

End DownloadManager.

(** ** Notions used by the properties *)

Import SignatureVerifier EntitlementState.

(** Induction on JSON values that reaches the elements of arrays and the
    values of properties. *)
Section JsonInduction.

Variable P : json -> Prop.
Hypothesis Hnull : P JNull.
Hypothesis Hbool : forall b, P (JBool b).
Hypothesis Hnum : forall n, P (JNum n).
Hypothesis Hstr : forall s, P (JStr s).
Hypothesis Harr : forall items, Forall P items -> P (JArr items).
Hypothesis Hobj : forall props, Forall (fun kv => P (snd kv)) props -> P (JObj props).

Fixpoint json_induction (v : json) : P v :=
  match v with
  | JNull => Hnull
  | JBool b => Hbool b
  | JNum n => Hnum n
  | JStr s => Hstr s
  | JArr items =>
      Harr items
        ((fix all (l : list json) : Forall P l :=
            match l with
            | [] => List.Forall_nil P
            | x :: r => @List.Forall_cons _ P x r (json_induction x) (all r)
            end) items)
  | JObj props =>
      Hobj props
        ((fix all (l : list (string * json)) : Forall (fun kv => P (snd kv)) l :=
            match l with
            | [] => List.Forall_nil _
            | kv :: r => @List.Forall_cons _ _ kv r (json_induction (snd kv)) (all r)
            end) props)
  end.

End JsonInduction.

(** Two values are the same up to the order of object keys: equal atoms,
    arrays equal element by element in the same order, objects (whose keys
    are distinct) with the same properties in any order, at every depth. *)
#[warnings="-register-all"]
Inductive same_value : json -> json -> Prop :=
| same_null : same_value JNull JNull
| same_bool b : same_value (JBool b) (JBool b)
| same_num n : same_value (JNum n) (JNum n)
| same_str s : same_value (JStr s) (JStr s)
| same_arr items items' :
    Forall2 same_value items items' ->
    same_value (JArr items) (JArr items')
| same_obj props reordered props' :
    List.NoDup (keys props) ->
    Permutation props reordered ->
    Forall2 (fun kv kv' => fst kv = fst kv' /\ same_value (snd kv) (snd kv'))
            reordered props' ->
    same_value (JObj props) (JObj props').

(** The payload with its [valid_until] removed. *)
Definition without_valid_until (p : Payload) : Payload :=
  {| status := status p; valid := valid p; valid_from := valid_from p;
     valid_until := None;
     revalidation_failed := revalidation_failed p;
     last_verified_at := last_verified_at p;
     features := features p; license := license p;
     context_binding := context_binding p; product_id := product_id p;
     environment := environment p; metadata := metadata p;
     issued_at := issued_at p |}.

(** The payload's license status, lower-cased, when it has one. *)
Definition license_status_of (p : Payload) : option string :=
  match license p with
  | Some l => if truthy_str (license_status l)
              then Some (toLowerCase (str (license_status l))) else None
  | None => None
  end.

(** The text over which [fromCache] verifies the signature of a cached
    object. *)
Definition cached_text (o : StateObject) : string :=
  stringify (JObj (obj_delete "signature" (object_props o))).

(** The cached object carries a signature, and the key rejects it. *)
Definition fails_verification (v : SignatureVerifier.t) (o : StateObject) : Prop :=
  exists s : string,
    o_signature o = Some s /\ s <> "" /\ rsa_sha256 v (cached_text o) s = false.

(** The cached object carries no signature ([null] or the empty string). *)
Definition unsigned (o : StateObject) : Prop :=
  truthy_str (o_signature o) = false.

(** ** Sample collaborators and inputs *)

Module Examples.

Import LicenseValidator.

(** A key for which every signature verifies, and one for which none does. *)
Definition accept_all : SignatureVerifier.t :=
  {| rsa_sha256 := fun _ _ => true |}.

Definition reject_all : SignatureVerifier.t :=
  {| rsa_sha256 := fun _ _ => false |}.

(** A key whose owner signs a text with the text itself. *)
Definition echo_key : SignatureVerifier.t :=
  {| rsa_sha256 := fun data signature => String.eqb data signature |}.

Definition sample_sha256 (s : string) : string := "sha256:" ++ s.

Definition sample_date (v : json) : option Z :=
  match v with JNum n => Some n | _ => None end.

Definition resolver (v : option SignatureVerifier.t) : StateResolver.t :=
  {| StateResolver.verifier := v;
     StateResolver.ownEnvironment := Some "production";
     StateResolver.ownProductId := None |}.

Definition validator (cacheEnabled : bool) (v : option SignatureVerifier.t)
    : LicenseValidator.t :=
  {| config := {| isCacheEnabled := cacheEnabled |};
     stateResolver := resolver v |}.

Definition key : string := "AAAAA-BBBBB".

Definition stateKey : string := StateStore.getValidationKey key.

(** The state resolved at instant 100 from a signed response
    [{valid: true, license: {status: "active"}, signature: "c2ln"}]. *)
Definition active_response : obj :=
  [("valid", JBool true);
   ("license", JObj [("status", JStr "active")]);
   ("signature", JStr "c2ln")].

Definition active_state : EntitlementState.t :=
  constructor 100
    {| status := Some "active"; valid := Some (JBool true);
       valid_from := None; valid_until := None;
       revalidation_failed := false; last_verified_at := None;
       features := Some (JObj []); license := None; context_binding := None;
       product_id := None; environment := Some "production";
       metadata := Some (JObj []); issued_at := Some (JNum 100) |}
    (Some "c2ln").

Definition empty_cache (enabled : bool) : CacheManager.t :=
  {| CacheManager.cache := ∅; CacheManager.enabled := enabled; CacheManager.ttl := 300 |}.

(** A store that holds [active_state] since instant 100. *)
Definition store_with_active (v : option SignatureVerifier.t) : StateStore.t :=
  StateStore.set (StateStore.create v 300) 100 stateKey active_state None.

(** The same state, stored at instant 100 for ten million seconds. *)
Definition long_lived_store (v : option SignatureVerifier.t) : StateStore.t :=
  StateStore.set (StateStore.create v 300) 100 stateKey active_state (Some 10000000).

(** A synthesized restricted state, persisted at instant 100. *)
Definition restricted_state : EntitlementState.t :=
  LicenseState.getEntitlementState
    (StateResolver.createRestrictedState (resolver None) 100 "Request timeout" (Some key)).

Definition store_with_restricted (v : option SignatureVerifier.t) : StateStore.t :=
  StateStore.set (StateStore.create v 300) 100 stateKey restricted_state None.

(** The license of a machine, as the API reports it. *)
Definition bound_license : json :=
  JObj [("status", JStr "active"); ("hardware_id", JStr "machine-1");
        ("domain", JStr "example.com")].

(** The two shapes of a validation response for that license. *)
Definition direct_response : obj :=
  [("valid", JBool true); ("license", bound_license)].

Definition data_response : obj :=
  [("data", JObj [("valid", JBool true); ("license", bound_license)])].

(** A license file that expires at the millisecond 1000000, signed for
    [echo_key], and the platform around its validation: dates are given in
    milliseconds, one public key is well formed, and no text is parsed. *)
Definition license_file_body : obj :=
  [("license", JObj [("key", JStr key); ("expires_at", JNum 1000000)])].

Definition license_file : obj :=
  (license_file_body ++ [("signature", JStr (stringify (JObj license_file_body)))])%list.

Definition sample_millis (v : json) : option Z :=
  match v with JNum n => Some n | _ => None end.

Definition load_key (pem : string) : result SignatureVerifier.t :=
  if String.eqb pem "PEM" then Ret echo_key
  else Throw (mkExn Error "Invalid public key format: unsupported").

Definition no_parse (text : string) : result json :=
  Throw (mkExn Error "Unexpected token").

Definition with_key : Options := {| hardwareId := None; publicKey := Some "PEM" |}.

(** A platform on which [Buffer.from] reads no signature that is not a
    string. *)
Definition no_bytes (v : SignatureVerifier.t) (data : string) (signature : json)
    : result bool :=
  Throw (mkExn Error "Invalid base64 signature").

(** A signed state resolved at instant 100 for a revoked license with a
    premium feature. *)
Definition revoked_state : EntitlementState.t :=
  constructor 100
    {| status := Some "revoked"; valid := Some (JBool false);
       valid_from := None; valid_until := None;
       revalidation_failed := false; last_verified_at := None;
       features := Some (JObj [("premium", JBool true)]);
       license := None; context_binding := None;
       product_id := None; environment := Some "production";
       metadata := Some (JObj []); issued_at := Some (JNum 100) |}
    (Some "c2ln").

Definition store_with_revoked (v : option SignatureVerifier.t) : StateStore.t :=
  StateStore.set (StateStore.create v 300) 100 stateKey revoked_state None.

(** Instant 200, caching switched off, the state store holding the signed
    active state. *)
Definition world_cached : World :=
  {| clock := 200;
     stateStore := store_with_active (Some accept_all);
     cacheManager := empty_cache false |}.

(** Instant 200, caching switched on, both caches empty. *)
Definition world_empty : World :=
  {| clock := 200;
     stateStore := StateStore.create (Some accept_all) 300;
     cacheManager := empty_cache true |}.

Definition timeout : exn := mkExn NetworkError "Request timeout".

(** The request times out at instant 230. *)
Definition network_down : Network :=
  {| outcome := Throw timeout;
     resumes := fun w =>
       {| clock := 230; stateStore := stateStore w; cacheManager := cacheManager w |} |}.

(** The request times out at instant 230; while it was in flight another
    call stored the signed active state, at instant 210. *)
Definition network_down_after_store : Network :=
  {| outcome := Throw timeout;
     resumes := fun w =>
       {| clock := 230;
          stateStore := StateStore.set (stateStore w) 210 stateKey active_state None;
          cacheManager := cacheManager w |} |}.

(** A response whose keys are not in sorted order, signed over its
    canonical JSON by the owner of [echo_key]. *)
Definition unsigned_body : obj :=
  [("valid", JBool true);
   ("license", JObj [("status", JStr "active"); ("features", JObj [])])].

Definition signed_response : obj :=
  (unsigned_body ++ [("signature", JStr (canonicalizeJson (JObj unsigned_body)))])%list.

(** [JSON.parse] on the text of that response. *)
Definition parse_signed_response (text : string) : result json :=
  Ret (JObj signed_response).

(** A payload that is valid but whose license is expired. *)
Definition valid_but_expired : Payload :=
  {| status := None; valid := Some (JBool true);
     valid_from := None; valid_until := None;
     revalidation_failed := false; last_verified_at := None;
     features := None;
     license := Some {| license_status := Some "expired"; license_features := None;
                        activations_limit := None; activations_count := None |};
     context_binding := None; product_id := None; environment := None;
     metadata := None; issued_at := None |}.

(** A revoked license inside its validity window and reported valid. *)
Definition revoked_payload : Payload :=
  {| status := Some "Revoked"; valid := Some (JBool true);
     valid_from := Some 1600000000; valid_until := Some 1800000000;
     revalidation_failed := false; last_verified_at := None;
     features := None; license := None;
     context_binding := None; product_id := None; environment := None;
     metadata := None; issued_at := None |}.

(** An active license whose validity ended at [until]. *)
Definition ended_at (until : Z) : Payload :=
  {| status := Some "active"; valid := Some (JBool true);
     valid_from := Some 1600000000; valid_until := Some until;
     revalidation_failed := false; last_verified_at := None;
     features := None; license := None;
     context_binding := None; product_id := None; environment := None;
     metadata := None; issued_at := None |}.

(** An HTTP client as the license client builds it (with a state resolver),
    and four servers: one that limits the rate twice and then answers; one
    that always limits the rate; one that is never reached; one that
    refuses the API key. *)
Definition client (retryAttempts : Z) : HttpClient.t :=
  {| HttpClient.config :=
       {| HttpClient.getRetryAttempts := retryAttempts;
          HttpClient.shouldVerifySignatures := false |};
     HttpClient.signatureVerifier := None;
     HttpClient.stateResolver := true |}.

Definition sample_message (code : json) : string := "Unknown response code".


Definition limited (i : nat) : result HttpClient.Response :=
  Ret {| HttpClient.statusCode := 429; HttpClient.data := JObj [] |}.

Definition unreachable (i : nat) : result HttpClient.Response :=
  Throw (mkExn Error "connect ECONNREFUSED").


End Examples.

(** ** Properties *)

(** *** The order on keys *)

Lemma string_compare_le_trans (a b c : string) :
  String.compare a b <> Gt -> String.compare b c <> Gt -> String.compare a c <> Gt.
Proof.
  revert b c. induction a as [|x a IH]; intros [|y b] [|z c]; simpl; try congruence.
  unfold Ascii.compare.
  destruct (N.compare_spec (N_of_ascii x) (N_of_ascii y)) as [E1|L1|G1];
    destruct (N.compare_spec (N_of_ascii y) (N_of_ascii z)) as [E2|L2|G2];
    destruct (N.compare_spec (N_of_ascii x) (N_of_ascii z)) as [E3|L3|G3];
    try congruence; try lia.
  apply IH.
Qed.

Lemma string_leb_trans (a b c : string) :
  String.leb a b = true -> String.leb b c = true -> String.leb a c = true.
Proof.
  unfold String.leb. intros H1 H2.
  pose proof (string_compare_le_trans a b c) as T.
  destruct (String.compare a b); destruct (String.compare b c);
    destruct (String.compare a c); try discriminate; try reflexivity;
    exfalso; apply T; congruence.
Qed.

Lemma string_leb_false (a b : string) :
  String.leb a b = false -> String.leb b a = true.
Proof.
  intros H. destruct (String.leb_total a b) as [T|T]; congruence.
Qed.

Ltac order_strings :=
  repeat match goal with
  | H : String.leb _ _ = false |- _ => apply string_leb_false in H
  end;
  repeat match goal with
  | H1 : String.leb ?a ?b = true, H2 : String.leb ?b ?a = true |- _ =>
      pose proof (String.leb_antisym a b H1 H2); subst; clear H2
  end.

Lemma insert_sorted_comm (a b : string) (l : list string) :
  insert_sorted a (insert_sorted b l) = insert_sorted b (insert_sorted a l).
Proof.
  induction l as [|x l IH]; simpl.
  - destruct (String.leb a b) eqn:Hab, (String.leb b a) eqn:Hba;
      order_strings; try reflexivity; congruence.
  - destruct (String.leb b x) eqn:Hbx, (String.leb a x) eqn:Hax; simpl;
      rewrite ?Hbx, ?Hax.
    + destruct (String.leb a b) eqn:Hab, (String.leb b a) eqn:Hba;
        rewrite ?Hbx, ?Hax; order_strings; try reflexivity; congruence.
    + assert (Hab : String.leb a b = false).
      { destruct (String.leb a b) eqn:Hab; [|reflexivity].
        rewrite (string_leb_trans a b x Hab Hbx) in Hax. discriminate. }
      rewrite Hab. reflexivity.
    + assert (Hba : String.leb b a = false).
      { destruct (String.leb b a) eqn:Hba; [|reflexivity].
        rewrite (string_leb_trans b a x Hba Hax) in Hbx. discriminate. }
      rewrite Hba. reflexivity.
    + rewrite IH. reflexivity.
Qed.

Lemma insert_sorted_sorted (x : string) (l : list string) :
  Sorted (fun a b => String.leb a b = true) l ->
  Sorted (fun a b => String.leb a b = true) (insert_sorted x l).
Proof.
  induction 1 as [|y l Hs IH Hhd]; simpl.
  - repeat constructor.
  - destruct (String.leb x y) eqn:E.
    + repeat constructor; assumption.
    + constructor; [exact IH|].
      destruct Hhd as [|z l' Hyz]; simpl.
      * constructor. apply string_leb_false. exact E.
      * destruct (String.leb x z); constructor;
          [apply string_leb_false; exact E|exact Hyz].
Qed.

(** [sort] does sort: its result ascends by code units. *)
Lemma sort_sorted (l : list string) :
  Sorted (fun a b => String.leb a b = true) (sort l).
Proof.
  induction l as [|x l IH]; simpl; [constructor|].
  apply insert_sorted_sorted. exact IH.
Qed.

Lemma sort_permutation (l l' : list string) :
  Permutation l l' -> sort l = sort l'.
Proof.
  induction 1; simpl.
  - reflexivity.
  - f_equal. assumption.
  - apply insert_sorted_comm.
  - congruence.
Qed.

Lemma insert_sorted_permutation (x : string) (l : list string) :
  Permutation (x :: l) (insert_sorted x l).
Proof.
  induction l as [|y l IH]; simpl; [reflexivity|].
  destruct (String.leb x y); [reflexivity|].
  rewrite perm_swap. constructor. exact IH.
Qed.

Lemma sort_is_permutation (l : list string) : Permutation l (sort l).
Proof.
  induction l as [|x l IH]; simpl; [reflexivity|].
  rewrite <- insert_sorted_permutation. constructor. exact IH.
Qed.

(** *** Objects as association lists *)

Lemma obj_get_in (k : string) (v : json) (o : obj) :
  List.NoDup (keys o) -> In (k, v) o -> obj_get k o = Some v.
Proof.
  induction o as [|[k' v'] o IH]; simpl; intros Hnd Hin; [contradiction|].
  apply NoDup_cons_iff in Hnd as [Hnotin Hnd].
  destruct Hin as [E|Hin].
  - inversion E; subst. rewrite String.eqb_refl. reflexivity.
  - destruct (String.eqb_spec k k') as [->|_].
    + exfalso. apply Hnotin. change k' with (fst (k', v)). apply in_map. exact Hin.
    + apply IH; assumption.
Qed.

Lemma obj_get_keys (k : string) (o : obj) :
  In k (keys o) -> exists v, In (k, v) o.
Proof.
  unfold keys. intros H. apply in_map_iff in H as [[k' v] [E Hin]].
  simpl in E. subst. exists v. exact Hin.
Qed.

Lemma obj_get_map (f : json -> json) (k : string) (o : obj) :
  obj_get k (map (fun kv => (fst kv, f (snd kv))) o) = option_map f (obj_get k o).
Proof.
  induction o as [|[k' v'] o IH]; simpl; [reflexivity|].
  destruct (String.eqb k k'); [reflexivity|exact IH].
Qed.

(** The rebuilt object depends on the source only through the values found
    under the keys that are visited. *)
Lemma rebuild_ext (values values' : obj) (ks : list string) :
  (forall k, In k ks -> obj_get k values = obj_get k values') ->
  rebuild values ks = rebuild values' ks.
Proof.
  unfold rebuild. generalize (@nil (string * json)) as acc.
  induction ks as [|k ks IH]; simpl; intros acc H; [reflexivity|].
  rewrite (H k) by (left; reflexivity).
  apply IH. intros k' Hk'. apply H. right. exact Hk'.
Qed.

Lemma same_props_keys (p p' : obj) :
  Forall2 (fun kv kv' => fst kv = fst kv' /\ same_value (snd kv) (snd kv')) p p' ->
  keys p = keys p'.
Proof.
  induction 1 as [|kv kv' p p' [E _] _ IH]; simpl; [reflexivity|].
  rewrite E, IH. reflexivity.
Qed.

Lemma same_props_in (p p' : obj) (k : string) (v : json) :
  Forall2 (fun kv kv' => fst kv = fst kv' /\ same_value (snd kv) (snd kv')) p p' ->
  In (k, v) p -> exists v', In (k, v') p' /\ same_value v v'.
Proof.
  induction 1 as [|kv [k' v'] p p' [E S] _ IH]; simpl; intros Hin; [contradiction|].
  destruct Hin as [->|Hin].
  - simpl in *. subst. exists v'. split; [left; reflexivity|exact S].
  - destruct (IH Hin) as [w [Hw Sw]]. exists w. split; [right; exact Hw|exact Sw].
Qed.

Lemma sortKeysRecursive_same (a : json) :
  forall a', same_value a a' -> sortKeysRecursive a = sortKeysRecursive a'.
Proof.
  induction a as [| | | |items IH|props IH] using json_induction;
    intros a' H; inversion H; subst; try reflexivity.
  - (* arrays *)
    simpl. f_equal.
    clear H.
    match goal with Hs : Forall2 same_value _ _ |- _ => revert IH; induction Hs end;
      intros IH; simpl; [reflexivity|].
    inversion IH; subst. f_equal; auto.
  - (* objects *)
    match goal with
    | Hnd : List.NoDup (keys props), Hp : Permutation props _, Hs : Forall2 _ _ _ |- _ =>
        rename Hnd into Hnodup; rename Hp into Hperm; rename Hs into Hsame
    end.
    assert (Hkeys : Permutation (keys props) (keys props')).
    { rewrite <- (same_props_keys _ _ Hsame). unfold keys.
      apply Permutation_map. exact Hperm. }
    assert (Hnodup' : List.NoDup (keys props')).
    { eapply Permutation_NoDup; eassumption. }
    simpl. f_equal.
    rewrite <- (sort_permutation _ _ Hkeys).
    apply rebuild_ext. intros k Hk.
    assert (Hk0 : In k (keys props)).
    { eapply Permutation_in; [symmetry; apply sort_is_permutation|exact Hk]. }
    destruct (obj_get_keys k props Hk0) as [v Hv].
    destruct (same_props_in _ _ k v Hsame (@Permutation_in _ _ _ _ Hperm Hv))
      as [v' [Hv' Svv']].
    rewrite !obj_get_map.
    rewrite (obj_get_in k v props Hnodup Hv), (obj_get_in k v' props' Hnodup' Hv').
    simpl. f_equal.
    rewrite List.Forall_forall in IH. exact (IH (k, v) Hv v' Svv').
Qed.

Lemma canonicalizeJson_array (items : list json) :
  canonicalizeJson (JArr items) = "[" ++ join "," (map canonicalizeJson items) ++ "]".
Proof.
  unfold canonicalizeJson. simpl. rewrite map_map. reflexivity.
Qed.

(** C8. Two JSON values that are the same up to the order of object keys,
    at any depth, have the same canonical JSON text; the elements of an
    array are written in the order of the array, each in canonical form. *)
Theorem canonicalizeJson_key_order (a b : json) (items : list json) :
  (same_value a b -> canonicalizeJson a = canonicalizeJson b) /\
  canonicalizeJson (JArr items) = "[" ++ join "," (map canonicalizeJson items) ++ "]".
Proof.
  split.
  - intros H. unfold canonicalizeJson. f_equal. apply sortKeysRecursive_same. exact H.
  - apply canonicalizeJson_array.
Qed.

Lemma canonicalizeJson_key_order_witness :
  canonicalizeJson (JObj [("z", JNum 1); ("a", JNum 2)])
  = canonicalizeJson (JObj [("a", JNum 2); ("z", JNum 1)]).
Proof.
  apply (proj1 (canonicalizeJson_key_order
                  (JObj [("z", JNum 1); ("a", JNum 2)])
                  (JObj [("a", JNum 2); ("z", JNum 1)]) [])).
  apply same_obj with (reordered := [("a", JNum 2); ("z", JNum 1)]).
  - repeat constructor; simpl; intuition discriminate.
  - apply perm_swap.
  - repeat constructor.
Defined.

Example canonicalizeJson_nested :
  canonicalizeJson
    (JObj [("z", JNum 1);
           ("a", JObj [("y", JArr [JObj [("b", JNum 1); ("a", JNum 2)]; JNull]);
                       ("x", JStr "s")])])
  = canonicalizeJson
      (JObj [("a", JObj [("x", JStr "s");
                         ("y", JArr [JObj [("a", JNum 2); ("b", JNum 1)]; JNull])]);
             ("z", JNum 1)]).
Proof. reflexivity. Qed.

(** Keys that are array indices are enumerated first, in numeric order,
    whatever the order of insertion. *)
Example canonicalizeJson_index_keys :
  canonicalizeJson (JObj [("b", JNull); ("10", JNum 1); ("9", JNum 2)])
  = stringify (JObj [("9", JNum 2); ("10", JNum 1); ("b", JNull)]) /\
  canonicalizeJson (JObj [("9", JNum 2); ("b", JNull); ("10", JNum 1)])
  = stringify (JObj [("9", JNum 2); ("10", JNum 1); ("b", JNull)]).
Proof. split; reflexivity. Qed.

Example canonicalizeJson_array_order :
  canonicalizeJson (JArr [JNum 1; JNum 2]) <> canonicalizeJson (JArr [JNum 2; JNum 1]).
Proof. vm_compute. discriminate. Qed.

(** *** Property assignment *)

Lemma obj_get_update_same (k : string) (v : json) (o : obj) :
  obj_has k o = true -> obj_get k (obj_update k v o) = Some v.
Proof.
  unfold obj_has. induction o as [|[k' v'] o IH]; simpl; [discriminate|].
  destruct (String.eqb k k') eqn:E; simpl; rewrite E; [reflexivity|exact IH].
Qed.

Lemma obj_get_update_other (k k' : string) (v : json) (o : obj) :
  k <> k' -> obj_get k (obj_update k' v o) = obj_get k o.
Proof.
  intros Hne. induction o as [|[k0 v0] o IH]; simpl; [reflexivity|].
  destruct (String.eqb_spec k' k0) as [->|_]; simpl.
  - apply String.eqb_neq in Hne. rewrite Hne. reflexivity.
  - destruct (String.eqb k k0); [reflexivity|exact IH].
Qed.

Lemma obj_get_insert_index_same (i : N) (k : string) (v : json) (o : obj) :
  obj_has k o = false -> obj_get k (obj_insert_index i k v o) = Some v.
Proof.
  unfold obj_has. induction o as [|[k' v'] o IH]; simpl.
  - rewrite String.eqb_refl. reflexivity.
  - destruct (String.eqb k k') eqn:E; [discriminate|]. intros H.
    destruct (array_index k') as [j|]; [destruct (j <? i)%N|]; simpl;
      rewrite ?E, ?String.eqb_refl; auto.
Qed.

Lemma obj_get_insert_index_other (i : N) (k k' : string) (v : json) (o : obj) :
  k <> k' -> obj_get k (obj_insert_index i k' v o) = obj_get k o.
Proof.
  intros Hne. apply String.eqb_neq in Hne.
  induction o as [|[k0 v0] o IH]; simpl.
  - rewrite Hne. reflexivity.
  - destruct (array_index k0) as [j|]; [destruct (j <? i)%N|]; simpl;
      rewrite ?Hne, ?IH; reflexivity.
Qed.

Lemma obj_get_app (k : string) (o o' : obj) :
  obj_get k (o ++ o')%list = match obj_get k o with Some v => Some v | None => obj_get k o' end.
Proof.
  induction o as [|[k' v'] o IH]; simpl; [reflexivity|].
  destruct (String.eqb k k'); [reflexivity|exact IH].
Qed.

(** Reading back the property that was just assigned. *)
Lemma obj_get_set_same (k : string) (v : json) (o : obj) :
  k <> "__proto__" -> obj_get k (obj_set o k v) = Some v.
Proof.
  intros Hne. apply String.eqb_neq in Hne. unfold obj_set. rewrite Hne.
  destruct (obj_has k o) eqn:Hhas.
  - apply obj_get_update_same. exact Hhas.
  - destruct (array_index k).
    + apply obj_get_insert_index_same. exact Hhas.
    + rewrite obj_get_app. unfold obj_has in Hhas.
      destruct (obj_get k o); [discriminate|]. simpl.
      rewrite String.eqb_refl. reflexivity.
Qed.

(** Assigning one property leaves the others as they were. *)
Lemma obj_get_set_other (k k' : string) (v : json) (o : obj) :
  k <> k' -> obj_get k (obj_set o k' v) = obj_get k o.
Proof.
  intros Hne. unfold obj_set.
  destruct (String.eqb k' "__proto__"); [reflexivity|].
  destruct (obj_has k' o).
  - apply obj_get_update_other. exact Hne.
  - destruct (array_index k').
    + apply obj_get_insert_index_other. exact Hne.
    + rewrite obj_get_app. destruct (obj_get k o); [reflexivity|]. simpl.
      apply String.eqb_neq in Hne. rewrite Hne. reflexivity.
Qed.

Lemma extractCapabilities_downloads (p : Payload) :
  obj_get "downloads" (extractCapabilities p)
  = Some (JBool (determineDownloadCapability p)).
Proof.
  unfold extractCapabilities.
  destruct (license p) as [l|];
    [destruct (activations_limit l), (activations_count l)|];
    rewrite ?obj_get_set_other by discriminate;
    apply obj_get_set_same; discriminate.
Qed.

(** *** The state machine *)

Lemma includes_In (l : list string) (s : string) :
  includes l s = true <-> In s l.
Proof.
  unfold includes. rewrite existsb_exists. split.
  - intros [x [Hin E]]. apply String.eqb_eq in E. subst. exact Hin.
  - intros Hin. exists s. split; [exact Hin|apply String.eqb_refl].
Qed.

Lemma toLowerCase_nonempty (s : string) :
  toLowerCase s <> "" -> s <> "".
Proof. destruct s; simpl; congruence. Qed.

(** C7. A payload whose status is revoked, suspended or cancelled, in any
    letter case, is INVALID at every instant, whatever its validity window,
    its [valid] flag and its other fields. *)
Theorem determineState_invalid_status (now : Z) (p : Payload) (s : string) :
  status p = Some s ->
  In (toLowerCase s) ["revoked"; "suspended"; "cancelled"] ->
  determineState now p = INVALID.
Proof.
  intros Hs Hin. unfold determineState. rewrite Hs. simpl str.
  assert (Hne : truthy_str (Some s) = true).
  { simpl. destruct s; [|reflexivity].
    simpl in Hin. intuition discriminate. }
  rewrite Hne. apply includes_In in Hin. rewrite Hin. reflexivity.
Qed.

Lemma determineState_invalid_status_witness :
  determineState 1700000000 Examples.revoked_payload = INVALID.
Proof.
  apply (determineState_invalid_status 1700000000 Examples.revoked_payload "Revoked").
  - reflexivity.
  - simpl. left. reflexivity.
Defined.

(** C6. For a payload whose status is none of revoked, suspended and
    cancelled and whose [valid_from] does not lie ahead, a [valid_until] that
    is set (a number other than 0, which JavaScript reads as unset) and lies
    in the past gives GRACE while less than 7 days have passed since, and
    RESTRICTED from then on.  So an end 8 days ago gives RESTRICTED, an end 3
    days ago gives GRACE, and an end one day ahead leaves the decision to the
    branches after the expiry test. *)
Theorem determineState_expiry (now : Z) (p : Payload) (vu : Z) :
  ~ In (toLowerCase (str (status p))) ["revoked"; "suspended"; "cancelled"] ->
  (forall vf, valid_from p = Some vf -> vf <> 0 -> vf <= now) ->
  valid_until p = Some vu ->
  vu <> 0 ->
  (vu < now -> now - vu < 7 * 86400 -> determineState now p = GRACE) /\
  (vu < now -> 7 * 86400 <= now - vu -> determineState now p = RESTRICTED) /\
  (vu = now - 8 * 86400 -> determineState now p = RESTRICTED) /\
  (vu = now - 3 * 86400 -> determineState now p = GRACE) /\
  (vu = now + 86400 ->
   determineState now p = determineState now (without_valid_until p)).
Proof.
  intros Hstatus Hfrom Huntil Hset.
  assert (S : truthy_str (status p) &&
              includes ["revoked"; "suspended"; "cancelled"]
                       (toLowerCase (str (status p))) = false).
  { destruct (includes _ _) eqn:E; [|apply andb_false_r].
    apply includes_In in E. contradiction. }
  assert (F : truthy_num (valid_from p) && (now <? num (valid_from p)) = false).
  { destruct (valid_from p) as [vf|] eqn:E; simpl; [|reflexivity].
    destruct (Z.eqb_spec vf 0) as [->|Hne]; simpl; [reflexivity|].
    apply Z.ltb_ge. apply Hfrom; [reflexivity|exact Hne]. }
  assert (Hset' : (vu =? 0) = false) by (apply Z.eqb_neq; exact Hset).
  assert (G : vu < now -> now - vu < 7 * 86400 -> determineState now p = GRACE).
  { intros Hpast Hgrace. unfold determineState. rewrite S, F, Huntil. simpl.
    rewrite Hset'. simpl.
    replace (vu <? now) with true by (symmetry; apply Z.ltb_lt; exact Hpast).
    destruct (Z.ltb_spec (now - vu) (7 * 86400)); [reflexivity|lia]. }
  assert (R : vu < now -> 7 * 86400 <= now - vu -> determineState now p = RESTRICTED).
  { intros Hpast Hlate. unfold determineState. rewrite S, F, Huntil. simpl.
    rewrite Hset'. simpl.
    replace (vu <? now) with true by (symmetry; apply Z.ltb_lt; exact Hpast).
    destruct (Z.ltb_spec (now - vu) (7 * 86400)); [lia|reflexivity]. }
  repeat split; try assumption.
  - intros E. apply R; lia.
  - intros E. apply G; lia.
  - intros E. unfold determineState.
    cbn [without_valid_until status valid_from valid_until valid
         revalidation_failed last_verified_at].
    rewrite S, F, Huntil. cbn [truthy_num num].
    replace (vu <? now) with false by (symmetry; apply Z.ltb_ge; lia).
    rewrite andb_false_r. reflexivity.
Qed.

Lemma determineState_expiry_witness :
  determineState 1700000000 (Examples.ended_at (1700000000 - 8 * 86400)) = RESTRICTED.
Proof.
  refine (proj1 (proj2 (proj2
    (determineState_expiry 1700000000 (Examples.ended_at (1700000000 - 8 * 86400))
       (1700000000 - 8 * 86400) _ _ _ _))) _).
  - simpl. intuition discriminate.
  - simpl. intros vf E _. inversion E. lia.
  - reflexivity.
  - lia.
  - reflexivity.
Defined.

Example determineState_three_days_ago :
  determineState 1700000000 (Examples.ended_at (1700000000 - 3 * 86400)) = GRACE.
Proof. reflexivity. Qed.

Example determineState_one_day_ahead :
  determineState 1700000000 (Examples.ended_at (1700000000 + 86400)) = ACTIVE.
Proof. reflexivity. Qed.

(** A [valid_until] of 0 is read as unset: the license does not expire. *)
Example determineState_until_zero :
  determineState 1700000000 (Examples.ended_at 0) = ACTIVE.
Proof. reflexivity. Qed.

(** *** Capabilities *)

Lemma is_true_iff (o : option json) : is_true o = true <-> o = Some (JBool true).
Proof.
  unfold is_true. split.
  - destruct o as [[| [|] | | | |]|]; intros H; try discriminate; reflexivity.
  - intros ->. reflexivity.
Qed.

(** C9, as stated, fails: a payload whose [valid] is exactly true and whose
    license carries the status "expired" has no download capability. *)
Lemma downloads_iff_status_or_valid_fails :
  ~ (forall p : Payload,
       obj_get "downloads" (extractCapabilities p) = Some (JBool true) <->
       ((exists s, license_status_of p = Some s /\
                   In s ["active"; "assigned"; "available"]) \/
        valid p = Some (JBool true))).
Proof.
  intros H.
  destruct (H Examples.valid_but_expired) as [_ H2].
  assert (C : obj_get "downloads" (extractCapabilities Examples.valid_but_expired)
              = Some (JBool true)).
  { apply H2. right. reflexivity. }
  vm_compute in C. discriminate.
Qed.

(** C9, amended.  The download capability is a boolean; it is true exactly
    when the payload's license has a status and that status, lower-cased, is
    active, assigned or available, or when the license has no status and
    [valid] is exactly true. *)
Theorem downloads_capability (p : Payload) :
  exists d : bool,
    obj_get "downloads" (extractCapabilities p) = Some (JBool d) /\
    (d = true <->
     (exists s, license_status_of p = Some s /\
                In s ["active"; "assigned"; "available"]) \/
     (license_status_of p = None /\ valid p = Some (JBool true))).
Proof.
  exists (determineDownloadCapability p). split.
  - apply extractCapabilities_downloads.
  - unfold determineDownloadCapability, license_status_of.
    destruct (license p) as [l|].
    + destruct (truthy_str (license_status l)).
      * rewrite includes_In. split.
        -- intros Hin. left. eexists. split; [reflexivity|exact Hin].
        -- intros [[s [E Hin]]|[E _]]; [|discriminate].
           inversion E; subst. exact Hin.
      * rewrite is_true_iff. split.
        -- intros Hv. right. split; [reflexivity|exact Hv].
        -- intros [[s [E _]]|[_ Hv]]; [discriminate|exact Hv].
    + rewrite is_true_iff. split.
      * intros Hv. right. split; [reflexivity|exact Hv].
      * intros [[s [E _]]|[_ Hv]]; [discriminate|exact Hv].
Qed.

(** *** The state store *)

Lemma fromCache_lastVerifiedAt (now : Z) (cachedData : StateObject)
    (verifier : option SignatureVerifier.t) (st : EntitlementState.t) :
  fromCache now cachedData verifier = Ret st -> lastVerifiedAt st = now.
Proof.
  unfold fromCache.
  destruct (negb (truthy_str (o_signature cachedData))); [discriminate|].
  destruct verifier as [v|].
  - destruct (SignatureVerifier.verify v _ _) as [[|]|e]; try discriminate.
    intros H. inversion H. reflexivity.
  - intros H. inversion H. reflexivity.
Qed.

Lemma get_some (self self' : StateStore.t) (now : Z) (key : string)
    (st : EntitlementState.t) :
  StateStore.get self now key = (Ret (Some st), self') ->
  exists cached,
    StateStore.store self !! key = Some cached /\
    (StateStore.expiresAt cached <? now) = false /\
    fromCache now (StateStore.cachedState cached) (StateStore.verifier self) = Ret st.
Proof.
  unfold StateStore.get.
  destruct (StateStore.store self !! key) as [cached|]; [|discriminate].
  destruct (StateStore.expiresAt cached <? now) eqn:E; [discriminate|].
  destruct (fromCache now _ _) as [st'|e] eqn:F; [|discriminate].
  intros H. inversion H; subst. exists cached. auto.
Qed.

(** C4. A state read from the store carries the instant of the read as its
    [lastVerifiedAt], whatever [last_verified_at] was persisted; at that
    instant it needs no revalidation for any positive interval. *)
Theorem get_resets_lastVerifiedAt (self self' : StateStore.t) (now : Z)
    (key : string) (st : EntitlementState.t) :
  StateStore.get self now key = (Ret (Some st), self') ->
  lastVerifiedAt st = now /\
  forall interval, 0 < interval -> needsRevalidation now st interval = false.
Proof.
  intros H. apply get_some in H as [cached [_ [_ F]]].
  apply fromCache_lastVerifiedAt in F. split; [exact F|].
  intros interval Hpos. unfold needsRevalidation. rewrite F.
  apply Z.ltb_ge. lia.
Qed.

Lemma get_resets_lastVerifiedAt_witness :
  exists st self',
    StateStore.get (Examples.long_lived_store (Some Examples.accept_all))
                   5000000 Examples.stateKey = (Ret (Some st), self') /\
    o_last_verified_at (toObject Examples.active_state) = 100 /\
    lastVerifiedAt st = 5000000 /\
    forall interval, 0 < interval -> needsRevalidation 5000000 st interval = false.
Proof.
  eexists. eexists. split; [vm_compute; reflexivity|].
  split; [reflexivity|].
  eapply (get_resets_lastVerifiedAt
            (Examples.long_lived_store (Some Examples.accept_all)) _
            5000000 Examples.stateKey).
  vm_compute. reflexivity.
Defined.

Lemma get_after_remove (self : StateStore.t) (key : string) (now : Z) :
  StateStore.get (StateStore.remove self key) now key
  = (Ret None, StateStore.remove self key).
Proof.
  unfold StateStore.get, StateStore.remove. simpl.
  rewrite lookup_delete_eq. reflexivity.
Qed.

Lemma cached_text_nonempty (o : StateObject) : cached_text o <> "".
Proof.
  unfold cached_text, object_props. cbn [obj_delete String.eqb Ascii.eqb Bool.eqb].
  unfold stringify at 1. simpl append. discriminate.
Qed.

Lemma fromCache_rejected (now : Z) (o : StateObject) (v : SignatureVerifier.t) :
  fails_verification v o ->
  fromCache now o (Some v) = Throw (not_defined "SignatureError").
Proof.
  intros [sig [Hsig [Hne Hrej]]]. unfold fromCache. rewrite Hsig.
  fold (cached_text o). cbn [truthy_str str].
  apply String.eqb_neq in Hne. rewrite Hne. cbn [negb].
  unfold SignatureVerifier.verify.
  pose proof (cached_text_nonempty o) as Ht. apply String.eqb_neq in Ht.
  rewrite Ht, Hne, Hrej. reflexivity.
Qed.

(** C5.  With a verifier configured, an entry that has not outlived its TTL
    and whose embedded signature the verifier rejects makes [get] throw and
    leaves the store without the entry, and every later [get] for the key is
    a miss that throws nothing and changes nothing.  What is thrown,
    however, is not a SignatureError: [fromCache] names that class without
    requiring it, and the exception is the ReferenceError
    'SignatureError is not defined', which no handler for signature failures
    recognizes. *)
Theorem get_bad_signature_throws_once (self : StateStore.t)
    (v : SignatureVerifier.t) (now : Z) (key : string)
    (cached : StateStore.CachedEntry) :
  StateStore.verifier self = Some v ->
  StateStore.store self !! key = Some cached ->
  fails_verification v (StateStore.cachedState cached) ->
  (StateStore.expiresAt cached <? now) = false ->
  exists self',
    StateStore.get self now key
    = (Throw (mkExn ReferenceError "SignatureError is not defined"), self') /\
    instanceof (mkExn ReferenceError "SignatureError is not defined") SignatureError
    = false /\
    StateStore.store self' !! key = None /\
    forall now', StateStore.get self' now' key = (Ret None, self').
Proof.
  intros Hv Hcached Hfails Hlive.
  exists (StateStore.remove self key). split; [|split; [|split]].
  - unfold StateStore.get. rewrite Hcached, Hlive, Hv.
    rewrite (fromCache_rejected now _ v Hfails). reflexivity.
  - reflexivity.
  - unfold StateStore.remove. simpl. apply lookup_delete_eq.
  - intros now'. apply get_after_remove.
Qed.

Lemma get_bad_signature_throws_once_witness :
  exists self',
    StateStore.get (Examples.store_with_active (Some Examples.reject_all))
                   200 Examples.stateKey
    = (Throw (mkExn ReferenceError "SignatureError is not defined"), self') /\
    instanceof (mkExn ReferenceError "SignatureError is not defined") SignatureError
    = false /\
    StateStore.store self' !! Examples.stateKey = None /\
    forall now', StateStore.get self' now' Examples.stateKey = (Ret None, self').
Proof.
  apply (get_bad_signature_throws_once
           (Examples.store_with_active (Some Examples.reject_all))
           Examples.reject_all 200 Examples.stateKey
           {| StateStore.cachedState := toObject Examples.active_state;
              StateStore.expiresAt := 400 |}).
  - reflexivity.
  - vm_compute. reflexivity.
  - exists "c2ln". split; [reflexivity|split; [discriminate|reflexivity]].
  - reflexivity.
Defined.

Lemma fromCache_unsigned (now : Z) (o : StateObject)
    (verifier : option SignatureVerifier.t) :
  unsigned o ->
  fromCache now o verifier = Throw (not_defined "SignatureError").
Proof.
  unfold unsigned, fromCache. intros ->. reflexivity.
Qed.

(** C10. An entry whose cached object carries no signature is never
    returned: with or without a verifier, a [get] that finds it within its
    TTL throws and evicts it, and no [get] answers with a state built from
    it.  What is thrown, however, is not a SignatureError but the
    ReferenceError 'SignatureError is not defined': [fromCache] names the
    class without requiring it. *)
Theorem get_unsigned_throws (self : StateStore.t) (now : Z) (key : string)
    (cached : StateStore.CachedEntry) :
  StateStore.store self !! key = Some cached ->
  unsigned (StateStore.cachedState cached) ->
  ((StateStore.expiresAt cached <? now) = false ->
   StateStore.get self now key
   = (Throw (mkExn ReferenceError "SignatureError is not defined"),
      StateStore.remove self key) /\
   instanceof (mkExn ReferenceError "SignatureError is not defined") SignatureError
   = false /\
   StateStore.store (StateStore.remove self key) !! key = None) /\
  (forall st self', StateStore.get self now key <> (Ret (Some st), self')).
Proof.
  intros Hcached Hunsigned. split.
  - intros Hlive. split; [|split].
    + unfold StateStore.get. rewrite Hcached, Hlive.
      rewrite (fromCache_unsigned now _ _ Hunsigned). reflexivity.
    + reflexivity.
    + unfold StateStore.remove. simpl. apply lookup_delete_eq.
  - intros st self' H. apply get_some in H as [cached' [Hc [_ F]]].
    rewrite Hcached in Hc. inversion Hc; subst.
    rewrite (fromCache_unsigned now _ _ Hunsigned) in F. discriminate.
Qed.

Lemma get_unsigned_throws_witness :
  StateStore.get (Examples.store_with_restricted None) 200 Examples.stateKey
  = (Throw (mkExn ReferenceError "SignatureError is not defined"),
     StateStore.remove (Examples.store_with_restricted None) Examples.stateKey).
Proof.
  refine (proj1 (proj1
    (get_unsigned_throws (Examples.store_with_restricted None) 200 Examples.stateKey
       {| StateStore.cachedState := toObject Examples.restricted_state;
          StateStore.expiresAt := 400 |} _ _) _)).
  - vm_compute. reflexivity.
  - reflexivity.
  - reflexivity.
Defined.

(** *** The validator *)

Import LicenseValidator.

Section Validator.

Variable sha256_hex : string -> string.
Variable date_seconds : json -> option Z.


Lemma createRestrictedState_metadata (r : StateResolver.t) (now : Z) (reason : string)
    (licenseKey : option string) :
  LicenseState.getMetadata (StateResolver.createRestrictedState r now reason licenseKey)
  = [("reason", JStr reason)].
Proof. reflexivity. Qed.






End Validator.


(** The request fails while the store holds a signed state that allows
    operation, and the call rejects with the TypeError. *)
Example resolveLicenseState_throws_beside_cached_state :
  let w1 := resumes Examples.network_down_after_store Examples.world_empty in
  (exists st s',
     StateStore.get (stateStore w1) (clock w1) Examples.stateKey = (Ret (Some st), s') /\
     allowsOperation st = true) /\
  fst (resolveLicenseState Examples.sample_sha256 Examples.sample_date
         (Examples.validator true (Some Examples.accept_all)) Examples.key
         Examples.network_down_after_store Examples.world_empty)
  = Throw (mkExn TypeError "Right-hand side of 'instanceof' is not callable").
Proof.
  split.
  - eexists. eexists. split; [vm_compute; reflexivity|reflexivity].
  - vm_compute. reflexivity.
Qed.

(** The same with caching switched off and the state stored beforehand. *)
Example resolveLicenseState_throws_cache_disabled :
  fst (resolveLicenseState Examples.sample_sha256 Examples.sample_date
         (Examples.validator false (Some Examples.accept_all)) Examples.key
         Examples.network_down Examples.world_cached)
  = Throw (mkExn TypeError "Right-hand side of 'instanceof' is not callable").
Proof. vm_compute. reflexivity. Qed.

(** What [createGraceState] makes of the serialized cached state, had it
    been reached with [toObject]. *)
Example createGraceState_of_cached_state :
  exists st s',
    StateStore.get (Examples.store_with_active (Some Examples.accept_all)) 230
                   Examples.stateKey = (Ret (Some st), s') /\
    LicenseState.getState
      (StateResolver.createGraceState (Examples.resolver (Some Examples.accept_all))
         230 (toObject st) (Some Examples.key)) = GRACE.
Proof.
  eexists. eexists. split; [vm_compute; reflexivity|reflexivity].
Qed.


(** A blank license key: the TypeError of [_validateLicenseKey] is answered
    by the TypeError of the handler. *)
Example getLicenseState_blank_key :
  getLicenseState Examples.sample_sha256 Examples.sample_date
    (Examples.validator true (Some Examples.accept_all)) "  "
    Examples.network_down Examples.world_empty
  = (Throw (mkExn TypeError "Right-hand side of 'instanceof' is not callable"),
     Examples.world_empty).
Proof. vm_compute. reflexivity. Qed.

(** *** The resolver *)

Lemma signedText_nonempty (response : obj) : StateResolver.signedText response <> "".
Proof. unfold StateResolver.signedText. simpl. discriminate. Qed.

(** What [verifySignature] answers is what the key answers on
    [signedText]. *)
Lemma verifySignature_outcome (self : StateResolver.t) (v : SignatureVerifier.t)
    (response : obj) (s : string) :
  StateResolver.verifier self = Some v ->
  s <> "" ->
  StateResolver.verifySignature self response s
  = if rsa_sha256 v (StateResolver.signedText response) s
    then Ret tt
    else Throw (mkExn SignatureError "Response signature verification failed").
Proof.
  intros Hv Hne. unfold StateResolver.verifySignature, SignatureVerifier.verify.
  rewrite Hv. apply String.eqb_neq in Hne. rewrite Hne.
  pose proof (signedText_nonempty response) as Ht. apply String.eqb_neq in Ht.
  rewrite Ht. destruct (rsa_sha256 v _ s); reflexivity.
Qed.

(** With a verifier configured and a signature in the response, a text the
    key rejects stops [resolveFromValidation] before the payload is read. *)
Lemma resolveFromValidation_rejected (sha256_hex : string -> string)
    (date_seconds : json -> option Z) (self : StateResolver.t)
    (v : SignatureVerifier.t) (now : Z) (response : obj) (s : string)
    (licenseKey : option string) :
  StateResolver.verifier self = Some v ->
  obj_get "signature" response = Some (JStr s) ->
  s <> "" ->
  rsa_sha256 v (StateResolver.signedText response) s = false ->
  StateResolver.resolveFromValidation sha256_hex date_seconds self now response licenseKey
  = Throw (mkExn SignatureError "Response signature verification failed").
Proof.
  intros Hv Hsig Hne Hrej.
  unfold StateResolver.resolveFromValidation, StateResolver.signature_field,
    StateResolver.verifySignature.
  rewrite Hv, Hsig. apply String.eqb_neq in Hne. rewrite Hne.
  unfold SignatureVerifier.verify. rewrite Hne, Hrej.
  pose proof (signedText_nonempty response) as Ht. apply String.eqb_neq in Ht.
  rewrite Ht. reflexivity.
Qed.

(** The sample state is what the resolver builds from the sample response. *)
Example resolveFromValidation_active_response :
  StateResolver.resolveFromValidation Examples.sample_sha256 Examples.sample_date
    (Examples.resolver (Some Examples.accept_all)) 100 Examples.active_response
    (Some Examples.key)
  = Ret {| LicenseState.entitlementState := Examples.active_state;
           LicenseState.licenseKey := Some Examples.key |}.
Proof. reflexivity. Qed.

(** C3.  The text that reaches the verifier is [JSON.stringify] of the
    response without its signature, keys in the order of the response, not
    its canonical JSON: a response whose keys are not sorted and whose
    signature is valid for the canonical JSON of the rest is turned away
    with a SignatureError. *)
Theorem verifySignature_text_not_canonical :
  let body := JObj (obj_delete "signature" Examples.signed_response) in
  obj_get "signature" Examples.signed_response = Some (JStr (canonicalizeJson body)) /\
  rsa_sha256 Examples.echo_key (canonicalizeJson body) (canonicalizeJson body) = true /\
  StateResolver.signedText Examples.signed_response <> canonicalizeJson body /\
  StateResolver.resolveFromValidation Examples.sample_sha256 Examples.sample_date
    (Examples.resolver (Some Examples.echo_key)) 100 Examples.signed_response
    (Some Examples.key)
  = Throw (mkExn SignatureError "Response signature verification failed").
Proof.
  repeat split.
  - vm_compute. discriminate.
Qed.

(** The same response, with the same key, passes [verifyJsonResponse], which
    does canonicalize. *)
Example verifyJsonResponse_signed_response (text : string) :
  SignatureVerifier.verifyJsonResponse Examples.parse_signed_response
    Examples.echo_key text = Ret true.
Proof. reflexivity. Qed.

Example signedText_signed_response :
  StateResolver.signedText Examples.signed_response
  = stringify (JObj [("valid", JBool true);
                     ("license", JObj [("status", JStr "active"); ("features", JObj [])])]) /\
  canonicalizeJson (JObj Examples.unsigned_body)
  = stringify (JObj [("license", JObj [("features", JObj []); ("status", JStr "active")]);
                     ("valid", JBool true)]).
Proof. split; reflexivity. Qed.

(** ** More of the state store *)

(** What a sweep leaves and what it counts. *)
Lemma sweep_fold (test : string -> StateStore.CachedEntry -> bool)
    (start m : gmap string StateStore.CachedEntry) :
  let r := map_fold
             (fun key cached acc =>
                if test key cached then (S (fst acc), delete key (snd acc)) else acc)
             (0%nat, start) m in
  fst r = size (filter (fun kv => test (fst kv) (snd kv) = true) m) /\
  forall k, snd r !! k
            = match m !! k with
              | Some c => if test k c then None else start !! k
              | None => start !! k
              end.
Proof.
  cbv zeta.
  apply (map_fold_weak_ind
           (fun r m =>
              fst r = size (filter (fun kv => test (fst kv) (snd kv) = true) m) /\
              forall k, snd r !! k
                        = match m !! k with
                          | Some c => if test k c then None else start !! k
                          | None => start !! k
                          end)).
  - split; [rewrite map_filter_empty; reflexivity|].
    intros k. rewrite lookup_empty. reflexivity.
  - intros i x m' r Hi [Hcount Hlook].
    destruct (test i x) eqn:T; simpl.
    + split.
      * rewrite map_filter_insert_True by exact T.
        rewrite map_size_insert_None; [congruence|].
        apply map_lookup_filter_None. left. exact Hi.
      * intros k. destruct (decide (k = i)) as [->|Hne].
        -- rewrite lookup_delete_eq, lookup_insert_eq, T. reflexivity.
        -- rewrite lookup_delete_ne, lookup_insert_ne by congruence. apply Hlook.
    + split.
      * rewrite map_filter_insert_False by (simpl; congruence).
        rewrite delete_id by exact Hi. exact Hcount.
      * intros k. destruct (decide (k = i)) as [->|Hne].
        -- rewrite lookup_insert_eq, T. rewrite Hlook, Hi. reflexivity.
        -- rewrite lookup_insert_ne by congruence. apply Hlook.
Qed.

Lemma sweep_lookup (test : string -> StateStore.CachedEntry -> bool)
    (m : gmap string StateStore.CachedEntry) (k : string) :
  snd (StateStore.sweep test m) !! k
  = match m !! k with
    | Some c => if test k c then None else Some c
    | None => None
    end.
Proof.
  unfold StateStore.sweep.
  destruct (sweep_fold test m m) as [_ H]. rewrite H.
  destruct (m !! k) eqn:E; [|reflexivity]. destruct (test k c); reflexivity.
Qed.

Lemma filter_split_size (P : string * StateStore.CachedEntry -> bool)
    (m : gmap string StateStore.CachedEntry) :
  (size (filter (fun kv => P kv = true) m) + size (filter (fun kv => P kv = false) m))%nat
  = size m.
Proof.
  induction m as [|i x m Hi IH] using map_ind.
  - rewrite !map_filter_empty. reflexivity.
  - rewrite map_size_insert_None by exact Hi.
    destruct (P (i, x)) eqn:E.
    + rewrite map_filter_insert_True by exact E.
      rewrite (map_filter_insert_False (fun kv => P kv = false)) by congruence.
      rewrite delete_id by exact Hi.
      rewrite map_size_insert_None
        by (apply map_lookup_filter_None; left; exact Hi).
      simpl. rewrite IH. reflexivity.
    + rewrite (map_filter_insert_True (fun kv => P kv = false)) by exact E.
      rewrite map_filter_insert_False by congruence.
      rewrite delete_id by exact Hi.
      rewrite map_size_insert_None
        by (apply map_lookup_filter_None; left; exact Hi).
      rewrite Nat.add_succ_r, IH. reflexivity.
Qed.

Lemma sweep_count (test : string -> StateStore.CachedEntry -> bool)
    (m : gmap string StateStore.CachedEntry) :
  (fst (StateStore.sweep test m) + size (snd (StateStore.sweep test m)))%nat = size m.
Proof.
  assert (E : snd (StateStore.sweep test m)
              = filter (fun kv => test (fst kv) (snd kv) = false) m).
  { apply map_eq. intros k. rewrite sweep_lookup, map_lookup_filter.
    destruct (m !! k) as [c|]; simpl; [|reflexivity].
    destruct (test k c) eqn:T; case_guard; simpl in *; congruence. }
  rewrite E. unfold StateStore.sweep.
  destruct (sweep_fold test m m) as [H _]. rewrite H.
  apply (filter_split_size (fun kv => test (fst kv) (snd kv))).
Qed.

Lemma getStats_counts (self : StateStore.t) (now : Z) :
  StateStore.expired (StateStore.getStats self now)
  = size (filter (fun kv : string * StateStore.CachedEntry =>
                    (StateStore.expiresAt (snd kv) <? now) = true) (StateStore.store self)) /\
  StateStore.active (StateStore.getStats self now)
  = size (filter (fun kv : string * StateStore.CachedEntry =>
                    (StateStore.expiresAt (snd kv) <? now) = false) (StateStore.store self)).
Proof.
  unfold StateStore.getStats. simpl.
  apply (map_fold_weak_ind
           (fun (r : nat * nat) (m : gmap string StateStore.CachedEntry) =>
              fst r = size (filter (fun kv : string * StateStore.CachedEntry =>
                                      (StateStore.expiresAt (snd kv) <? now) = true) m) /\
              snd r = size (filter (fun kv : string * StateStore.CachedEntry =>
                                      (StateStore.expiresAt (snd kv) <? now) = false) m))).
  - rewrite !map_filter_empty. split; reflexivity.
  - intros i x m r Hi [He Ha].
    destruct (StateStore.expiresAt x <? now) eqn:T; simpl.
    + rewrite map_filter_insert_True by exact T.
      rewrite (map_filter_insert_False
                 (fun kv : string * StateStore.CachedEntry =>
                    (StateStore.expiresAt (snd kv) <? now) = false))
        by (simpl; congruence).
      rewrite delete_id by exact Hi.
      rewrite map_size_insert_None
        by (apply map_lookup_filter_None; left; exact Hi).
      split; congruence.
    + rewrite (map_filter_insert_True
                 (fun kv : string * StateStore.CachedEntry =>
                    (StateStore.expiresAt (snd kv) <? now) = false)) by exact T.
      rewrite map_filter_insert_False by (simpl; congruence).
      rewrite delete_id by exact Hi.
      rewrite map_size_insert_None
        by (apply map_lookup_filter_None; left; exact Hi).
      split; congruence.
Qed.

(** X3. The statistics of the state store add up: every entry is counted
    once, as active or as expired. *)
Theorem getStats_total (self : StateStore.t) (now : Z) :
  StateStore.total (StateStore.getStats self now)
  = (StateStore.active (StateStore.getStats self now)
     + StateStore.expired (StateStore.getStats self now))%nat.
Proof.
  destruct (getStats_counts self now) as [He Ha]. rewrite He, Ha.
  change (StateStore.total (StateStore.getStats self now))
    with (size (StateStore.store self)).
  rewrite Nat.add_comm.
  symmetry.
  apply (filter_split_size
           (fun kv : string * StateStore.CachedEntry =>
              StateStore.expiresAt (snd kv) <? now)).
Qed.

(** X1. Reading an entry that has outlived its TTL is a miss that removes
    the entry: the store holds one entry less and nothing under the key. *)
Theorem get_expired_evicts (self : StateStore.t) (now : Z) (key : string)
    (cached : StateStore.CachedEntry) :
  StateStore.store self !! key = Some cached ->
  StateStore.expiresAt cached < now ->
  StateStore.get self now key = (Ret None, StateStore.remove self key) /\
  StateStore.store (StateStore.remove self key) !! key = None /\
  S (StateStore.total (StateStore.getStats (StateStore.remove self key) now))
  = StateStore.total (StateStore.getStats self now).
Proof.
  intros Hc Hexp. split; [|split].
  - unfold StateStore.get. rewrite Hc.
    replace (StateStore.expiresAt cached <? now) with true
      by (symmetry; apply Z.ltb_lt; exact Hexp).
    reflexivity.
  - unfold StateStore.remove. simpl. apply lookup_delete_eq.
  - unfold StateStore.getStats, StateStore.remove. simpl.
    rewrite map_size_delete_Some by (eexists; exact Hc).
    assert (size (StateStore.store self) <> 0%nat).
    { apply map_size_ne_0_lookup_2 with key. eexists. exact Hc. }
    lia.
Qed.

Lemma get_expired_evicts_witness :
  StateStore.get (Examples.store_with_active (Some Examples.accept_all)) 401
                 Examples.stateKey
  = (Ret None,
     StateStore.remove (Examples.store_with_active (Some Examples.accept_all))
                       Examples.stateKey).
Proof.
  refine (proj1 (get_expired_evicts
                   (Examples.store_with_active (Some Examples.accept_all)) 401
                   Examples.stateKey
                   {| StateStore.cachedState := toObject Examples.active_state;
                      StateStore.expiresAt := 400 |} _ _)).
  - vm_compute. reflexivity.
  - simpl. lia.
Defined.

(** X2. Garbage collection removes the expired entries and no other: the
    entries that are left are the live ones, unchanged; the number returned
    is the number of entries removed, which is the expired count of the
    statistics; afterwards the statistics show no expired entry. *)
Theorem gc_removes_expired (self : StateStore.t) (now : Z) :
  (forall k,
     StateStore.store (snd (StateStore.gc self now)) !! k
     = match StateStore.store self !! k with
       | Some c => if StateStore.expiresAt c <? now then None else Some c
       | None => None
       end) /\
  (fst (StateStore.gc self now) + size (StateStore.store (snd (StateStore.gc self now))))%nat
  = size (StateStore.store self) /\
  fst (StateStore.gc self now) = StateStore.expired (StateStore.getStats self now) /\
  StateStore.expired (StateStore.getStats (snd (StateStore.gc self now)) now) = 0%nat.
Proof.
  assert (Hstore : StateStore.store (snd (StateStore.gc self now))
                   = snd (StateStore.sweep
                            (fun _ cached => StateStore.expiresAt cached <? now)
                            (StateStore.store self))) by reflexivity.
  assert (Hcount : fst (StateStore.gc self now)
                   = fst (StateStore.sweep
                            (fun _ cached => StateStore.expiresAt cached <? now)
                            (StateStore.store self))) by reflexivity.
  split; [|split; [|split]].
  - intros k. rewrite Hstore. apply sweep_lookup.
  - rewrite Hstore, Hcount. apply sweep_count.
  - destruct (getStats_counts self now) as [He _]. rewrite He, Hcount.
    unfold StateStore.sweep.
    destruct (sweep_fold (fun _ cached => StateStore.expiresAt cached <? now)
                (StateStore.store self) (StateStore.store self)) as [H _].
    exact H.
  - destruct (getStats_counts (snd (StateStore.gc self now)) now) as [He _].
    rewrite He, Hstore.
    apply map_size_empty_iff. apply map_eq. intros k.
    rewrite lookup_empty. apply map_lookup_filter_None.
    rewrite sweep_lookup.
    destruct (StateStore.store self !! k) as [c|]; [|left; reflexivity].
    destruct (StateStore.expiresAt c <? now) eqn:T; [left; reflexivity|].
    right. intros x Hx. inversion Hx; subst. simpl. congruence.
Qed.

(** X4. A reader does not notice garbage collection: at the instant of the
    collection, [get] answers the same for every key before and after. *)
Theorem gc_invisible_to_get (self : StateStore.t) (now : Z) (key : string) :
  fst (StateStore.get (snd (StateStore.gc self now)) now key)
  = fst (StateStore.get self now key).
Proof.
  unfold StateStore.get.
  assert (H : StateStore.store (snd (StateStore.gc self now)) !! key
              = match StateStore.store self !! key with
                | Some c => if StateStore.expiresAt c <? now then None else Some c
                | None => None
                end)
    by exact (sweep_lookup (fun _ cached => StateStore.expiresAt cached <? now)
                (StateStore.store self) key).
  rewrite H.
  change (StateStore.verifier (snd (StateStore.gc self now)))
    with (StateStore.verifier self).
  destruct (StateStore.store self !! key) as [c|]; [|reflexivity].
  destruct (StateStore.expiresAt c <? now) eqn:T; [reflexivity|].
  rewrite T. destruct (fromCache now _ _); reflexivity.
Qed.

Lemma prefix_append (p s : string) : String.prefix p (p ++ s) = true.
Proof.
  induction p as [|c p IH]; simpl; [destruct s; reflexivity|].
  destruct (ascii_dec c c); [exact IH|congruence].
Qed.

Lemma append_assoc (a b c : string) : (a ++ b) ++ c = a ++ (b ++ c).
Proof.
  induction a as [|x a IH]; [reflexivity|].
  change (String x ((a ++ b) ++ c) = String x (a ++ (b ++ c))).
  f_equal. exact IH.
Qed.

(** X5. [clearLicense] removes the entries whose key starts with the prefix
    of the license and leaves every other entry as it is; the validation
    entry and the feature entries of the license are among those removed. *)
Theorem clearLicense_removes_prefix (self : StateStore.t) (licenseKey : string) :
  (forall k,
     StateStore.store (StateStore.clearLicense self licenseKey) !! k
     = if String.prefix (StateStore.getLicenseKeyPrefix licenseKey) k
       then None else StateStore.store self !! k) /\
  StateStore.store (StateStore.clearLicense self licenseKey)
    !! StateStore.getValidationKey licenseKey = None /\
  (forall feature,
     StateStore.store (StateStore.clearLicense self licenseKey)
       !! StateStore.getFeatureKey licenseKey feature = None).
Proof.
  assert (H : forall k,
     StateStore.store (StateStore.clearLicense self licenseKey) !! k
     = if String.prefix (StateStore.getLicenseKeyPrefix licenseKey) k
       then None else StateStore.store self !! k).
  { intros k. unfold StateStore.clearLicense. cbn [StateStore.store StateStore.with_store].
    rewrite sweep_lookup.
    destruct (StateStore.store self !! k);
      destruct (String.prefix _ k); reflexivity. }
  split; [exact H|split].
  - rewrite H.
    replace (StateStore.getValidationKey licenseKey)
      with (StateStore.getLicenseKeyPrefix licenseKey ++ "validation").
    + rewrite prefix_append. reflexivity.
    + unfold StateStore.getValidationKey, StateStore.getLicenseKeyPrefix.
      rewrite !append_assoc. reflexivity.
  - intros feature. rewrite H.
    replace (StateStore.getFeatureKey licenseKey feature)
      with (StateStore.getLicenseKeyPrefix licenseKey ++ "feature:" ++ feature).
    + rewrite prefix_append. reflexivity.
    + unfold StateStore.getFeatureKey, StateStore.getLicenseKeyPrefix.
      rewrite !append_assoc. reflexivity.
Qed.

(** The prefix of a license also covers the keys of a license whose key
    continues it after a colon. *)
Example clearLicense_longer_key :
  String.prefix (StateStore.getLicenseKeyPrefix "AAAAA")
                (StateStore.getValidationKey "AAAAA:BBBBB") = true.
Proof. reflexivity. Qed.

(** The capabilities of a state rebuilt from a cached object. *)
Lemma extractCapabilities_of_object (o : StateObject) :
  extractCapabilities (payload_of_object o)
  = [("updates", JBool true); ("telemetry", JBool true); ("downloads", JBool false)].
Proof. reflexivity. Qed.

Lemma determineState_of_object (now : Z) (o : StateObject) :
  determineState now (payload_of_object o) <> INVALID.
Proof.
  unfold determineState. cbn [payload_of_object status valid valid_from valid_until
    revalidation_failed truthy_str andb is_true].
  destruct (truthy_num (o_valid_from o) && (now <? num (o_valid_from o)));
    [discriminate|].
  destruct (truthy_num (o_valid_until o) && (num (o_valid_until o) <? now)).
  - destruct (now - num (o_valid_until o) <? 7 * 86400); discriminate.
  - discriminate.
Qed.

(** X6. Whatever was stored, a state read from the store has exactly the
    capabilities updates and telemetry true and downloads false, and is
    never INVALID: the cached object has no status, no valid flag and no
    features for the constructor to read, so the capabilities and a revoked
    status of the stored state do not survive the cache. *)
Theorem get_forgets_capabilities (self self' : StateStore.t) (now : Z)
    (key : string) (st : EntitlementState.t) :
  StateStore.get self now key = (Ret (Some st), self') ->
  capabilities st
  = [("updates", JBool true); ("telemetry", JBool true); ("downloads", JBool false)] /\
  state st <> INVALID.
Proof.
  intros H. apply get_some in H as [cached [_ [_ F]]].
  unfold fromCache in F.
  destruct (negb (truthy_str (o_signature (StateStore.cachedState cached))));
    [discriminate|].
  assert (E : st = constructor now (payload_of_object (StateStore.cachedState cached))
                     (o_signature (StateStore.cachedState cached))).
  { destruct (StateStore.verifier self) as [v|].
    - destruct (SignatureVerifier.verify v _ _) as [[|]|e]; try discriminate.
      inversion F. reflexivity.
    - inversion F. reflexivity. }
  subst st. split.
  - apply extractCapabilities_of_object.
  - apply determineState_of_object.
Qed.

Lemma get_forgets_capabilities_witness :
  exists st s',
    state Examples.revoked_state = INVALID /\
    obj_get "premium" (capabilities Examples.revoked_state) = Some (JBool true) /\
    StateStore.get (Examples.store_with_revoked (Some Examples.accept_all)) 200
                   Examples.stateKey = (Ret (Some st), s') /\
    capabilities st
    = [("updates", JBool true); ("telemetry", JBool true); ("downloads", JBool false)] /\
    state st <> INVALID.
Proof.
  eexists. eexists. split; [reflexivity|]. split; [reflexivity|].
  split; [vm_compute; reflexivity|].
  eapply (get_forgets_capabilities (Examples.store_with_revoked (Some Examples.accept_all))
            _ 200 Examples.stateKey).
  vm_compute. reflexivity.
Defined.

Lemma num_or_null_idem (o : option Z) : num_or_null (num_or_null o) = num_or_null o.
Proof. unfold num_or_null. destruct (truthy_num o) eqn:E; [rewrite E|]; reflexivity. Qed.

Lemma str_or_null_idem (o : option string) : str_or_null (str_or_null o) = str_or_null o.
Proof. unfold str_or_null. destruct (truthy_str o) eqn:E; [rewrite E|]; reflexivity. Qed.

Lemma or_else_object_idem (o : option json) :
  or_else (Some (or_else o (JObj []))) (JObj []) = or_else o (JObj []).
Proof.
  unfold or_else. destruct o as [v|]; [|reflexivity].
  destruct (truthy v) eqn:E; [rewrite E|]; reflexivity.
Qed.

(** X7. Storing a state the constructor built, with a signature, and reading
    it back before the TTL (the one given, or the default when none or 0 is
    given) has passed returns a state and leaves the store as it is; the
    state read has the signature, the validity window, the context binding,
    the product, the environment and the metadata of the state stored, and
    the instant of the read as [lastVerifiedAt].  This needs the store to
    have no verifier, or one that accepts the signature for the text of the
    cached object. *)
Theorem set_get_round_trip (self : StateStore.t) (now now' built : Z) (key : string)
    (p : Payload) (s : string) (ttl : option Z) :
  let st := constructor built p (Some s) in
  let stored := StateStore.set self now key st ttl in
  s <> "" ->
  (forall v, StateStore.verifier self = Some v ->
             rsa_sha256 v (cached_text (toObject st)) s = true) ->
  now' <= now + num_or ttl (StateStore.defaultTtl self) ->
  exists st',
    StateStore.get stored now' key = (Ret (Some st'), stored) /\
    signature st' = Some s /\
    validFrom st' = validFrom st /\
    validUntil st' = validUntil st /\
    contextBinding st' = contextBinding st /\
    productId st' = productId st /\
    environmentName st' = environmentName st /\
    metadataOf st' = metadataOf st /\
    lastVerifiedAt st' = now'.
Proof.
  intros st stored Hs Hv Httl.
  exists (constructor now' (payload_of_object (toObject st)) (Some s)).
  subst stored st.
  split.
  - unfold StateStore.get, StateStore.set.
    cbn [StateStore.store StateStore.with_store StateStore.verifier].
    rewrite lookup_insert_eq. cbn [StateStore.expiresAt StateStore.cachedState].
    replace (now + num_or ttl (StateStore.defaultTtl self) <? now') with false
      by (symmetry; apply Z.ltb_ge; exact Httl).
    unfold fromCache. cbn [toObject o_signature signature constructor truthy_str str].
    apply String.eqb_neq in Hs. rewrite Hs. cbn [negb].
    destruct (StateStore.verifier self) as [v|] eqn:V; [|reflexivity].
    unfold SignatureVerifier.verify.
    set (o := toObject (constructor built p (Some s))) in *.
    pose proof (cached_text_nonempty o) as Ht.
    apply String.eqb_neq in Ht.
    change (stringify (JObj (obj_delete "signature" (object_props o))))
      with (cached_text o).
    rewrite Ht, Hs, (Hv v eq_refl). reflexivity.
  - cbn [constructor signature validFrom validUntil contextBinding productId
         environmentName metadataOf lastVerifiedAt payload_of_object toObject
         valid_from valid_until context_binding product_id environment metadata
         o_valid_from o_valid_until o_context_binding o_product_id o_environment
         o_metadata].
    rewrite !num_or_null_idem, !str_or_null_idem, or_else_object_idem.
    repeat split.
Qed.

Lemma set_get_round_trip_witness :
  exists st',
    StateStore.get
      (StateStore.set (StateStore.create None 300) 100 Examples.stateKey
         (constructor 100 (Examples.ended_at 1700000000) (Some "c2ln")) (Some 0))
      400 Examples.stateKey
    = (Ret (Some st'),
       StateStore.set (StateStore.create None 300) 100 Examples.stateKey
         (constructor 100 (Examples.ended_at 1700000000) (Some "c2ln")) (Some 0)) /\
    signature st' = Some "c2ln" /\
    validUntil st' = Some 1700000000 /\
    lastVerifiedAt st' = 400.
Proof.
  destruct (set_get_round_trip (StateStore.create None 300) 100 400 100
              Examples.stateKey (Examples.ended_at 1700000000) "c2ln" (Some 0))
    as [st' [Hget [Hsig [_ [Hvu [_ [_ [_ [_ Hlv]]]]]]]]].
  - discriminate.
  - intros v Hv. discriminate Hv.
  - simpl. lia.
  - exists st'. repeat split; assumption.
Defined.

(** X8. [get] touches the asked key only: every other entry, the verifier
    and the default TTL of the store are as before, whatever it answers. *)
Theorem get_keeps_other_keys (self : StateStore.t) (now : Z) (key k : string) :
  k <> key ->
  StateStore.store (snd (StateStore.get self now key)) !! k = StateStore.store self !! k /\
  StateStore.verifier (snd (StateStore.get self now key)) = StateStore.verifier self /\
  StateStore.defaultTtl (snd (StateStore.get self now key)) = StateStore.defaultTtl self.
Proof.
  intros Hne. unfold StateStore.get.
  destruct (StateStore.store self !! key) as [c|]; [|repeat split].
  destruct (StateStore.expiresAt c <? now).
  - cbn [snd StateStore.store StateStore.with_store StateStore.verifier StateStore.defaultTtl].
    rewrite lookup_delete_ne by congruence. repeat split.
  - destruct (fromCache now _ _);
      cbn [snd StateStore.store StateStore.with_store StateStore.verifier
           StateStore.defaultTtl];
      rewrite ?lookup_delete_ne by congruence; repeat split.
Qed.

Lemma get_keeps_other_keys_witness :
  StateStore.store
    (snd (StateStore.get (Examples.store_with_active (Some Examples.reject_all)) 200
            (StateStore.getValidationKey "other")))
    !! Examples.stateKey
  = StateStore.store (Examples.store_with_active (Some Examples.reject_all))
      !! Examples.stateKey.
Proof.
  apply (get_keeps_other_keys (Examples.store_with_active (Some Examples.reject_all)) 200
           (StateStore.getValidationKey "other") Examples.stateKey).
  discriminate.
Defined.

(** X9. With caching enabled, a response stored under a key is served for
    that key, with the cache left as it is, up to and including the instant
    at which its TTL ends; after that instant the read misses and drops the
    entry.  The TTL is the one given, 0 included, and the manager's own only
    when none is given. *)
Theorem cache_set_get (self : CacheManager.t) (now now' : Z) (key : string)
    (data : obj) (ttl : option Z) :
  let life := match ttl with Some n => n | None => CacheManager.ttl self end in
  let stored := CacheManager.set self now key data ttl in
  CacheManager.enabled self = true ->
  (now' <= now + life -> CacheManager.get stored now' key = (Some data, stored)) /\
  (now + life < now' ->
   CacheManager.get stored now' key
   = (None, CacheManager.delete_key self key)).
Proof.
  intros life stored He. subst stored.
  unfold CacheManager.get, CacheManager.set. rewrite He. cbn [negb].
  cbn [CacheManager.enabled CacheManager.cache CacheManager.with_cache].
  rewrite He. cbn [negb]. rewrite lookup_insert_eq.
  cbn [CacheManager.expiresAt CacheManager.data].
  unfold CacheManager.Date_now_ms. fold life.
  destruct (Z.ltb_spec (now * 1000 + life * 1000) (now' * 1000)) as [Hlt|Hge].
  - split; [intros; lia|]. intros _.
    unfold CacheManager.delete_key, CacheManager.with_cache.
    cbn [CacheManager.enabled CacheManager.cache CacheManager.ttl].
    rewrite delete_insert_eq. reflexivity.
  - split; [reflexivity|]. intros; lia.
Qed.

Lemma cache_set_get_witness :
  CacheManager.get
    (CacheManager.set (Examples.empty_cache true) 100 "license:AAAAA-BBBBB:validation"
       Examples.active_response (Some 0))
    100 "license:AAAAA-BBBBB:validation"
  = (Some Examples.active_response,
     CacheManager.set (Examples.empty_cache true) 100 "license:AAAAA-BBBBB:validation"
       Examples.active_response (Some 0)).
Proof.
  apply (cache_set_get (Examples.empty_cache true) 100 100 "license:AAAAA-BBBBB:validation"
           Examples.active_response (Some 0)); [reflexivity | simpl; lia].
Defined.

(** A manager built with caching disabled stores nothing and serves
    nothing, not even an entry that its map holds. *)
Lemma cache_disabled (self : CacheManager.t) (now : Z) (key : string)
    (data : obj) (ttl : option Z) :
  CacheManager.enabled self = false ->
  CacheManager.set self now key data ttl = self /\
  CacheManager.get self now key = (None, self).
Proof.
  intros He. unfold CacheManager.set, CacheManager.get. rewrite He. split; reflexivity.
Qed.

(** *** Accessors of the public state *)

Lemma extractCapabilities_updates (p : Payload) :
  obj_get "updates" (extractCapabilities p)
  = Some (JBool (determineUpdateCapability p)).
Proof.
  unfold extractCapabilities.
  destruct (license p) as [l|];
    [destruct (activations_limit l), (activations_count l)|];
    rewrite ?obj_get_set_other by discriminate;
    apply obj_get_set_same; discriminate.
Qed.

Lemma extractCapabilities_telemetry (p : Payload) :
  obj_get "telemetry" (extractCapabilities p)
  = Some (JBool (determineTelemetryCapability p)).
Proof.
  unfold extractCapabilities.
  destruct (license p) as [l|];
    [destruct (activations_limit l), (activations_count l)|];
    rewrite ?obj_get_set_other by discriminate;
    apply obj_get_set_same; discriminate.
Qed.

(** X10. On a state the constructor built, [canUpdate], [canSendTelemetry]
    and [canDownload] answer what the three rules of the constructor
    computed from the payload: an entry of that name among the features, in
    the payload or in its license, or on the prototype of the capabilities,
    does not change the answer. *)
Theorem standard_capabilities_computed (inherits_true : string -> bool) (now : Z)
    (p : Payload) (sig : option string) (key : option string) :
  let ls := {| LicenseState.entitlementState := constructor now p sig;
               LicenseState.licenseKey := key |} in
  LicenseState.canUpdate inherits_true ls = determineUpdateCapability p /\
  LicenseState.canSendTelemetry inherits_true ls = determineTelemetryCapability p /\
  LicenseState.canDownload inherits_true ls = determineDownloadCapability p.
Proof.
  intros ls. subst ls.
  unfold LicenseState.canUpdate, LicenseState.canSendTelemetry, LicenseState.canDownload,
    LicenseState.allows, hasCapability.
  cbn [LicenseState.entitlementState constructor capabilities].
  rewrite extractCapabilities_updates, extractCapabilities_telemetry,
    extractCapabilities_downloads.
  unfold is_true.
  destruct (determineUpdateCapability p), (determineTelemetryCapability p),
    (determineDownloadCapability p); repeat split.
Qed.

(** X11. The days until expiration are absent exactly for a state without
    an end of validity, which is never expired; otherwise they are the
    number of whole days from now to that end, rounded down, and they are
    negative exactly when the state is expired. *)
Theorem days_until_expiration (now : Z) (s : LicenseState.t) :
  match LicenseState.getDaysUntilExpiration now s with
  | None => LicenseState.getExpiresAt s = None /\ LicenseState.isExpired now s = false
  | Some days =>
      exists expiresAt,
        LicenseState.getExpiresAt s = Some expiresAt /\
        days * 86400 <= expiresAt - now < (days + 1) * 86400 /\
        (LicenseState.isExpired now s = true <-> days < 0)
  end.
Proof.
  unfold LicenseState.getDaysUntilExpiration, LicenseState.isExpired, isExpired,
    LicenseState.getExpiresAt, getValidityWindow. cbn [snd].
  destruct (validUntil (LicenseState.entitlementState s)) as [u|]; [|split; reflexivity].
  exists u. split; [reflexivity|].
  pose proof (Z.div_mod (u - now) 86400 ltac:(lia)) as Hdm.
  pose proof (Z.mod_pos_bound (u - now) 86400 ltac:(lia)) as Hmb.
  split; [lia|].
  rewrite Z.ltb_lt. split; intros H.
  - apply Z.div_lt_upper_bound; lia.
  - nia.
Qed.

(** *** The resolver *)

(** The payload the resolver hands to the constructor. *)
Lemma resolveFromValidation_inv (sha256_hex : string -> string)
    (date_seconds : json -> option Z) (self : StateResolver.t) (now : Z)
    (response : obj) (licenseKey : option string) (ls : LicenseState.t) :
  StateResolver.resolveFromValidation sha256_hex date_seconds self now response licenseKey
  = Ret ls ->
  exists payload,
    StateResolver.normalizeValidationPayload sha256_hex date_seconds response = Ret payload /\
    contextBinding (LicenseState.entitlementState ls) = str_or_null (context_binding payload) /\
    validFrom (LicenseState.entitlementState ls) = num_or_null (valid_from payload) /\
    validUntil (LicenseState.entitlementState ls) = num_or_null (valid_until payload) /\
    match signature (LicenseState.entitlementState ls) with
    | Some s =>
        exists v, StateResolver.verifier self = Some v /\
                  obj_get "signature" response = Some (JStr s) /\
                  s <> "" /\
                  rsa_sha256 v (StateResolver.signedText response) s = true
    | None =>
        StateResolver.verifier self = None \/
        truthy_opt (obj_get "signature" response) = false
    end.
Proof.
  unfold StateResolver.resolveFromValidation. intros H.
  destruct (StateResolver.normalizeValidationPayload sha256_hex date_seconds response)
    as [payload|e] eqn:N.
  2:{ destruct (StateResolver.verifier self);
        [destruct (StateResolver.signature_field response) as [[s|]|];
         [destruct (StateResolver.verifySignature self response s)| |]|];
        discriminate. }
  exists payload. split; [reflexivity|].
  destruct (StateResolver.verifier self) as [v|] eqn:V.
  - unfold StateResolver.signature_field in H.
    destruct (obj_get "signature" response) as [sv|] eqn:S.
    + destruct sv as [|b|n|s|items|props]; cbn [truthy] in H.
      * inversion H; subst; cbn; repeat split; right; reflexivity.
      * destruct b; [discriminate|].
        inversion H; subst; cbn; repeat split; right; reflexivity.
      * destruct (negb (n =? 0)) eqn:C; [discriminate|].
        inversion H; subst; cbn; repeat split; right; exact C.
      * destruct (String.eqb s "") eqn:E.
        -- inversion H; subst; cbn; repeat split. right. cbn.
           apply String.eqb_eq in E. subst. reflexivity.
        -- apply String.eqb_neq in E.
           rewrite (verifySignature_outcome self v response s V E) in H.
           destruct (rsa_sha256 v (StateResolver.signedText response) s) eqn:R;
             [|discriminate].
           inversion H; subst; cbn; repeat split. exists v. auto.
      * discriminate.
      * discriminate.
    + inversion H; subst; cbn; repeat split; right; reflexivity.
  - inversion H; subst; cbn; repeat split; left; reflexivity.
Qed.

Lemma fromCache_accepted (now : Z) (o : StateObject) (v : SignatureVerifier.t)
    (st : EntitlementState.t) :
  fromCache now o (Some v) = Ret st ->
  exists s, o_signature o = Some s /\ s <> "" /\ rsa_sha256 v (cached_text o) s = true.
Proof.
  unfold fromCache, truthy_str.
  destruct (o_signature o) as [s|]; [|discriminate].
  destruct (String.eqb s "") eqn:E; [discriminate|]. cbn [negb str].
  fold (cached_text o). unfold SignatureVerifier.verify.
  pose proof (cached_text_nonempty o) as Ht. apply String.eqb_neq in Ht.
  rewrite Ht, E.
  destruct (rsa_sha256 v (cached_text o) s) eqn:R; [|discriminate].
  intros _. exists s. apply String.eqb_neq in E. auto.
Qed.

(** X12. A resolver without a verifier drops the signature of the response,
    so the state it resolves can be stored but never read back: until the
    TTL has passed every read of it throws and evicts it (the exception
    being the ReferenceError of [fromCache], which names SignatureError
    without requiring it), and afterwards the read is a miss. *)
Theorem unverified_state_never_served (sha256_hex : string -> string)
    (date_seconds : json -> option Z) (self : StateResolver.t) (now : Z)
    (response : obj) (licenseKey : option string) (ls : LicenseState.t)
    (store : StateStore.t) (t now' : Z) (key : string) (ttl : option Z) :
  StateResolver.verifier self = None ->
  StateResolver.resolveFromValidation sha256_hex date_seconds self now response licenseKey
  = Ret ls ->
  let stored := StateStore.set store t key (LicenseState.getEntitlementState ls) ttl in
  StateStore.get stored now' key
  = (if t + num_or ttl (StateStore.defaultTtl store) <? now'
     then Ret None
     else Throw (mkExn ReferenceError "SignatureError is not defined"),
     StateStore.remove stored key).
Proof.
  intros Hv Hr stored.
  apply resolveFromValidation_inv in Hr as [payload [_ [_ [_ [_ Hsig]]]]].
  assert (Hnone : signature (LicenseState.entitlementState ls) = None).
  { destruct (signature (LicenseState.entitlementState ls)) as [s|]; [|reflexivity].
    destruct Hsig as [v [Hv' _]]. congruence. }
  subst stored. unfold StateStore.get, StateStore.set, StateStore.remove.
  cbn [StateStore.store StateStore.with_store StateStore.verifier StateStore.defaultTtl].
  rewrite lookup_insert_eq. cbn [StateStore.expiresAt StateStore.cachedState].
  destruct (t + num_or ttl (StateStore.defaultTtl store) <? now'); [reflexivity|].
  rewrite fromCache_unsigned; [reflexivity|].
  unfold unsigned, LicenseState.getEntitlementState. cbn [toObject o_signature].
  rewrite Hnone. reflexivity.
Qed.

Lemma unverified_state_never_served_witness :
  exists ls,
    StateResolver.resolveFromValidation Examples.sample_sha256 Examples.sample_date
      {| StateResolver.verifier := None;
         StateResolver.ownEnvironment := Some "production";
         StateResolver.ownProductId := None |}
      100 Examples.signed_response (Some Examples.key) = Ret ls /\
    StateStore.get
      (StateStore.set (StateStore.create None 300) 100 Examples.stateKey
         (LicenseState.getEntitlementState ls) None)
      200 Examples.stateKey
    = (Throw (mkExn ReferenceError "SignatureError is not defined"),
       StateStore.remove
         (StateStore.set (StateStore.create None 300) 100 Examples.stateKey
            (LicenseState.getEntitlementState ls) None)
         Examples.stateKey).
Proof.
  eexists. split; [vm_compute; reflexivity|].
  apply (unverified_state_never_served Examples.sample_sha256 Examples.sample_date
           {| StateResolver.verifier := None;
              StateResolver.ownEnvironment := Some "production";
              StateResolver.ownProductId := None |}
           100 Examples.signed_response (Some Examples.key) _
           (StateStore.create None 300) 100 200 Examples.stateKey None).
  - reflexivity.
  - vm_compute. reflexivity.
Defined.

(** X13. With the verifier of the resolver also guarding the store, a state
    resolved from a response whose signature is a string, and stored, is
    read back only if the verifier accepted that one signature for two
    texts: the response without its signature, and the cached state object
    without its signature. *)
Theorem served_state_verified_twice (sha256_hex : string -> string)
    (date_seconds : json -> option Z) (self : StateResolver.t)
    (v : SignatureVerifier.t) (now : Z)
    (response : obj) (licenseKey : option string) (ls : LicenseState.t)
    (store store' : StateStore.t) (t now' : Z) (key : string) (ttl : option Z)
    (st' : EntitlementState.t) (s : string) :
  StateResolver.verifier self = Some v ->
  StateStore.verifier store = Some v ->
  obj_get "signature" response = Some (JStr s) ->
  StateResolver.resolveFromValidation sha256_hex date_seconds self now response licenseKey
  = Ret ls ->
  StateStore.get (StateStore.set store t key (LicenseState.getEntitlementState ls) ttl)
                 now' key
  = (Ret (Some st'), store') ->
  rsa_sha256 v (StateResolver.signedText response) s = true /\
  rsa_sha256 v (cached_text (toObject (LicenseState.getEntitlementState ls))) s = true.
Proof.
  intros Hv Hsv Hstr Hr Hget.
  apply resolveFromValidation_inv in Hr as [payload [_ [_ [_ [_ Hsig]]]]].
  apply get_some in Hget as [cached [Hlook [_ Hfrom]]].
  unfold StateStore.set in Hlook, Hfrom.
  cbn [StateStore.store StateStore.with_store StateStore.verifier] in Hlook, Hfrom.
  rewrite lookup_insert_eq in Hlook. inversion Hlook; subst cached; clear Hlook.
  cbn [StateStore.cachedState] in Hfrom. rewrite Hsv in Hfrom.
  apply fromCache_accepted in Hfrom as [s0 [Hs [Hne Hacc]]].
  cbn [toObject o_signature] in Hs. unfold LicenseState.getEntitlementState in Hs.
  rewrite Hs in Hsig. destruct Hsig as [v' [Hv' [Hresp [_ Hacc']]]].
  assert (v' = v) by congruence. subst v'.
  assert (s0 = s) by congruence. subst s0.
  split; assumption.
Qed.

Lemma served_state_verified_twice_witness :
  exists ls st' store',
    StateResolver.resolveFromValidation Examples.sample_sha256 Examples.sample_date
      (Examples.resolver (Some Examples.accept_all))
      100 Examples.signed_response (Some Examples.key) = Ret ls /\
    StateStore.get
      (StateStore.set (StateStore.create (Some Examples.accept_all) 300) 100
         Examples.stateKey (LicenseState.getEntitlementState ls) None)
      200 Examples.stateKey = (Ret (Some st'), store') /\
    rsa_sha256 Examples.accept_all
      (cached_text (toObject (LicenseState.getEntitlementState ls)))
      (canonicalizeJson (JObj Examples.unsigned_body)) = true.
Proof.
  evar (ls : LicenseState.t). evar (st' : EntitlementState.t). evar (store' : StateStore.t).
  assert (Hr : StateResolver.resolveFromValidation Examples.sample_sha256
                 Examples.sample_date (Examples.resolver (Some Examples.accept_all))
                 100 Examples.signed_response (Some Examples.key) = Ret ls)
    by (unfold ls; vm_compute; reflexivity).
  assert (Hg : StateStore.get
                 (StateStore.set (StateStore.create (Some Examples.accept_all) 300) 100
                    Examples.stateKey (LicenseState.getEntitlementState ls) None)
                 200 Examples.stateKey = (Ret (Some st'), store'))
    by (unfold ls, st', store'; vm_compute; reflexivity).
  destruct (served_state_verified_twice Examples.sample_sha256 Examples.sample_date
              (Examples.resolver (Some Examples.accept_all)) Examples.accept_all
              100 Examples.signed_response (Some Examples.key) ls
              (StateStore.create (Some Examples.accept_all) 300) store' 100 200
              Examples.stateKey None st'
              (canonicalizeJson (JObj Examples.unsigned_body))
              eq_refl eq_refl eq_refl Hr Hg) as [_ Hacc].
  exists ls, st', store'.
  split; [exact Hr|]. split; [exact Hg|exact Hacc].
Defined.

(** X14. A response in the direct format (no [data] property) never binds
    the state to a context and never gives it a start of validity, whatever
    [hardware_id], [domain] or [activated_at] its license carries: the state
    accepts every context. *)
Theorem direct_format_unbound (sha256_hex : string -> string)
    (date_seconds : json -> option Z) (self : StateResolver.t) (now : Z)
    (response : obj) (licenseKey : option string) (ls : LicenseState.t) :
  truthy_opt (obj_get "data" response) = false ->
  StateResolver.resolveFromValidation sha256_hex date_seconds self now response licenseKey
  = Ret ls ->
  (forall context, LicenseState.verifyContext sha256_hex ls context = true) /\
  validFrom (LicenseState.getEntitlementState ls) = None.
Proof.
  intros Hd Hr.
  apply resolveFromValidation_inv in Hr as [payload [Hn [Hcb [Hvf _]]]].
  unfold StateResolver.normalizeValidationPayload in Hn. rewrite Hd in Hn.
  assert (Hp : context_binding payload = None /\ valid_from payload = None).
  { destruct (truthy_opt (obj_get "license" response)).
    - destruct (StateResolver.status_field _) as [st|e]; [|discriminate].
      inversion Hn; subst. split; reflexivity.
    - inversion Hn; subst. split; reflexivity. }
  destruct Hp as [Hp1 Hp2]. rewrite Hp1 in Hcb. rewrite Hp2 in Hvf.
  split.
  - intros context. unfold LicenseState.verifyContext, verifyContextBinding.
    rewrite Hcb. reflexivity.
  - exact Hvf.
Qed.

Lemma direct_format_unbound_witness :
  exists ls,
    StateResolver.resolveFromValidation Examples.sample_sha256 Examples.sample_date
      (Examples.resolver None) 100
      Examples.direct_response (Some Examples.key) = Ret ls /\
    LicenseState.verifyContext Examples.sample_sha256 ls "machine-2" = true.
Proof.
  evar (ls : LicenseState.t).
  assert (Hr : StateResolver.resolveFromValidation Examples.sample_sha256
                 Examples.sample_date (Examples.resolver None) 100
                 Examples.direct_response (Some Examples.key) = Ret ls)
    by (unfold ls; vm_compute; reflexivity).
  exists ls. split; [exact Hr|].
  apply (direct_format_unbound Examples.sample_sha256 Examples.sample_date
           (Examples.resolver None) 100 Examples.direct_response (Some Examples.key)
           ls eq_refl Hr).
Defined.

(** X15. A response in the [data] format whose license carries a hardware
    id binds the state to the digest of that id (the domain is not looked
    at): the state accepts a context exactly when its digest is that of the
    hardware id, so it accepts the hardware id itself.  The digest is
    assumed not to be empty. *)
Theorem hardware_binding (sha256_hex : string -> string)
    (date_seconds : json -> option Z) (self : StateResolver.t) (now : Z)
    (response : obj) (licenseKey : option string) (ls : LicenseState.t)
    (data license : json) (hardwareId : string) :
  obj_get "data" response = Some data -> truthy data = true ->
  prop data "license" = Some license -> truthy license = true ->
  prop license "hardware_id" = Some (JStr hardwareId) -> hardwareId <> "" ->
  sha256_hex hardwareId <> "" ->
  StateResolver.resolveFromValidation sha256_hex date_seconds self now response licenseKey
  = Ret ls ->
  (forall context,
     LicenseState.verifyContext sha256_hex ls context
     = String.eqb (sha256_hex context) (sha256_hex hardwareId)) /\
  LicenseState.verifyContext sha256_hex ls hardwareId = true.
Proof.
  intros Hd Htd Hl Htl Hh Hne Hsha Hr.
  apply resolveFromValidation_inv in Hr as [payload [Hn [Hcb _]]].
  unfold StateResolver.normalizeValidationPayload in Hn.
  rewrite Hd in Hn. cbn [truthy_opt or_else] in Hn. rewrite Htd in Hn.
  rewrite Hl in Hn. cbn [truthy_opt or_else] in Hn. rewrite Htl in Hn.
  rewrite Hh in Hn. cbn [truthy_opt or_else truthy] in Hn.
  apply String.eqb_neq in Hne. rewrite Hne in Hn.
  cbn [negb StateResolver.hash_binding] in Hn.
  destruct (StateResolver.status_field license) as [st|e]; [|discriminate].
  inversion Hn; subst payload; clear Hn. cbn [context_binding] in Hcb.
  unfold str_or_null, truthy_str in Hcb.
  apply String.eqb_neq in Hsha. rewrite Hsha in Hcb. cbn [negb] in Hcb.
  assert (Hall : forall context,
             LicenseState.verifyContext sha256_hex ls context
             = String.eqb (sha256_hex context) (sha256_hex hardwareId)).
  { intros context. unfold LicenseState.verifyContext, verifyContextBinding.
    rewrite Hcb. reflexivity. }
  split; [exact Hall|]. rewrite Hall. apply String.eqb_refl.
Qed.

Lemma hardware_binding_witness :
  exists ls,
    StateResolver.resolveFromValidation Examples.sample_sha256 Examples.sample_date
      (Examples.resolver None) 100
      Examples.data_response (Some Examples.key) = Ret ls /\
    LicenseState.verifyContext Examples.sample_sha256 ls "machine-1" = true /\
    LicenseState.verifyContext Examples.sample_sha256 ls "example.com" = false.
Proof.
  evar (ls : LicenseState.t).
  assert (Hr : StateResolver.resolveFromValidation Examples.sample_sha256
                 Examples.sample_date (Examples.resolver None) 100
                 Examples.data_response (Some Examples.key) = Ret ls)
    by (unfold ls; vm_compute; reflexivity).
  exists ls. split; [exact Hr|].
  destruct (hardware_binding Examples.sample_sha256 Examples.sample_date
              (Examples.resolver None) 100 Examples.data_response (Some Examples.key) ls
              (JObj [("valid", JBool true); ("license", Examples.bound_license)])
              Examples.bound_license "machine-1" eq_refl eq_refl eq_refl eq_refl eq_refl
              ltac:(discriminate) ltac:(discriminate) Hr) as [Hall Hown].
  split; [exact Hown|]. rewrite Hall. reflexivity.
Defined.

(** X16. A grace state made from a snapshot whose validity window does not
    apply now is in GRACE while the snapshot was verified less than 72 hours
    ago (a snapshot without a verification time counts as verified now), and
    ACTIVE from then on: in either case it allows operation.  It keeps the
    signature of the snapshot and has no download capability. *)
Theorem createGraceState_state (self : StateResolver.t) (now : Z)
    (lastValidState : StateObject) (licenseKey : option string) :
  let ls := StateResolver.createGraceState self now lastValidState licenseKey in
  let verified := num_or (Some (o_last_verified_at lastValidState)) now in
  (forall from, o_valid_from lastValidState = Some from -> from <= now) ->
  (forall until, o_valid_until lastValidState = Some until -> now <= until) ->
  LicenseState.getState ls = (if now - verified <? 72 * 3600 then GRACE else ACTIVE) /\
  LicenseState.isValid ls = true /\
  signature (LicenseState.getEntitlementState ls) = str_or_null (o_signature lastValidState) /\
  obj_get "downloads" (capabilities (LicenseState.getEntitlementState ls))
  = Some (JBool false).
Proof.
  intros ls verified Hfrom Huntil.
  assert (Hstate : LicenseState.getState ls
                   = if now - verified <? 72 * 3600 then GRACE else ACTIVE).
  { subst ls verified.
    unfold LicenseState.getState, getState, StateResolver.createGraceState.
    cbn [LicenseState.entitlementState constructor state].
    unfold determineState.
    cbn [status valid valid_from valid_until revalidation_failed last_verified_at
         payload_of_object truthy_str andb is_true].
    assert (H1 : truthy_num (o_valid_from lastValidState)
                 && (now <? num (o_valid_from lastValidState)) = false).
    { destruct (o_valid_from lastValidState) as [f|] eqn:E; [|reflexivity].
      specialize (Hfrom f eq_refl). cbn [num].
      apply andb_false_iff. right. apply Z.ltb_ge. exact Hfrom. }
    assert (H2 : truthy_num (o_valid_until lastValidState)
                 && (num (o_valid_until lastValidState) <? now) = false).
    { destruct (o_valid_until lastValidState) as [u|] eqn:E; [|reflexivity].
      specialize (Huntil u eq_refl). cbn [num].
      apply andb_false_iff. right. apply Z.ltb_ge. exact Huntil. }
    rewrite H1, H2.
    set (lv := num_or (Some (o_last_verified_at lastValidState)) now).
    assert (Hlv : num_or (Some lv) 0 = lv).
    { unfold num_or. destruct (lv =? 0) eqn:E; [|reflexivity].
      apply Z.eqb_eq in E. congruence. }
    rewrite Hlv. reflexivity. }
  split; [exact Hstate|]. split.
  - unfold LicenseState.isValid, allowsOperation.
    unfold LicenseState.getState, getState in Hstate. rewrite Hstate.
    destruct (now - verified <? 72 * 3600); reflexivity.
  - split; reflexivity.
Qed.

Lemma createGraceState_state_witness :
  LicenseState.getState
    (StateResolver.createGraceState (Examples.resolver None) (100 + 80 * 3600)
       (toObject Examples.active_state) (Some Examples.key))
  = ACTIVE.
Proof.
  pose proof (createGraceState_state (Examples.resolver None) (100 + 80 * 3600)
                (toObject Examples.active_state) (Some Examples.key)) as H.
  cbv zeta in H.
  destruct H as [Hstate _];
    [intros from E; discriminate E | intros to E; discriminate E | exact Hstate].
Defined.

(** *** The validator in front of its caches *)

Lemma fromCache_constructor (now : Z) (o : StateObject)
    (verifier : option SignatureVerifier.t) (st : EntitlementState.t) :
  fromCache now o verifier = Ret st ->
  st = constructor now (payload_of_object o) (o_signature o).
Proof.
  unfold fromCache.
  destruct (negb (truthy_str (o_signature o))); [discriminate|].
  destruct verifier as [v|].
  - destruct (SignatureVerifier.verify v _ _) as [[|]|e]; try discriminate.
    intros H. inversion H. reflexivity.
  - intros H. inversion H. reflexivity.
Qed.

Lemma get_served_unchanged (self self' : StateStore.t) (now : Z) (key : string)
    (st : EntitlementState.t) :
  StateStore.get self now key = (Ret (Some st), self') -> self' = self.
Proof.
  unfold StateStore.get.
  destruct (StateStore.store self !! key) as [cached|]; [|discriminate].
  destruct (StateStore.expiresAt cached <? now); [discriminate|].
  destruct (fromCache now _ _); [|discriminate].
  intros H. inversion H. reflexivity.
Qed.

Section Served.

Variable sha256_hex : string -> string.
Variable date_seconds : json -> option Z.
Variable inherits_true : string -> bool.

(** What the validator answers when the state store serves the key. *)
Lemma resolveLicenseState_served (self : LicenseValidator.t) (licenseKey : string)
    (net : Network) (w : World) (st : EntitlementState.t) (s' : StateStore.t) :
  isCacheEnabled (config self) = true ->
  blank licenseKey = false ->
  StateStore.get (stateStore w) (clock w) (StateStore.getValidationKey licenseKey)
  = (Ret (Some st), s') ->
  resolveLicenseState sha256_hex date_seconds self licenseKey net w
  = (Ret {| LicenseState.entitlementState := st;
            LicenseState.licenseKey := Some licenseKey |}, w).
Proof.
  intros Hc Hb Hget.
  pose proof (get_served_unchanged _ _ _ _ _ Hget) as Hs. subst s'.
  pose proof Hget as Hlv.
  apply get_some in Hlv as [cached [_ [_ F]]]. apply fromCache_lastVerifiedAt in F.
  unfold resolveLicenseState, bind, lift, try_catch, validateLicenseKey,
    stateStore_get, Date_now, ret.
  rewrite Hb, Hc, Hget. cbn [clock].
  unfold needsRevalidation. rewrite F.
  replace (86400 <? clock w - clock w) with false by (symmetry; apply Z.ltb_ge; lia).
  cbn [negb]. destruct w; reflexivity.
Qed.

(** X17. With caching enabled, whenever the state store serves the key the
    validator returns that state at once: no request is made, whatever the
    network would have answered, the world is left as it was, and the
    24-hour revalidation test never sends the call to the network, however
    long ago the state was stored. *)
Theorem resolveLicenseState_cache_hit (self : LicenseValidator.t) (licenseKey : string)
    (w : World) (st : EntitlementState.t) (s' : StateStore.t) :
  isCacheEnabled (config self) = true ->
  blank licenseKey = false ->
  StateStore.get (stateStore w) (clock w) (StateStore.getValidationKey licenseKey)
  = (Ret (Some st), s') ->
  forall net,
    resolveLicenseState sha256_hex date_seconds self licenseKey net w
    = (Ret {| LicenseState.entitlementState := st;
              LicenseState.licenseKey := Some licenseKey |}, w).
Proof.
  intros Hc Hb Hget net. apply (resolveLicenseState_served self licenseKey net w st s'); assumption.
Qed.

(** X18. When the state store serves the key, [requireCapability] refuses
    downloads and lets updates and telemetry through, whatever the license
    allowed when it was validated; [isFeatureAllowed] answers accordingly.
    The refusal is not the StateError that the method means to throw: building
    it reads [StateException.ERROR_INVALID_STATE], the name being
    [undefined], and the caller gets the TypeError of that reading. *)
Theorem requireCapability_cache_hit (self : LicenseValidator.t) (licenseKey : string)
    (net : Network) (w : World) (st : EntitlementState.t) (s' : StateStore.t) :
  isCacheEnabled (config self) = true ->
  blank licenseKey = false ->
  StateStore.get (stateStore w) (clock w) (StateStore.getValidationKey licenseKey)
  = (Ret (Some st), s') ->
  let served := {| LicenseState.entitlementState := st;
                   LicenseState.licenseKey := Some licenseKey |} in
  requireCapability sha256_hex date_seconds inherits_true self licenseKey "downloads" net w
  = (Throw (mkExn TypeError
              "Cannot read properties of undefined (reading 'ERROR_INVALID_STATE')"),
     w) /\
  requireCapability sha256_hex date_seconds inherits_true self licenseKey "updates" net w
  = (Ret served, w) /\
  requireCapability sha256_hex date_seconds inherits_true self licenseKey "telemetry" net w
  = (Ret served, w) /\
  isFeatureAllowed sha256_hex date_seconds inherits_true self licenseKey "downloads" net w
  = (Ret false, w).
Proof.
  intros Hc Hb Hget served.
  pose proof (resolveLicenseState_served self licenseKey net w st s' Hc Hb Hget) as Hr.
  apply get_some in Hget as [cached [_ [_ F]]].
  apply fromCache_constructor in F.
  assert (Hcap : capabilities st
                 = [("updates", JBool true); ("telemetry", JBool true);
                    ("downloads", JBool false)]).
  { rewrite F. apply extractCapabilities_of_object. }
  unfold requireCapability, isFeatureAllowed, bind. rewrite Hr.
  unfold LicenseState.allows, hasCapability.
  cbn [LicenseState.entitlementState]. rewrite Hcap.
  repeat split.
Qed.

End Served.

Lemma resolveLicenseState_cache_hit_witness :
  resolveLicenseState Examples.sample_sha256 Examples.sample_date
    (Examples.validator true (Some Examples.accept_all)) Examples.key
    Examples.network_down
    {| clock := 5000000;
       stateStore := Examples.long_lived_store (Some Examples.accept_all);
       cacheManager := Examples.empty_cache true |}
  = (Ret {| LicenseState.entitlementState :=
              constructor 5000000
                (payload_of_object (toObject Examples.active_state)) (Some "c2ln");
            LicenseState.licenseKey := Some Examples.key |},
     {| clock := 5000000;
        stateStore := Examples.long_lived_store (Some Examples.accept_all);
        cacheManager := Examples.empty_cache true |}).
Proof.
  apply (resolveLicenseState_cache_hit Examples.sample_sha256 Examples.sample_date
           (Examples.validator true (Some Examples.accept_all)) Examples.key
           {| clock := 5000000;
              stateStore := Examples.long_lived_store (Some Examples.accept_all);
              cacheManager := Examples.empty_cache true |}
           _ (Examples.long_lived_store (Some Examples.accept_all)));
    [reflexivity | reflexivity | vm_compute; reflexivity].
Defined.

Lemma requireCapability_cache_hit_witness :
  obj_get "downloads" (capabilities Examples.active_state) = Some (JBool true) /\
  requireCapability Examples.sample_sha256 Examples.sample_date (fun _ => false)
    (Examples.validator true (Some Examples.accept_all)) Examples.key "downloads"
    Examples.network_down
    {| clock := 200;
       stateStore := Examples.store_with_active (Some Examples.accept_all);
       cacheManager := Examples.empty_cache true |}
  = (Throw (mkExn TypeError
              "Cannot read properties of undefined (reading 'ERROR_INVALID_STATE')"),
     {| clock := 200;
        stateStore := Examples.store_with_active (Some Examples.accept_all);
        cacheManager := Examples.empty_cache true |}).
Proof.
  split; [reflexivity|].
  apply (requireCapability_cache_hit Examples.sample_sha256 Examples.sample_date
           (fun _ => false)
           (Examples.validator true (Some Examples.accept_all)) Examples.key
           Examples.network_down
           {| clock := 200;
              stateStore := Examples.store_with_active (Some Examples.accept_all);
              cacheManager := Examples.empty_cache true |}
           (constructor 200 (payload_of_object (toObject Examples.active_state))
              (Some "c2ln"))
           (Examples.store_with_active (Some Examples.accept_all)));
    [reflexivity | reflexivity | vm_compute; reflexivity].
Defined.

(** X19. A validation response obtained from the network (the response
    cache had none) is kept by an enabled response cache: until the TTL of
    the cache has passed, every later [validateLicense] for the same key
    returns that response without a request and leaves the world as it
    is. *)
Theorem validateLicense_reuses_response (self : LicenseValidator.t) (licenseKey : string)
    (net : Network) (w w1 : World) (response : obj) :
  let cacheKey := CacheManager.generateKey ["license"; licenseKey; "validation"] in
  fst (CacheManager.get (cacheManager w) (clock w) cacheKey) = None ->
  validateLicense self licenseKey net w = (Ret response, w1) ->
  CacheManager.enabled (cacheManager w1) = true ->
  forall (net' : Network) (w2 : World),
    cacheManager w2 = cacheManager w1 ->
    clock w2 <= clock w1 + CacheManager.ttl (cacheManager w1) ->
    validateLicense self licenseKey net' w2 = (Ret response, w2).
Proof.
  intros cacheKey Hmiss Hfirst Hen net' w2 Hcm Hclock.
  unfold validateLicense, bind, lift in Hfirst |- *.
  destruct (validateLicenseKey licenseKey) as [[]|e]; [|discriminate].
  fold cacheKey in Hfirst |- *.
  unfold cacheManager_get in Hfirst |- *.
  destruct (CacheManager.get (cacheManager w) (clock w) cacheKey) as [r c] eqn:G.
  cbn [fst] in Hmiss. subst r.
  unfold request, cacheManager_set, ret in Hfirst.
  destruct (outcome net) as [resp|e]; [|discriminate].
  inversion Hfirst; subst response w1; clear Hfirst.
  cbn [cacheManager clock] in *.
  set (wr := resumes net _) in *.
  assert (Hen' : CacheManager.enabled (cacheManager wr) = true).
  { unfold CacheManager.set in Hen.
    destruct (negb (CacheManager.enabled (cacheManager wr))) eqn:E.
    - exact Hen.
    - apply negb_false_iff in E. exact E. }
  rewrite Hcm. unfold CacheManager.get, CacheManager.set in *.
  rewrite Hen' in *. cbn [negb] in *.
  cbn [CacheManager.enabled CacheManager.cache CacheManager.with_cache CacheManager.ttl] in *.
  rewrite Hen'. cbn [negb]. rewrite lookup_insert_eq.
  cbn [CacheManager.expiresAt CacheManager.data].
  unfold CacheManager.Date_now_ms.
  replace (clock wr * 1000 + CacheManager.ttl (cacheManager wr) * 1000 <? clock w2 * 1000)
    with false by (symmetry; apply Z.ltb_ge; lia).
  unfold ret. destruct w2 as [c2 s2 m2]. cbn [cacheManager clock stateStore] in *.
  subst m2. unfold CacheManager.with_cache.
  cbn [CacheManager.enabled CacheManager.cache CacheManager.ttl].
  reflexivity.
Qed.

Lemma validateLicense_reuses_response_witness :
  exists w1,
    validateLicense (Examples.validator true None) Examples.key
      {| outcome := Ret Examples.active_response; resumes := fun w => w |}
      Examples.world_empty = (Ret Examples.active_response, w1) /\
    validateLicense (Examples.validator true None) Examples.key Examples.network_down
      {| clock := 500; stateStore := stateStore w1; cacheManager := cacheManager w1 |}
    = (Ret Examples.active_response,
       {| clock := 500; stateStore := stateStore w1; cacheManager := cacheManager w1 |}).
Proof.
  evar (w1 : World).
  assert (H1 : validateLicense (Examples.validator true None) Examples.key
                 {| outcome := Ret Examples.active_response; resumes := fun w => w |}
                 Examples.world_empty = (Ret Examples.active_response, w1))
    by (unfold w1; vm_compute; reflexivity).
  exists w1. split; [exact H1|].
  apply (validateLicense_reuses_response (Examples.validator true None) Examples.key
           {| outcome := Ret Examples.active_response; resumes := fun w => w |}
           Examples.world_empty w1 Examples.active_response);
    [reflexivity | exact H1 | reflexivity | reflexivity | vm_compute; discriminate].
Defined.

Section BlankKey.

Variable sha256_hex : string -> string.
Variable date_seconds : json -> option Z.
Variable inherits_true : string -> bool.

(** X20. A license key that is empty or all white space is refused by every
    throwing entry point of the validator before any cache is read and
    before any request: the world is left as it was, whatever the caches
    hold and the network would answer.  The refusal is not the
    ValidationError 'License key cannot be empty' that [_validateLicenseKey]
    means to throw: [ValidationException] is [undefined], and the caller
    gets the TypeError of the construction. *)
Theorem blank_key_rejected (self : LicenseValidator.t) (licenseKey feature : string)
    (net : Network) (w : World) :
  blank licenseKey = true ->
  validateLicense self licenseKey net w
  = (Throw (mkExn TypeError "ValidationException is not a constructor"), w) /\
  resolveLicenseState sha256_hex date_seconds self licenseKey net w
  = (Throw (mkExn TypeError "ValidationException is not a constructor"), w) /\
  isFeatureAllowed sha256_hex date_seconds inherits_true self licenseKey feature net w
  = (Throw (mkExn TypeError "ValidationException is not a constructor"), w) /\
  requireCapability sha256_hex date_seconds inherits_true self licenseKey feature net w
  = (Throw (mkExn TypeError "ValidationException is not a constructor"), w).
Proof.
  intros Hb.
  unfold isFeatureAllowed, requireCapability, resolveLicenseState, validateLicense,
    bind, lift, validateLicenseKey.
  rewrite Hb. repeat split.
Qed.

End BlankKey.

Lemma blank_key_rejected_witness :
  resolveLicenseState Examples.sample_sha256 Examples.sample_date
    (Examples.validator true (Some Examples.accept_all)) "   "
    {| outcome := Ret Examples.active_response; resumes := fun w => w |}
    Examples.world_cached
  = (Throw (mkExn TypeError "ValidationException is not a constructor"),
     Examples.world_cached).
Proof.
  apply (blank_key_rejected Examples.sample_sha256 Examples.sample_date (fun _ => false)
           (Examples.validator true (Some Examples.accept_all)) "   " "downloads"
           {| outcome := Ret Examples.active_response; resumes := fun w => w |}
           Examples.world_cached).
  reflexivity.
Defined.

(** *** Offline validation *)

Section OfflineProperties.

Variable JSON_parse : string -> result json.
Variable newSignatureVerifier : string -> result SignatureVerifier.t.
Variable date_millis : json -> option Z.
Variable configPublicKey : option string.
Variable verify_bytes : SignatureVerifier.t -> string -> json -> result bool.

Lemma offlineText_nonempty (data : json) : offlineText data <> "".
Proof. unfold offlineText. simpl. discriminate. Qed.

Lemma signatureErrors_nil (verifier : SignatureVerifier.t) (data signature : json) :
  signatureErrors verify_bytes verifier data signature = [] ->
  match signature with
  | JStr s => rsa_sha256 verifier (offlineText data) s = true
  | _ => verify_bytes verifier (offlineText data) signature = Ret true
  end.
Proof.
  unfold signatureErrors, SignatureVerifier.verify.
  destruct signature as [|b|n|s|items|props];
    try (match goal with
         | |- context [verify_bytes ?v ?t ?x] =>
             destruct (verify_bytes v t x) as [[|]|e]; [reflexivity|discriminate|discriminate]
         end).
  destruct (String.eqb (offlineText data) ""); [discriminate|].
  destruct (String.eqb s ""); [discriminate|].
  destruct (rsa_sha256 verifier (offlineText data) s) eqn:R; [|discriminate].
  reflexivity.
Qed.

Lemma expiryErrors_nil (now_ms : Z) (license : json) :
  expiryErrors date_millis now_ms license = [] ->
  forall v expiresAt,
    prop license "expires_at" = Some v -> truthy v = true ->
    date_millis v = Some expiresAt ->
    now_ms - 86400000 <= expiresAt.
Proof.
  unfold expiryErrors. intros H v e Hp Ht Hd.
  rewrite Hp in H. cbn [truthy_opt or_else] in H. rewrite Ht, Hd in H.
  destruct (Z.ltb_spec e (now_ms - 24 * 3600 * 1000)); [discriminate|]. lia.
Qed.

(** X21. Offline validation never reports a license file as valid unless
    the verifier built from the chosen public key (the one of the options,
    else the configured one) accepted the signature of the file for the text
    of the file without its signature: a signature that is a string by the
    key, any other signature by what [Buffer.from] and the key make of it.
    The list of errors is then empty, and an expiry date the file carries
    lies no more than 24 hours in the past. *)
Theorem validateOfflineLicense_sound (now_ms : Z) (offlineLicenseData : json)
    (options : Options) (r : OfflineResult) :
  validateOfflineLicense JSON_parse newSignatureVerifier date_millis configPublicKey
    verify_bytes now_ms offlineLicenseData options = Ret r ->
  offline_valid r = true ->
  exists data verifier signature,
    match offlineLicenseData with
    | JStr text => JSON_parse text = Ret data
    | _ => data = offlineLicenseData
    end /\
    newSignatureVerifier
      (str (if truthy_str (publicKey options) then publicKey options else configPublicKey))
    = Ret verifier /\
    prop data "signature" = Some signature /\
    match signature with
    | JStr s => rsa_sha256 verifier (offlineText data) s = true
    | _ => verify_bytes verifier (offlineText data) signature = Ret true
    end /\
    errors r = [] /\
    prop data "license" = Some (offline_license r) /\
    forall v expiresAt,
      prop (offline_license r) "expires_at" = Some v -> truthy v = true ->
      date_millis v = Some expiresAt ->
      now_ms - 86400000 <= expiresAt.
Proof.
  unfold validateOfflineLicense. intros H Hvalid.
  set (key := str (if truthy_str (publicKey options) then publicKey options
                   else configPublicKey)) in *.
  destruct (match offlineLicenseData with
            | JStr text =>
                match JSON_parse text with
                | Ret data => Ret data
                | Throw e => Throw (new_undefined "ValidationException")
                end
            | _ => Ret offlineLicenseData
            end) as [data|e] eqn:D; [|discriminate].
  assert (Hdata : match offlineLicenseData with
                  | JStr text => JSON_parse text = Ret data
                  | _ => data = offlineLicenseData
                  end).
  { destruct offlineLicenseData as [|b|n|text|items|props];
      try (inversion D; reflexivity).
    destruct (JSON_parse text); [inversion D; reflexivity|discriminate]. }
  clear D.
  assert (Hbody :
    (if negb (truthy_opt (prop data "license")) || negb (truthy_opt (prop data "signature"))
     then Throw (new_undefined "ValidationException")
     else
       if negb (truthy_str (if truthy_str (publicKey options) then publicKey options
                            else configPublicKey))
       then Throw (new_undefined "ValidationException")
       else
         match newSignatureVerifier key with
         | Throw e => Throw e
         | Ret verifier =>
             Ret {| offline_valid :=
                      (length (signatureErrors verify_bytes verifier data
                                 (or_else (prop data "signature") JNull)
                               ++ expiryErrors date_millis now_ms
                                    (or_else (prop data "license") JNull)
                               ++ hardwareErrors options
                                    (or_else (prop data "license") JNull)) =? 0)%nat;
                    offline_license := or_else (prop data "license") JNull;
                    errors := (signatureErrors verify_bytes verifier data
                                 (or_else (prop data "signature") JNull)
                               ++ expiryErrors date_millis now_ms
                                    (or_else (prop data "license") JNull)
                               ++ hardwareErrors options
                                    (or_else (prop data "license") JNull))%list |}
         end) = Ret r).
  { destruct data; try exact H. discriminate H. }
  clear H.
  destruct (truthy_opt (prop data "license")) eqn:TL; [|discriminate].
  destruct (truthy_opt (prop data "signature")) eqn:TS; [|discriminate].
  cbn [negb orb] in Hbody.
  destruct (negb (truthy_str _)); [discriminate|].
  destruct (newSignatureVerifier key) as [verifier|e] eqn:V; [|discriminate].
  inversion Hbody; subst r; clear Hbody.
  cbn [offline_valid errors offline_license] in *.
  apply Nat.eqb_eq in Hvalid. apply length_zero_iff_nil in Hvalid.
  apply app_eq_nil in Hvalid as [Hsig Hrest].
  apply app_eq_nil in Hrest as [Hexp Hhw].
  destruct (prop data "license") as [license|] eqn:L; [|discriminate].
  destruct (prop data "signature") as [signature|] eqn:S; [|discriminate].
  cbn [truthy_opt or_else] in *. rewrite TL in *. rewrite TS in *.
  pose proof (signatureErrors_nil _ _ _ Hsig) as Hacc.
  exists data, verifier, signature.
  split; [exact Hdata|]. split; [reflexivity|]. split; [exact S|].
  split; [exact Hacc|]. split; [rewrite Hsig, Hexp, Hhw; reflexivity|].
  split; [exact L|].
  apply expiryErrors_nil. exact Hexp.
Qed.

(** X22. A license file given as an object, with a string signature that
    the verifier of the public key of the options accepts, is reported
    valid, with no error and its license, when no hardware id is asked for
    and its expiry date, if it has one, lies no more than 24 hours in the
    past; nothing is thrown. *)
Theorem validateOfflineLicense_accepts (now_ms : Z) (props : obj) (options : Options)
    (license : json) (s key : string) (verifier : SignatureVerifier.t) :
  obj_get "license" props = Some license -> truthy license = true ->
  obj_get "signature" props = Some (JStr s) -> s <> "" ->
  publicKey options = Some key -> key <> "" ->
  newSignatureVerifier key = Ret verifier ->
  rsa_sha256 verifier (offlineText (JObj props)) s = true ->
  hardwareId options = None ->
  (forall v expiresAt,
     prop license "expires_at" = Some v -> truthy v = true ->
     date_millis v = Some expiresAt -> now_ms - 86400000 <= expiresAt) ->
  validateOfflineLicense JSON_parse newSignatureVerifier date_millis configPublicKey
    verify_bytes now_ms (JObj props) options
  = Ret {| offline_valid := true; offline_license := license; errors := [] |}.
Proof.
  intros Hl Htl Hs Hne Hk Hkne Hv Hacc Hhw Hexp.
  unfold validateOfflineLicense. cbn [prop].
  rewrite Hl, Hs. cbn [truthy_opt truthy or_else]. rewrite Htl.
  apply String.eqb_neq in Hne. rewrite Hne. cbn [negb orb].
  rewrite Hk. apply String.eqb_neq in Hkne.
  cbn [truthy_str]. rewrite Hkne. cbn [negb truthy_str]. rewrite Hkne.
  cbn [negb str]. rewrite Hv.
  assert (E1 : signatureErrors verify_bytes verifier (JObj props) (JStr s) = []).
  { unfold signatureErrors, SignatureVerifier.verify.
    pose proof (offlineText_nonempty (JObj props)) as Ht.
    apply String.eqb_neq in Ht. rewrite Ht, Hne, Hacc. reflexivity. }
  assert (E2 : expiryErrors date_millis now_ms license = []).
  { unfold expiryErrors.
    destruct (prop license "expires_at") as [v|] eqn:P; [|reflexivity].
    cbn [truthy_opt or_else]. destruct (truthy v) eqn:T; [|reflexivity].
    destruct (date_millis v) as [e|] eqn:D; [|reflexivity].
    specialize (Hexp v e eq_refl T D).
    destruct (Z.ltb_spec e (now_ms - 24 * 3600 * 1000)); [lia|reflexivity]. }
  assert (E3 : hardwareErrors options license = []).
  { unfold hardwareErrors. rewrite Hhw. reflexivity. }
  rewrite E1, E2, E3. reflexivity.
Qed.

End OfflineProperties.

Lemma validateOfflineLicense_accepts_witness :
  validateOfflineLicense Examples.no_parse Examples.load_key Examples.sample_millis None
    Examples.no_bytes (1000000 + 3600000) (JObj Examples.license_file) Examples.with_key
  = Ret {| offline_valid := true;
           offline_license := JObj [("key", JStr Examples.key);
                                    ("expires_at", JNum 1000000)];
           errors := [] |}.
Proof.
  apply (validateOfflineLicense_accepts Examples.no_parse Examples.load_key
           Examples.sample_millis None Examples.no_bytes (1000000 + 3600000)
           Examples.license_file Examples.with_key
           (JObj [("key", JStr Examples.key); ("expires_at", JNum 1000000)])
           (stringify (JObj Examples.license_file_body)) "PEM" Examples.echo_key);
    try reflexivity; try discriminate.
  intros v expiresAt Hv _ Hd. vm_compute in Hv. inversion Hv; subst v.
  vm_compute in Hd. inversion Hd; subst expiresAt. lia.
Defined.

Lemma validateOfflineLicense_sound_witness :
  exists data verifier signature,
    data = JObj Examples.license_file /\
    Examples.load_key "PEM" = Ret verifier /\
    prop data "signature" = Some signature /\
    match signature with
    | JStr s => rsa_sha256 verifier (offlineText data) s = true
    | _ => Examples.no_bytes verifier (offlineText data) signature = Ret true
    end.
Proof.
  destruct (validateOfflineLicense_sound Examples.no_parse Examples.load_key
              Examples.sample_millis None Examples.no_bytes (1000000 + 3600000)
              (JObj Examples.license_file) Examples.with_key
              {| offline_valid := true;
                 offline_license := JObj [("key", JStr Examples.key);
                                          ("expires_at", JNum 1000000)];
                 errors := [] |})
    as [data [verifier [signature [Hd [Hv [Hs [Hacc _]]]]]]].
  - vm_compute. reflexivity.
  - reflexivity.
  - exists data, verifier, signature. repeat split; assumption.
Defined.

(** *** The retry loop of the HTTP client *)

Section Retry.

Import HttpClient.

Variable getMessage : json -> string.
Variable verify_bytes : SignatureVerifier.t -> string -> json -> result bool.
Variable self : HttpClient.t.
Variable transport : nat -> result Response.

Lemma attempts_unfold (remaining attempt : nat) (last : option exn) :
  attempts getMessage verify_bytes self transport (S remaining) attempt last
  = match attempt_body getMessage verify_bytes self (transport attempt) with
    | Ret (Return value) => (Ret value, S attempt)
    | Ret Continue =>
        attempts getMessage verify_bytes self transport remaining (S attempt) last
    | Throw e =>
        (Throw (mkExn TypeError "Right-hand side of 'instanceof' is not callable"),
         S attempt)
    end.
Proof.
  cbn [attempts].
  destruct (attempt_body getMessage verify_bytes self (transport attempt)) as [[v|]|e];
    reflexivity.
Qed.

Lemma attempts_calls (remaining : nat) :
  forall (a : nat) (last : option exn),
    (a <= snd (attempts getMessage verify_bytes self transport remaining a last)
     <= a + remaining)%nat.
Proof.
  induction remaining as [|r IH]; intros a last.
  - cbn [attempts snd]. lia.
  - rewrite attempts_unfold.
    destruct (attempt_body getMessage verify_bytes self (transport a)) as [[v|]|e].
    + cbn [snd]. lia.
    + specialize (IH (S a) last). lia.
    + cbn [snd]. lia.
Qed.

Lemma attempts_returns (remaining : nat) :
  forall (a : nat) (last : option exn) (v : json) (n : nat),
    attempts getMessage verify_bytes self transport remaining a last = (Ret v, n) ->
    exists k, n = S k /\ (a <= k < a + remaining)%nat /\
              attempt_body getMessage verify_bytes self (transport k) = Ret (Return v).
Proof.
  induction remaining as [|r IH]; intros a last v n.
  - cbn [attempts]. intros H. inversion H.
  - rewrite attempts_unfold.
    destruct (attempt_body getMessage verify_bytes self (transport a)) as [[v'|]|e] eqn:B.
    + intros H. inversion H; subst. exists a. split; [reflexivity|]. split; [lia|exact B].
    + intros H. apply IH in H as [k [Hn [Hk Hb]]].
      exists k. split; [exact Hn|]. split; [lia|exact Hb].
    + intros H. inversion H.
Qed.

Lemma attempts_all_limited (remaining : nat) :
  forall (a : nat) (last : option exn),
    (forall i, (i < remaining)%nat ->
               attempt_body getMessage verify_bytes self (transport (a + i)%nat)
               = Ret Continue) ->
    attempts getMessage verify_bytes self transport remaining a last
    = attempts getMessage verify_bytes self transport 0%nat (a + remaining)%nat last.
Proof.
  induction remaining as [|r IH]; intros a last H.
  - rewrite Nat.add_0_r. reflexivity.
  - rewrite attempts_unfold.
    pose proof (H 0%nat ltac:(lia)) as H0. rewrite Nat.add_0_r in H0. rewrite H0.
    rewrite IH.
    + replace (S a + r)%nat with (a + S r)%nat by lia. reflexivity.
    + intros i Hi. replace (S a + i)%nat with (a + S i)%nat by lia.
      apply H. lia.
Qed.



(** X24. When every pass the retry budget allows is rate-limited (or the
    budget allows no pass at all), the call makes exactly that many requests
    and throws a TypeError: the NetworkError 'Request failed after N
    retries' that it means to throw is built by reading
    [NetworkException.ERROR_NETWORK_ERROR], the name being [undefined]. *)
Theorem request_exhausted :
  (forall i, (i < budget self)%nat ->
     attempt_body getMessage verify_bytes self (transport i) = Ret Continue) ->
  request getMessage verify_bytes self transport
  = (Throw (mkExn TypeError
              "Cannot read properties of undefined (reading 'ERROR_NETWORK_ERROR')"),
     budget self).
Proof.
  intros Hlimited. unfold request. fold (budget self).
  rewrite (attempts_all_limited (budget self) 0%nat None); [reflexivity|].
  intros i Hi. exact (Hlimited i Hi).
Qed.

(** X25. A call never makes more requests than the retry budget, and a
    value it returns is the value of the last request it made. *)
Theorem request_bounded :
  (snd (request getMessage verify_bytes self transport) <= budget self)%nat /\
  forall value n,
    request getMessage verify_bytes self transport = (Ret value, n) ->
    exists k, n = S k /\ (k < budget self)%nat /\
              attempt_body getMessage verify_bytes self (transport k)
              = Ret (Return value).
Proof.
  unfold request. fold (budget self). split.
  - pose proof (attempts_calls (budget self) 0%nat None). lia.
  - intros value n H. apply attempts_returns in H as [k [Hn [Hk Hb]]].
    exists k. split; [exact Hn|]. split; [lia|exact Hb].
Qed.


End Retry.


Lemma request_exhausted_witness :
  HttpClient.request Examples.sample_message Examples.no_bytes (Examples.client 3)
    Examples.limited
  = (Throw (mkExn TypeError
              "Cannot read properties of undefined (reading 'ERROR_NETWORK_ERROR')"),
     3%nat).
Proof.
  apply (request_exhausted Examples.sample_message Examples.no_bytes (Examples.client 3)
           Examples.limited).
  intros i Hi. reflexivity.
Defined.

(** A request that cannot connect is not tried again. *)
Example request_unreachable :
  HttpClient.request Examples.sample_message Examples.no_bytes (Examples.client 3)
    Examples.unreachable
  = (Throw (mkExn TypeError "Right-hand side of 'instanceof' is not callable"), 1%nat).
Proof. reflexivity. Qed.


(** *** Verification of a JSON text *)

Lemma obj_get_some_in (k : string) (v : json) (o : obj) :
  obj_get k o = Some v -> In (k, v) o.
Proof.
  induction o as [|[k' v'] o IH]; simpl; [discriminate|].
  destruct (String.eqb_spec k k') as [->|_].
  - intros H. inversion H. left. reflexivity.
  - intros H. right. apply IH. exact H.
Qed.

Lemma obj_get_none (k : string) (o : obj) :
  obj_get k o = None -> ~ In k (keys o).
Proof.
  induction o as [|[k' v'] o IH]; simpl; [tauto|].
  destruct (String.eqb_spec k k') as [->|Hne]; [discriminate|].
  intros H [E|Hin]; [congruence|]. exact (IH H Hin).
Qed.

Lemma obj_get_permutation (k : string) (p q : obj) :
  List.NoDup (keys p) -> Permutation p q -> obj_get k p = obj_get k q.
Proof.
  intros Hnd Hperm.
  assert (Hndq : List.NoDup (keys q)).
  { eapply Permutation_NoDup; [|exact Hnd]. unfold keys. apply Permutation_map. exact Hperm. }
  destruct (obj_get k p) as [v|] eqn:E.
  - symmetry. apply obj_get_in; [exact Hndq|].
    eapply Permutation_in; [exact Hperm|]. apply obj_get_some_in. exact E.
  - destruct (obj_get k q) as [w|] eqn:F; [|reflexivity].
    exfalso. apply obj_get_none in E. apply E.
    apply obj_get_some_in in F.
    apply Permutation_sym in Hperm.
    apply (Permutation_in _ Hperm) in F.
    change k with (fst (k, w)). apply in_map. exact F.
Qed.

Lemma obj_get_same_props (k : string) (p p' : obj) :
  Forall2 (fun kv kv' => fst kv = fst kv' /\ same_value (snd kv) (snd kv')) p p' ->
  match obj_get k p, obj_get k p' with
  | Some v, Some v' => same_value v v'
  | None, None => True
  | _, _ => False
  end.
Proof.
  induction 1 as [|[k1 v1] [k2 v2] p p' [E S] _ IH]; simpl; [exact I|].
  simpl in E, S. subst k2. destruct (String.eqb k k1); [exact S|exact IH].
Qed.

Lemma obj_delete_filter (k : string) (o : obj) :
  obj_delete k o = List.filter (fun kv => negb (String.eqb k (fst kv))) o.
Proof.
  induction o as [|[k' v'] o IH]; simpl; [reflexivity|].
  destruct (String.eqb k k'); simpl; rewrite IH; reflexivity.
Qed.

Lemma filter_permutation {A : Type} (f : A -> bool) (l l' : list A) :
  Permutation l l' -> Permutation (List.filter f l) (List.filter f l').
Proof.
  induction 1 as [|x l l' _ IH|x y l|l l' l'' _ IH1 _ IH2]; simpl.
  - constructor.
  - destruct (f x); [constructor|]; exact IH.
  - destruct (f x), (f y); try reflexivity. constructor.
  - etransitivity; eassumption.
Qed.

Lemma keys_filter_nodup (f : string * json -> bool) (o : obj) :
  List.NoDup (keys o) -> List.NoDup (keys (List.filter f o)).
Proof.
  induction o as [|kv o IH]; simpl; intros Hnd; [constructor|].
  apply NoDup_cons_iff in Hnd as [Hnotin Hnd].
  destruct (f kv); [|exact (IH Hnd)].
  simpl. constructor; [|exact (IH Hnd)].
  intros Hin. apply Hnotin. unfold keys in *.
  apply in_map_iff in Hin as [x [E Hx]]. apply filter_In in Hx as [Hx _].
  apply in_map_iff. exists x. split; assumption.
Qed.

Lemma obj_delete_same (k : string) (p p' : obj) :
  same_value (JObj p) (JObj p') ->
  same_value (JObj (obj_delete k p)) (JObj (obj_delete k p')).
Proof.
  intros H. inversion H as [| | | | |props reordered props' Hnd Hperm Hsame]; subst.
  rewrite !obj_delete_filter.
  apply (same_obj _ (List.filter (fun kv => negb (String.eqb k (fst kv))) reordered)).
  - apply keys_filter_nodup. exact Hnd.
  - apply filter_permutation. exact Hperm.
  - clear H Hperm Hnd.
    induction Hsame as [|kv kv' l l' [E S] _ IH]; simpl; [constructor|].
    rewrite <- E. destruct (negb (String.eqb k (fst kv))); [|exact IH].
    constructor; [split; assumption|exact IH].
Qed.

Lemma same_value_signature (x x' : json) :
  same_value x x' ->
  truthy x = truthy x' /\
  match x with
  | JStr s => x' = JStr s
  | _ => match x' with JStr _ => False | _ => True end
  end.
Proof. intros H. inversion H; subst; simpl; auto. Qed.

(** X27. What [verifyJsonResponse] answers does not depend on the order in
    which the objects of the text list their keys, at any depth: two texts
    that parse to the same value up to the order of keys are both accepted,
    both rejected, or refused with the same error. *)
Theorem verifyJsonResponse_key_order (JSON_parse : string -> result json)
    (v : SignatureVerifier.t) (text text' : string) (data data' : json) :
  JSON_parse text = Ret data ->
  JSON_parse text' = Ret data' ->
  same_value data data' ->
  verifyJsonResponse JSON_parse v text = verifyJsonResponse JSON_parse v text'.
Proof.
  intros Hp Hp' Hsame. unfold verifyJsonResponse. rewrite Hp, Hp'.
  pose proof Hsame as Hinv.
  inversion Hinv as [| | | |items items' Hitems|props reordered props' Hnd Hperm Hprops];
    subst; try reflexivity.
  cbn [prop].
  pose proof (obj_get_same_props "signature" reordered props' Hprops) as Hget.
  rewrite <- (obj_get_permutation "signature" props reordered Hnd Hperm) in Hget.
  destruct (obj_get "signature" props) as [x|], (obj_get "signature" props') as [x'|];
    try contradiction; [|reflexivity].
  apply same_value_signature in Hget as [Ht Hs].
  assert (Hcanon : canonicalizeJson (delete_signature (JObj props))
                   = canonicalizeJson (delete_signature (JObj props'))).
  { unfold canonicalizeJson, delete_signature. f_equal.
    apply sortKeysRecursive_same. apply obj_delete_same. exact Hsame. }
  destruct x; try (subst x'; rewrite Hcanon; reflexivity);
    destruct x'; try contradiction; rewrite <- ?Ht; reflexivity.
Qed.

Lemma verifyJsonResponse_key_order_witness :
  verifyJsonResponse
    (fun text => if String.eqb text "a"
                 then Ret (JObj [("valid", JBool true); ("signature", JStr "s")])
                 else Ret (JObj [("signature", JStr "s"); ("valid", JBool true)]))
    Examples.echo_key "a"
  = verifyJsonResponse
      (fun text => if String.eqb text "a"
                   then Ret (JObj [("valid", JBool true); ("signature", JStr "s")])
                   else Ret (JObj [("signature", JStr "s"); ("valid", JBool true)]))
      Examples.echo_key "b".
Proof.
  apply (verifyJsonResponse_key_order _ Examples.echo_key "a" "b"
           (JObj [("valid", JBool true); ("signature", JStr "s")])
           (JObj [("signature", JStr "s"); ("valid", JBool true)]));
    [reflexivity | reflexivity |].
  apply (same_obj _ [("signature", JStr "s"); ("valid", JBool true)]).
  - repeat constructor; simpl; intuition discriminate.
  - apply perm_swap.
  - repeat constructor.
Defined.

(** *** Presence in the state store *)

(** X28. [has] answers [false] exactly when [get] would answer with a miss,
    and then both leave the store in the same state; when [has] answers
    [true] it leaves the store as it is, although [get] may still refuse the
    entry for its signature. *)
Theorem has_iff_get_no_miss (self : StateStore.t) (now : Z) (key : string) :
  (fst (StateStore.has self now key) = false <->
   fst (StateStore.get self now key) = Ret None) /\
  (fst (StateStore.has self now key) = false ->
   snd (StateStore.has self now key) = snd (StateStore.get self now key)) /\
  (fst (StateStore.has self now key) = true ->
   snd (StateStore.has self now key) = self).
Proof.
  unfold StateStore.has, StateStore.get.
  destruct (StateStore.store self !! key) as [cached|];
    [destruct (StateStore.expiresAt cached <? now);
     [|destruct (fromCache now (StateStore.cachedState cached)
                   (StateStore.verifier self))]|];
    cbn [fst snd];
    (split; [split|split]); intros; first [reflexivity | discriminate].
Qed.

(** *** Identifiers of the download manager *)

Lemma byte_cases (P : Z -> bool) :
  forallb P (map Z.of_nat (seq 0 256)) = true ->
  forall b, 0 <= b < 256 -> P b = true.
Proof.
  intros H b Hb. rewrite forallb_forall in H. apply H.
  apply in_map_iff. exists (Z.to_nat b). split; [lia|].
  apply in_seq. lia.
Qed.

Lemma hex_digit_cases (n : N) :
  (n < 16)%N -> In (hex_digit n) (list_ascii_of_string "0123456789abcdef").
Proof.
  intros H.
  assert (A : forallb (fun k => existsb (Ascii.eqb (hex_digit (N.of_nat k)))
                                  (list_ascii_of_string "0123456789abcdef"))
                      (seq 0 16) = true) by (vm_compute; reflexivity).
  rewrite forallb_forall in A.
  specialize (A (N.to_nat n)). rewrite N2Nat.id in A.
  assert (Hin : In (N.to_nat n) (seq 0 16)) by (apply in_seq; lia).
  apply A in Hin. apply existsb_exists in Hin as [c [Hc E]].
  apply Ascii.eqb_eq in E. rewrite E. exact Hc.
Qed.

Lemma hex_byte_digits (b : Z) :
  0 <= b < 256 ->
  exists c1 c2,
    DownloadManager.hex_byte b = String c1 (String c2 "") /\
    In c1 (list_ascii_of_string "0123456789abcdef") /\
    In c2 (list_ascii_of_string "0123456789abcdef").
Proof.
  intros Hb. unfold DownloadManager.hex_byte.
  eexists. eexists. split; [reflexivity|]. split; apply hex_digit_cases.
  - assert (b / 16 < 16) by (apply Z.div_lt_upper_bound; lia).
    assert (0 <= b / 16) by (apply Z.div_pos; lia). lia.
  - pose proof (Z.mod_pos_bound b 16 ltac:(lia)). lia.
Qed.

Lemma version_byte (b : Z) :
  0 <= b < 256 ->
  exists d,
    DownloadManager.hex_byte (Z.lor (Z.land b 15) 64) = String "4"%char (String d "") /\
    In d (list_ascii_of_string "0123456789abcdef").
Proof.
  intros Hb.
  pose proof (byte_cases
    (fun b => (0 <=? Z.lor (Z.land b 15) 64) && (Z.lor (Z.land b 15) 64 <? 256) &&
              Ascii.eqb (hex_digit (Z.to_N (Z.lor (Z.land b 15) 64 / 16))) "4"%char)
    ltac:(vm_compute; reflexivity) b Hb) as H.
  cbv beta in H. apply andb_true_iff in H as [H H3]. apply andb_true_iff in H as [H1 H2].
  apply Ascii.eqb_eq in H3.
  destruct (hex_byte_digits (Z.lor (Z.land b 15) 64) ltac:(lia)) as [c [d [E [_ Hd]]]].
  exists d. split; [|exact Hd].
  rewrite E. unfold DownloadManager.hex_byte in E. inversion E. subst c.
  rewrite <- H3. reflexivity.
Qed.

Lemma variant_byte (b : Z) :
  0 <= b < 256 ->
  exists c d,
    DownloadManager.hex_byte (Z.lor (Z.land b 63) 128) = String c (String d "") /\
    In c (list_ascii_of_string "89ab") /\
    In d (list_ascii_of_string "0123456789abcdef").
Proof.
  intros Hb.
  pose proof (byte_cases
    (fun b => (0 <=? Z.lor (Z.land b 63) 128) && (Z.lor (Z.land b 63) 128 <? 256) &&
              existsb (Ascii.eqb (hex_digit (Z.to_N (Z.lor (Z.land b 63) 128 / 16))))
                      (list_ascii_of_string "89ab"))
    ltac:(vm_compute; reflexivity) b Hb) as H.
  cbv beta in H. apply andb_true_iff in H as [H H3]. apply andb_true_iff in H as [H1 H2].
  apply existsb_exists in H3 as [x [Hx E]]. apply Ascii.eqb_eq in E.
  destruct (hex_byte_digits (Z.lor (Z.land b 63) 128) ltac:(lia)) as [c [d [E' [_ Hd]]]].
  exists c, d. split; [exact E'|]. split; [|exact Hd].
  unfold DownloadManager.hex_byte in E'. inversion E'. rewrite E. exact Hx.
Qed.

(** X29. From any 16 bytes [generateUuid] makes a text of 36 characters:
    hyphens at the positions 8, 13, 18 and 23 and lower-case hexadecimal
    digits everywhere else, the digit at position 14 being the version 4 and
    the digit at position 19 one of 8, 9, a and b (the RFC 4122 variant),
    whatever the bytes drawn. *)
Theorem generateUuid_format (bytes : list Z) :
  length bytes = 16%nat ->
  (forall b, In b bytes -> 0 <= b < 256) ->
  let uuid := DownloadManager.generateUuid bytes in
  String.length uuid = 36%nat /\
  (forall i, In i [8; 13; 18; 23]%nat -> String.get i uuid = Some "-"%char) /\
  String.get 14 uuid = Some "4"%char /\
  (exists c, String.get 19 uuid = Some c /\ In c (list_ascii_of_string "89ab")) /\
  (forall i c, String.get i uuid = Some c -> ~ In i [8; 13; 18; 23]%nat ->
               In c (list_ascii_of_string "0123456789abcdef")).
Proof.
  intros Hlen Hrange.
  do 16 (destruct bytes as [|? bytes]; [discriminate Hlen|]).
  destruct bytes; [|discriminate Hlen]. clear Hlen.
  repeat match goal with
  | b : Z |- _ =>
      lazymatch goal with
      | H : 0 <= b < 256 |- _ => fail
      | _ => assert (0 <= b < 256) by (apply Hrange; simpl; tauto)
      end
  end.
  clear Hrange.
  cbv [DownloadManager.generateUuid DownloadManager.set_byte DownloadManager.to_hex].
  match goal with
  | H : 0 <= ?b < 256 |- context [Z.lor (Z.land ?b 15) 64] =>
      destruct (version_byte b H) as [dv [Ev Hdv]]; rewrite Ev; clear Ev
  end.
  match goal with
  | H : 0 <= ?b < 256 |- context [Z.lor (Z.land ?b 63) 128] =>
      destruct (variant_byte b H) as [cr [dr [Er [Hcr Hdr]]]]; rewrite Er; clear Er
  end.
  repeat match goal with
  | H : 0 <= ?b < 256 |- context [DownloadManager.hex_byte ?b] =>
      let c1 := fresh "c" in let c2 := fresh "d" in
      let E := fresh "E" in let H1 := fresh "H1" in let H2 := fresh "H2" in
      pose proof (hex_byte_digits b H) as [c1 [c2 [E [H1 H2]]]];
      rewrite E; clear E
  end.
  cbv [DownloadManager.substring String.substring join String.append Nat.sub
       String.length String.get].
  split; [reflexivity|]. split.
  { intros i Hi. simpl in Hi.
    destruct Hi as [<-|[<-|[<-|[<-|[]]]]]; reflexivity. }
  split; [reflexivity|]. split.
  { exists cr. split; [reflexivity|exact Hcr]. }
  intros i ch Hget Hnot.
  assert (Hsub : forall x, In x (list_ascii_of_string "89ab") ->
                           In x (list_ascii_of_string "0123456789abcdef")).
  { intros x Hx. simpl in Hx |- *. tauto. }
  assert (Hfour : In "4"%char (list_ascii_of_string "0123456789abcdef"))
    by (simpl; tauto).
  do 36 (destruct i as [|i];
         [first [inversion Hget; subst ch; first [assumption | apply Hsub; assumption]
                | exfalso; apply Hnot; simpl; tauto]|]).
  discriminate Hget.
Qed.

Lemma generateUuid_format_witness :
  DownloadManager.generateUuid (repeat 255 16) = "ffffffff-ffff-4fff-bfff-ffffffffffff" /\
  String.get 14 (DownloadManager.generateUuid (repeat 255 16)) = Some "4"%char.
Proof.
  split; [vm_compute; reflexivity|].
  pose proof (generateUuid_format (repeat 255 16)) as H. cbv zeta in H.
  destruct H as [_ [_ [Hversion _]]];
    [reflexivity | intros b Hb; apply repeat_spec in Hb; lia | exact Hversion].
Defined.
